(** * Financial-Insights: a shallow embedding of the tool layer and the aggregator

    The development follows the repository file by file:

    - [Py]        the Python values, string methods, dictionaries and
                  exceptions the code relies on;
    - [Sys]       the outside world (environment variables, the rate API,
                  the market-data provider) and the monad the tools run in;
    - [Currency]  src/mcp/currency_tools.py;
    - [Stock]     src/mcp/stock_tools.py;
    - [Maps]      src/mcp/maps_tools.py;
    - [Server]    src/mcp/server.py;
    - [Agent]     src/agent/agent.py.

    Definitions come first, the verified properties after them. *)

From Stdlib Require Import ZArith List String Ascii Bool Arith Lia.
From Stdlib Require Import Floats.SpecFloat DecimalString.
Import ListNotations.
Open Scope string_scope.

(* ===================================================================== *)
(** * Python values and built-ins *)
(* ===================================================================== *)

Module Py.

(** ** Strings

    A Python [str] is modelled by its UTF-8 bytes.  [lower], [strip] and
    [title] below agree with Python's on ASCII text; a non-ASCII byte is
    neither a letter nor white space here, so it is copied unchanged, where
    Python would strip a no-break space or lower a letter outside ASCII.
    Every table key and every phrase the repository matches against is
    ASCII.  [len] and [slice_to] count characters, as Python does. *)

Definition nl : string := String "010"%char EmptyString.
Definition dquote : string := String "034"%char EmptyString.

Definition is_upper (c : ascii) : bool :=
  let n := nat_of_ascii c in ((65 <=? n) && (n <=? 90))%nat.

Definition is_lower (c : ascii) : bool :=
  let n := nat_of_ascii c in ((97 <=? n) && (n <=? 122))%nat.

Definition is_cased (c : ascii) : bool := is_upper c || is_lower c.

(** The ASCII characters for which [str.isspace] holds. *)
Definition is_space (c : ascii) : bool :=
  let n := nat_of_ascii c in
  (((9 <=? n) && (n <=? 13)) || ((28 <=? n) && (n <=? 32)))%nat.

Definition to_lower (c : ascii) : ascii :=
  if is_upper c then ascii_of_nat (nat_of_ascii c + 32) else c.

Definition to_upper (c : ascii) : ascii :=
  if is_lower c then ascii_of_nat (nat_of_ascii c - 32) else c.

(** [s.lower()] *)
Fixpoint lower (s : string) : string :=
  match s with
  | EmptyString => EmptyString
  | String c s' => String (to_lower c) (lower s')
  end.

Fixpoint lstrip (s : string) : string :=
  match s with
  | EmptyString => EmptyString
  | String c s' => if is_space c then lstrip s' else s
  end.

Fixpoint rstrip (s : string) : string :=
  match s with
  | EmptyString => EmptyString
  | String c s' =>
      match rstrip s' with
      | EmptyString => if is_space c then EmptyString else String c EmptyString
      | t => String c t
      end
  end.

(** [s.strip()] *)
Definition strip (s : string) : string := rstrip (lstrip s).

Fixpoint title_from (prev_cased : bool) (s : string) : string :=
  match s with
  | EmptyString => EmptyString
  | String c s' =>
      String (if is_cased c
              then (if prev_cased then to_lower c else to_upper c)
              else c)
             (title_from (is_cased c) s')
  end.

(** [s.title()]: a letter that follows a non-letter is upper-cased, every
    other letter is lower-cased. *)
Definition title (s : string) : string := title_from false s.

(** [s.isascii()] *)
Fixpoint isascii (s : string) : bool :=
  match s with
  | EmptyString => true
  | String c s' => (nat_of_ascii c <? 128)%nat && isascii s'
  end.

(** The three methods as an interpreter provides them.  CPython's work on
    all of Unicode: [strip] also removes a no-break space, [lower] and
    [title] also change letters outside ASCII.  A function written over a
    [Text] makes no assumption about them, so what is proved of it for every
    [Text] holds of the code under CPython's methods; [ascii_text] is the
    instance made of the definitions above, which is CPython's on the texts
    [isascii] accepts. *)
Record Text : Type := {
  text_lower : string -> string;
  text_strip : string -> string;
  text_title : string -> string
}.

Definition ascii_text : Text :=
  {| text_lower := lower; text_strip := strip; text_title := title |}.

Fixpoint replace_from (old new : string) (skip : nat) (s : string) : string :=
  match s with
  | EmptyString => EmptyString
  | String c s' =>
      match skip with
      | S k => replace_from old new k s'
      | O =>
          if prefix old s
          then new ++ replace_from old new (String.length old - 1) s'
          else String c (replace_from old new 0 s')
      end
  end.

(** [s.replace(old, new)], left to right, occurrences not overlapping.
    Every call in the repository passes a non-empty [old]. *)
Definition replace (old new s : string) : string := replace_from old new 0 s.

(** [sub in s] *)
Fixpoint contains (sub s : string) : bool :=
  prefix sub s ||
  match s with
  | EmptyString => false
  | String _ s' => contains sub s'
  end.

(** [s.split(sep)] for a one-character separator. *)
Fixpoint split (sep : ascii) (s : string) : list string :=
  match s with
  | EmptyString => [EmptyString]
  | String c s' =>
      if Ascii.eqb c sep then EmptyString :: split sep s'
      else match split sep s' with
           | h :: t => String c h :: t
           | [] => [String c EmptyString]
           end
  end.

(** A byte that continues a character of the UTF-8 text: [10xxxxxx].  Every
    other byte starts a character. *)
Definition is_continuation (c : ascii) : bool :=
  let n := nat_of_ascii c in ((128 <=? n) && (n <? 192))%nat.

(** [len(s)]: the characters of [s], one for each byte that starts one. *)
Fixpoint len (s : string) : nat :=
  match s with
  | EmptyString => 0
  | String c s' => if is_continuation c then len s' else S (len s')
  end.

(** [s[:n]]: the first [n] characters of [s], each with all its bytes. *)
Fixpoint slice_to (n : nat) (s : string) : string :=
  match s with
  | EmptyString => EmptyString
  | String c s' =>
      if is_continuation c then String c (slice_to n s')
      else match n with
           | O => EmptyString
           | S k => String c (slice_to k s')
           end
  end.

(** [not s] for a string: only the empty string is falsy. *)
Definition str_falsy (s : string) : bool :=
  match s with EmptyString => true | _ => false end.

(** ** Floating-point numbers: IEEE 754 binary64 *)

Definition float : Type := spec_float.
Definition prec : Z := 53.
Definition emax : Z := 1024.

Definition float_sub : float -> float -> float := SFsub prec emax.
Definition float_mul : float -> float -> float := SFmul prec emax.
Definition float_div : float -> float -> float := SFdiv prec emax.

(** The double nearest to an integer. *)
Definition float_of_Z (n : Z) : float := binary_normalize prec emax n 0 false.

(** A decimal literal [m / 10^k], as Python reads it: the double nearest to
    the quotient (both operands are exact, the division rounds once). *)
Definition decimal (m : Z) (k : nat) : float :=
  float_div (float_of_Z m) (float_of_Z (10 ^ Z.of_nat k)).

Definition float_is_zero (x : float) : bool :=
  match x with S754_zero _ => true | _ => false end.


(** ** Dynamically typed values

    The values a provider's JSON can put into a dictionary, and the numbers
    the code computes: [None], an [int], a [float], a [str]. *)

Inductive pyval : Type :=
| PyNone
| PyInt (n : Z)
| PyFloat (x : float)
| PyStr (s : string).

(** [bool(v)] *)
Definition truthy (v : pyval) : bool :=
  match v with
  | PyNone => false
  | PyInt n => negb (n =? 0)%Z
  | PyFloat x => negb (float_is_zero x)
  | PyStr s => negb (str_falsy s)
  end.

(** [isinstance(v, (int, float))] *)
Definition is_number (v : pyval) : bool :=
  match v with
  | PyInt _ | PyFloat _ => true
  | PyNone | PyStr _ => false
  end.

(** ** Exceptions

    Only subclasses of [Exception] are modelled; [requests]' errors are
    singled out because one handler catches them alone. *)

Inductive exn_class : Type :=
| RequestException
| TypeError
| ZeroDivisionError
| OverflowError
| OtherException.

Record exn : Type := mk_exn { exn_type : exn_class; exn_str : string }.

Inductive outcome (A : Type) : Type :=
| Ok (a : A)
| Raise (e : exn).

Arguments Ok {A} a.
Arguments Raise {A} e.

Definition exn_class_eqb (a b : exn_class) : bool :=
  match a, b with
  | RequestException, RequestException
  | TypeError, TypeError
  | ZeroDivisionError, ZeroDivisionError
  | OverflowError, OverflowError
  | OtherException, OtherException => true
  | _, _ => false
  end.

(** ** Dictionaries

    A [dict] keeps its keys in insertion order, each key once. *)

Definition dict (V : Type) : Type := list (string * V).

(** [d.get(k)] *)
Fixpoint dict_get {V : Type} (d : dict V) (k : string) : option V :=
  match d with
  | [] => None
  | (k', v) :: d' => if String.eqb k k' then Some v else dict_get d' k
  end.

(** [k in d] *)
Definition dict_has {V : Type} (d : dict V) (k : string) : bool :=
  match dict_get d k with Some _ => true | None => false end.

(** [d[k] = v]: an existing key keeps its place, a new one goes last. *)
Fixpoint dict_set {V : Type} (d : dict V) (k : string) (v : V) : dict V :=
  match d with
  | [] => [(k, v)]
  | (k', v') :: d' =>
      if String.eqb k k' then (k', v) :: d' else (k', v') :: dict_set d' k v
  end.

Definition dict_keys {V : Type} (d : dict V) : list string := map fst d.

(** [x in xs] for a list of strings *)
Definition list_has (xs : list string) (x : string) : bool :=
  existsb (String.eqb x) xs.

(** [xs.remove(x)]: drops the first occurrence. *)
Fixpoint list_remove (xs : list string) (x : string) : list string :=
  match xs with
  | [] => []
  | y :: ys => if String.eqb x y then ys else y :: list_remove ys x
  end.

(** ** What the runtime and the third-party libraries decide

    Behaviour the repository uses but does not define: how a float is
    rounded to two decimals, and texts produced by the interpreter.
    [format_spec] covers the values formatting accepts: a float under any
    of the specifications the code uses, and an [int] that converts to a
    float under ".4f" (a larger one raises OverflowError there, which the
    record has no place for). *)

Record Runtime : Type := {
  (** [round(x, 2)] on a float *)
  round_float : float -> float;
  (** [format(v, spec)], as an f-string field [{v:spec}] applies it *)
  format_spec : string -> pyval -> string;
  (** the text of the TypeError raised when a non-number is subtracted
      from a float *)
  operand_error : pyval -> string
}.

(** ** Arithmetic on dynamically typed operands *)

(** [float(n)] for an [int]: the nearest double, or OverflowError. *)
Definition float_of_int (n : Z) : outcome float :=
  match float_of_Z n with
  | S754_infinity _ =>
      Raise (mk_exn OverflowError "int too large to convert to float")
  | x => Ok x
  end.

Section Operators.
Variable rt : Runtime.

(** [x - v], the left operand a float. *)
Definition sub_from_float (x : float) (v : pyval) : outcome float :=
  match v with
  | PyFloat y => Ok (float_sub x y)
  | PyInt n =>
      match float_of_int n with
      | Ok y => Ok (float_sub x y)
      | Raise e => Raise e
      end
  | PyNone | PyStr _ => Raise (mk_exn TypeError (operand_error rt v))
  end.

(** [x / v], the left operand a float.  A zero divisor is a fault:
    Python raises ZeroDivisionError (numpy's scalars would warn and
    yield an infinity or NaN instead). *)
Definition div_float_by (x : float) (v : pyval) : outcome float :=
  match v with
  | PyFloat y =>
      if float_is_zero y
      then Raise (mk_exn ZeroDivisionError "float division by zero")
      else Ok (float_div x y)
  | PyInt n =>
      if (n =? 0)%Z
      then Raise (mk_exn ZeroDivisionError "float division by zero")
      else match float_of_int n with
           | Ok y => Ok (float_div x y)
           | Raise e => Raise e
           end
  | PyNone | PyStr _ => Raise (mk_exn TypeError (operand_error rt v))
  end.

(** [round(v, 2)]: an [int] is returned as it is, a float is rounded by
    the runtime. *)
Definition round2 (v : pyval) : outcome pyval :=
  match v with
  | PyInt n => Ok (PyInt n)
  | PyFloat x => Ok (PyFloat (round_float rt x))
  | PyNone | PyStr _ => Raise (mk_exn TypeError (operand_error rt v))
  end.

End Operators.

(** [v >= 0] for a number; false for NaN. *)
Definition ge_zero (v : pyval) : bool :=
  match v with
  | PyInt n => (0 <=? n)%Z
  | PyFloat x => SFleb (S754_zero false) x
  | PyNone | PyStr _ => false
  end.

(** [abs(v)] *)
Definition py_abs (v : pyval) : pyval :=
  match v with
  | PyInt n => PyInt (Z.abs n)
  | PyFloat x => PyFloat (SFabs x)
  | other => other
  end.

End Py.

(* ===================================================================== *)
(** * The outside world and the monad of the tools *)
(* ===================================================================== *)

Module Sys.
Import Py.

(** The JSON object the rate API answers with; a field is [None] when its
    key is missing. *)
Record api_response : Type := {
  result : option string;
  error_type : option string;
  conversion_rates : option (dict pyval);
  time_last_update_utc : option string;
  time_next_update_utc : option string
}.

(** The rows of the data frame [ticker.history] returns: the index entry as
    [strftime] prints it, and the [Close] column. *)
Definition history : Type := list (string * float).

(** What lies outside the process at one moment.  A request either raises
    or yields its data; [requests_get] stands for the GET, its
    [raise_for_status] and its [json()] taken together.  The data is a JSON
    object of the shape the API documents: a body that is not an object, or
    whose [conversion_rates] is not an object, has no [api_response]. *)
Record World : Type := {
  getenv : string -> option string;
  requests_get : string -> outcome api_response;
  ticker_info : string -> outcome (dict pyval);
  ticker_history : string -> outcome history
}.

(** Network traffic, in the order it happens. *)
Inductive event : Type :=
| HttpGet (url : string)
| YfInfo (symbol : string)
| YfHistory (symbol : string).

(** A computation reads the world, performs requests and returns or
    raises. *)
Definition IO (A : Type) : Type := World -> list event * outcome A.

Definition ret {A : Type} (a : A) : IO A := fun _ => ([], Ok a).

Definition raise {A : Type} (e : exn) : IO A := fun _ => ([], Raise e).

Definition bind {A B : Type} (m : IO A) (k : A -> IO B) : IO B :=
  fun w =>
    match m w with
    | (tr, Ok a) => let (tr', r) := k a w in ((tr ++ tr')%list, r)
    | (tr, Raise e) => (tr, Raise e)
    end.

(** [try: body  except <classes> as e: handler e] *)
Definition try_except {A : Type} (body : IO A) (catches : exn -> bool)
    (handler : exn -> IO A) : IO A :=
  fun w =>
    match body w with
    | (tr, Ok a) => (tr, Ok a)
    | (tr, Raise e) =>
        if catches e
        then let (tr', r) := handler e w in ((tr ++ tr')%list, r)
        else (tr, Raise e)
    end.

(** [except Exception] *)
Definition any_exception (e : exn) : bool := true.

(** [except requests.exceptions.RequestException] *)
Definition request_exception (e : exn) : bool :=
  exn_class_eqb (exn_type e) RequestException.

Definition lift {A : Type} (o : outcome A) : IO A := fun _ => ([], o).

(** [os.getenv(name)] *)
Definition os_getenv (name : string) : IO (option string) :=
  fun w => ([], Ok (getenv w name)).

(** [requests.get(url, timeout=10)], [raise_for_status()], [json()] *)
Definition http_get_json (url : string) : IO api_response :=
  fun w => ([HttpGet url], requests_get w url).

(** [yf.Ticker(symbol).info] *)
Definition yf_info (symbol : string) : IO (dict pyval) :=
  fun w => ([YfInfo symbol], ticker_info w symbol).

(** [yf.Ticker(symbol).history(period="5d")] *)
Definition yf_history (symbol : string) : IO history :=
  fun w => ([YfHistory symbol], ticker_history w symbol).

(** The value or exception a run ends with, and its traffic. *)
Definition result_of {A : Type} (m : IO A) (w : World) : outcome A := snd (m w).
Definition traffic {A : Type} (m : IO A) (w : World) : list event := fst (m w).

(** [not key] for an optional environment value: unset or empty. *)
Definition key_missing (k : option string) : bool :=
  match k with
  | None => true
  | Some s => str_falsy s
  end.

End Sys.

Declare Scope io_scope.
Delimit Scope io_scope with io.
Notation "x <- c ;; k" := (Sys.bind c (fun x => k))
  (at level 61, c at next level, right associativity) : io_scope.

(* ===================================================================== *)
(** * src/mcp/currency_tools.py *)
(* ===================================================================== *)

Module Currency.
Import Py Sys.
Local Open Scope io_scope.

Record currency_entry : Type := { code : string; name : string }.

(** Country to currency code mapping (ISO 4217) *)
Definition country_currency_map : dict currency_entry :=
  [
    ("japan", {| code := "JPY"; name := "Japanese Yen" |});
    ("india", {| code := "INR"; name := "Indian Rupee" |});
    ("united states", {| code := "USD"; name := "US Dollar" |});
    ("usa", {| code := "USD"; name := "US Dollar" |});
    ("united kingdom", {| code := "GBP"; name := "British Pound Sterling" |});
    ("uk", {| code := "GBP"; name := "British Pound Sterling" |});
    ("south korea", {| code := "KRW"; name := "South Korean Won" |});
    ("korea", {| code := "KRW"; name := "South Korean Won" |});
    ("china", {| code := "CNY"; name := "Chinese Yuan" |});
    ("germany", {| code := "EUR"; name := "Euro" |});
    ("france", {| code := "EUR"; name := "Euro" |});
    ("italy", {| code := "EUR"; name := "Euro" |});
    ("spain", {| code := "EUR"; name := "Euro" |});
    ("canada", {| code := "CAD"; name := "Canadian Dollar" |});
    ("australia", {| code := "AUD"; name := "Australian Dollar" |});
    ("brazil", {| code := "BRL"; name := "Brazilian Real" |});
    ("mexico", {| code := "MXN"; name := "Mexican Peso" |});
    ("switzerland", {| code := "CHF"; name := "Swiss Franc" |});
    ("singapore", {| code := "SGD"; name := "Singapore Dollar" |});
    ("hong kong", {| code := "HKD"; name := "Hong Kong Dollar" |});
    ("russia", {| code := "RUB"; name := "Russian Ruble" |});
    ("south africa", {| code := "ZAR"; name := "South African Rand" |});
    ("turkey", {| code := "TRY"; name := "Turkish Lira" |});
    ("saudi arabia", {| code := "SAR"; name := "Saudi Riyal" |});
    ("uae", {| code := "AED"; name := "UAE Dirham" |});
    ("thailand", {| code := "THB"; name := "Thai Baht" |});
    ("malaysia", {| code := "MYR"; name := "Malaysian Ringgit" |});
    ("indonesia", {| code := "IDR"; name := "Indonesian Rupiah" |});
    ("philippines", {| code := "PHP"; name := "Philippine Peso" |});
    ("vietnam", {| code := "VND"; name := "Vietnamese Dong" |});
    ("poland", {| code := "PLN"; name := "Polish Zloty" |});
    ("sweden", {| code := "SEK"; name := "Swedish Krona" |});
    ("norway", {| code := "NOK"; name := "Norwegian Krone" |});
    ("denmark", {| code := "DKK"; name := "Danish Krone" |});
    ("new zealand", {| code := "NZD"; name := "New Zealand Dollar" |});
    ("argentina", {| code := "ARS"; name := "Argentine Peso" |});
    ("chile", {| code := "CLP"; name := "Chilean Peso" |});
    ("colombia", {| code := "COP"; name := "Colombian Peso" |});
    ("egypt", {| code := "EGP"; name := "Egyptian Pound" |});
    ("israel", {| code := "ILS"; name := "Israeli Shekel" |});
    ("pakistan", {| code := "PKR"; name := "Pakistani Rupee" |});
    ("bangladesh", {| code := "BDT"; name := "Bangladeshi Taka" |});
    ("nigeria", {| code := "NGN"; name := "Nigerian Naira" |});
    ("kenya", {| code := "KES"; name := "Kenyan Shilling" |})
  ].

(** The object [CurrencyMCPTool()] builds. *)
Record CurrencyMCPTool : Type := {
  api_key : option string;
  base_url : string
}.

(** [CurrencyMCPTool.__init__] *)
Definition new : IO CurrencyMCPTool :=
  key <- os_getenv "EXCHANGERATE_API_KEY" ;;
  ret {| api_key := key; base_url := "https://v6.exchangerate-api.com/v6" |}.

(** The dictionaries the methods return, one constructor per shape. *)

Inductive currency_info : Type :=
| CurrencyError (error : string)
| CurrencyInfo (country currency_code currency_name : string).

Inductive exchange_data : Type :=
| ExchangeError (error : string)
| ExchangeRates (base_currency : string) (rates : dict pyval)
    (last_updated next_update : option string).

Inductive country_rates : Type :=
| CountryError (error : string)
| CountryRates (country currency_code currency_name : string)
    (exchange_rates : exchange_data).

(** ["error" in result] *)
Definition has_error (r : country_rates) : bool :=
  match r with
  | CountryError _ => true
  | CountryRates _ _ _ _ => false
  end.

Definition exchange_has_error (d : exchange_data) : bool :=
  match d with
  | ExchangeError _ => true
  | ExchangeRates _ _ _ _ => false
  end.

(** [get_country_currency], over the string methods [py] of the
    interpreter that runs it. *)
Definition get_country_currency_in (py : Text) (self : CurrencyMCPTool)
    (country_name : string) : IO currency_info :=
  let country_lower := text_strip py (text_lower py country_name) in
  match dict_get country_currency_map country_lower with
  | None =>
      ret (CurrencyError
             ("Currency information not found for country: " ++ country_name))
  | Some info =>
      ret (CurrencyInfo (text_title py country_name) (code info) (name info))
  end.

(** [get_country_currency] *)
Definition get_country_currency (self : CurrencyMCPTool)
    (country_name : string) : IO currency_info :=
  get_country_currency_in ascii_text self country_name.

(** The loop of [get_exchange_rates] that fills [rates], from the
    dictionary built so far. *)
Definition collect_rates_from (conversion_rates : dict pyval)
    (target_currencies : list string) (rates : dict pyval) : dict pyval :=
  fold_left
    (fun rates target =>
       match dict_get conversion_rates target with
       | Some rate => dict_set rates target rate
       | None => dict_set rates target (PyStr "Not available")
       end)
    target_currencies rates.

Definition collect_rates (conversion_rates : dict pyval)
    (target_currencies : list string) : dict pyval :=
  collect_rates_from conversion_rates target_currencies [].

Definition key_text (k : option string) : string :=
  match k with Some s => s | None => "None" end.

Definition is_success (r : option string) : bool :=
  match r with
  | Some s => String.eqb s "success"
  | None => false
  end.

(** [f"{self.base_url}/{self.api_key}/latest/{base_currency}"] *)
Definition latest_url (self : CurrencyMCPTool) (base_currency : string) : string :=
  base_url self ++ "/" ++ key_text (api_key self) ++ "/latest/" ++ base_currency.

(** [get_exchange_rates] *)
Definition get_exchange_rates (self : CurrencyMCPTool) (base_currency : string)
    (target_currencies : list string) : IO exchange_data :=
  if key_missing (api_key self)
  then ret (ExchangeError "EXCHANGERATE_API_KEY not configured")
  else
    try_except
      (let url := latest_url self base_currency in
       data <- http_get_json url ;;
       if negb (is_success (result data))
       then
         ret (ExchangeError
                ("API error: "
                   ++ match error_type data with
                      | Some t => t
                      | None => "Unknown error"
                      end))
       else
         let conversion_rates :=
           match conversion_rates data with
           | Some d => d
           | None => []
           end in
         ret (ExchangeRates base_currency
                (collect_rates conversion_rates target_currencies)
                (time_last_update_utc data) (time_next_update_utc data)))
      request_exception
      (fun e =>
         ret (ExchangeError ("Failed to fetch exchange rates: " ++ exn_str e))).

(** The targets [get_all_rates_for_country] asks for, once the base
    currency has been removed from them. *)
Definition targets_for (base_currency : string) : list string :=
  let target_currencies := ["USD"; "EUR"; "GBP"; "INR"] in
  if list_has target_currencies base_currency
  then list_remove target_currencies base_currency
  else target_currencies.

(** [get_all_rates_for_country], over the string methods [py] of the
    interpreter that runs it. *)
Definition get_all_rates_for_country_in (py : Text) (self : CurrencyMCPTool)
    (country_name : string) : IO country_rates :=
  currency_info <- get_country_currency_in py self country_name ;;
  match currency_info with
  | CurrencyError error => ret (CountryError error)
  | CurrencyInfo country currency_code currency_name =>
      let base_currency := currency_code in
      let target_currencies := targets_for base_currency in
      exchange_data <- get_exchange_rates self base_currency target_currencies ;;
      ret (CountryRates country currency_code currency_name exchange_data)
  end.

(** [get_all_rates_for_country] *)
Definition get_all_rates_for_country (self : CurrencyMCPTool)
    (country_name : string) : IO country_rates :=
  get_all_rates_for_country_in ascii_text self country_name.

Section Formatting.
Variable rt : Runtime.

(** One line per rate: fixed precision for a number, the value as it is
    otherwise. *)
Definition rate_line (item : string * pyval) : string :=
  let (currency, rate) := item in
  if is_number rate
  then "- " ++ currency ++ ": " ++ format_spec rt ".4f" rate ++ nl
  else "- " ++ currency ++ ": " ++ format_spec rt EmptyString rate ++ nl.

(** The standalone function [get_currency_info]. *)
Definition get_currency_info (country_name : string) : IO string :=
  tool <- new ;;
  result <- get_all_rates_for_country tool country_name ;;
  match result with
  | CountryError error => ret ("Error: " ++ error)
  | CountryRates country currency_code currency_name exchange_rates =>
      let output :=
        "**Currency Information for " ++ country ++ "**" ++ nl ++ nl in
      let output :=
        output ++ "Currency: " ++ currency_name
          ++ " (" ++ currency_code ++ ")" ++ nl ++ nl in
      match exchange_rates with
      | ExchangeRates _ rates last_updated _ =>
          let output :=
            output ++ "**Exchange Rates (1 " ++ currency_code ++ " = ):**"
              ++ nl in
          let output := output ++ String.concat EmptyString (map rate_line rates) in
          ret (output ++ nl ++ "Last Updated: " ++ key_text last_updated ++ nl)
      | ExchangeError _ => ret output
      end
  end.

End Formatting.

End Currency.

(* ===================================================================== *)
(** * src/mcp/stock_tools.py *)
(* ===================================================================== *)

Module Stock.
Import Py Sys.
Local Open Scope io_scope.

Record exchange_entry : Type := {
  exchanges : list string;
  indices : dict string;
  primary_exchange : string;
  hq_location : string
}.

(** The table [StockMCPTool.__init__] stores in [self.stock_exchanges]. *)
Definition exchange_table : dict exchange_entry :=
  [
    ("japan",
     {| exchanges := ["Tokyo Stock Exchange (TSE)"; "Osaka Exchange (OSE)"];
        indices := [("Nikkei 225", "^N225"); ("TOPIX", "^TOPX"); ("JPX-Nikkei 400", "^JPN400")];
        primary_exchange := "Tokyo Stock Exchange";
        hq_location := "Tokyo, Japan" |});
    ("india",
     {| exchanges := ["National Stock Exchange (NSE)"; "Bombay Stock Exchange (BSE)"];
        indices := [("NIFTY 50", "^NSEI"); ("SENSEX", "^BSESN"); ("NIFTY Bank", "^NSEBANK")];
        primary_exchange := "National Stock Exchange of India";
        hq_location := "Mumbai, Maharashtra, India" |});
    ("united states",
     {| exchanges := ["New York Stock Exchange (NYSE)"; "NASDAQ"; "CBOE"];
        indices := [("S&P 500", "^GSPC"); ("Dow Jones", "^DJI"); ("NASDAQ Composite", "^IXIC"); ("Russell 2000", "^RUT")];
        primary_exchange := "New York Stock Exchange";
        hq_location := "New York, NY, USA" |});
    ("usa",
     {| exchanges := ["New York Stock Exchange (NYSE)"; "NASDAQ"; "CBOE"];
        indices := [("S&P 500", "^GSPC"); ("Dow Jones", "^DJI"); ("NASDAQ Composite", "^IXIC"); ("Russell 2000", "^RUT")];
        primary_exchange := "New York Stock Exchange";
        hq_location := "New York, NY, USA" |});
    ("united kingdom",
     {| exchanges := ["London Stock Exchange (LSE)"];
        indices := [("FTSE 100", "^FTSE"); ("FTSE 250", "^FTMC"); ("FTSE All-Share", "^FTAS")];
        primary_exchange := "London Stock Exchange";
        hq_location := "London, United Kingdom" |});
    ("uk",
     {| exchanges := ["London Stock Exchange (LSE)"];
        indices := [("FTSE 100", "^FTSE"); ("FTSE 250", "^FTMC")];
        primary_exchange := "London Stock Exchange";
        hq_location := "London, United Kingdom" |});
    ("south korea",
     {| exchanges := ["Korea Exchange (KRX)"];
        indices := [("KOSPI", "^KS11"); ("KOSDAQ", "^KQ11")];
        primary_exchange := "Korea Exchange";
        hq_location := "Seoul, South Korea" |});
    ("korea",
     {| exchanges := ["Korea Exchange (KRX)"];
        indices := [("KOSPI", "^KS11"); ("KOSDAQ", "^KQ11")];
        primary_exchange := "Korea Exchange";
        hq_location := "Seoul, South Korea" |});
    ("china",
     {| exchanges := ["Shanghai Stock Exchange (SSE)"; "Shenzhen Stock Exchange (SZSE)"; "Hong Kong Stock Exchange (HKEX)"];
        indices := [("SSE Composite", "000001.SS"); ("Shenzhen Component", "399001.SZ"); ("Hang Seng", "^HSI")];
        primary_exchange := "Shanghai Stock Exchange";
        hq_location := "Shanghai, China" |});
    ("germany",
     {| exchanges := ["Frankfurt Stock Exchange (FWB)"];
        indices := [("DAX", "^GDAXI"); ("MDAX", "^MDAXI"); ("TecDAX", "^TECDAX")];
        primary_exchange := "Frankfurt Stock Exchange";
        hq_location := "Frankfurt, Germany" |});
    ("france",
     {| exchanges := ["Euronext Paris"];
        indices := [("CAC 40", "^FCHI")];
        primary_exchange := "Euronext Paris";
        hq_location := "Paris, France" |});
    ("canada",
     {| exchanges := ["Toronto Stock Exchange (TSX)"];
        indices := [("S&P/TSX Composite", "^GSPTSE"); ("S&P/TSX 60", "^TX60")];
        primary_exchange := "Toronto Stock Exchange";
        hq_location := "Toronto, Ontario, Canada" |});
    ("australia",
     {| exchanges := ["Australian Securities Exchange (ASX)"];
        indices := [("ASX 200", "^AXJO"); ("All Ordinaries", "^AORD")];
        primary_exchange := "Australian Securities Exchange";
        hq_location := "Sydney, NSW, Australia" |});
    ("hong kong",
     {| exchanges := ["Hong Kong Stock Exchange (HKEX)"];
        indices := [("Hang Seng", "^HSI"); ("Hang Seng Tech", "^HSTECH")];
        primary_exchange := "Hong Kong Stock Exchange";
        hq_location := "Hong Kong" |});
    ("singapore",
     {| exchanges := ["Singapore Exchange (SGX)"];
        indices := [("Straits Times Index", "^STI")];
        primary_exchange := "Singapore Exchange";
        hq_location := "Singapore" |});
    ("brazil",
     {| exchanges := ["B3 - Brasil Bolsa Balcão"];
        indices := [("Bovespa", "^BVSP")];
        primary_exchange := "B3 - Brasil Bolsa Balcão";
        hq_location := "São Paulo, Brazil" |});
    ("switzerland",
     {| exchanges := ["SIX Swiss Exchange"];
        indices := [("SMI", "^SSMI")];
        primary_exchange := "SIX Swiss Exchange";
        hq_location := "Zurich, Switzerland" |});
    ("spain",
     {| exchanges := ["Bolsa de Madrid"];
        indices := [("IBEX 35", "^IBEX")];
        primary_exchange := "Bolsa de Madrid";
        hq_location := "Madrid, Spain" |});
    ("italy",
     {| exchanges := ["Borsa Italiana"];
        indices := [("FTSE MIB", "FTSEMIB.MI")];
        primary_exchange := "Borsa Italiana";
        hq_location := "Milan, Italy" |});
    ("netherlands",
     {| exchanges := ["Euronext Amsterdam"];
        indices := [("AEX", "^AEX")];
        primary_exchange := "Euronext Amsterdam";
        hq_location := "Amsterdam, Netherlands" |});
    ("sweden",
     {| exchanges := ["Nasdaq Stockholm"];
        indices := [("OMX Stockholm 30", "^OMX")];
        primary_exchange := "Nasdaq Stockholm";
        hq_location := "Stockholm, Sweden" |});
    ("russia",
     {| exchanges := ["Moscow Exchange (MOEX)"];
        indices := [("MOEX Russia Index", "IMOEX.ME")];
        primary_exchange := "Moscow Exchange";
        hq_location := "Moscow, Russia" |});
    ("mexico",
     {| exchanges := ["Mexican Stock Exchange (BMV)"];
        indices := [("IPC", "^MXX")];
        primary_exchange := "Mexican Stock Exchange";
        hq_location := "Mexico City, Mexico" |});
    ("thailand",
     {| exchanges := ["Stock Exchange of Thailand (SET)"];
        indices := [("SET Index", "^SET.BK")];
        primary_exchange := "Stock Exchange of Thailand";
        hq_location := "Bangkok, Thailand" |});
    ("indonesia",
     {| exchanges := ["Indonesia Stock Exchange (IDX)"];
        indices := [("Jakarta Composite", "^JKSE")];
        primary_exchange := "Indonesia Stock Exchange";
        hq_location := "Jakarta, Indonesia" |});
    ("malaysia",
     {| exchanges := ["Bursa Malaysia"];
        indices := [("KLCI", "^KLSE")];
        primary_exchange := "Bursa Malaysia";
        hq_location := "Kuala Lumpur, Malaysia" |})
  ].

Record StockMCPTool : Type := { stock_exchanges : dict exchange_entry }.

(** [StockMCPTool()] *)
Definition new : StockMCPTool := {| stock_exchanges := exchange_table |}.

Inductive exchange_info : Type :=
| ExchangeInfoError (error : string)
| ExchangeInfo (country : string) (exchange_names index_names : list string)
    (primary hq : string).

(** [get_exchange_info] *)
Definition get_exchange_info (self : StockMCPTool) (country_name : string)
    : IO exchange_info :=
  let country_lower := strip (lower country_name) in
  match dict_get (stock_exchanges self) country_lower with
  | None =>
      ret (ExchangeInfoError
             ("Stock exchange information not found for country: "
                ++ country_name))
  | Some exchange_data =>
      ret (ExchangeInfo (title country_name) (exchanges exchange_data)
             (dict_keys (indices exchange_data))
             (primary_exchange exchange_data) (hq_location exchange_data))
  end.

(** The four numbers [get_index_values] computes for one ticker. *)
Record quote : Type := {
  current_price : float;
  previous_close : pyval;
  change : float;
  change_percent : pyval
}.

(** What one index is reported as. *)
Inductive index_entry : Type :=
| IndexValue (symbol : string) (current_value prev_close chg chg_percent : pyval)
    (last_updated : string)
| IndexError (symbol error : string).

(** ["error" in index_info] *)
Definition entry_has_error (e : index_entry) : bool :=
  match e with
  | IndexError _ _ => true
  | IndexValue _ _ _ _ _ _ => false
  end.

Inductive index_values : Type :=
| IndexValuesError (error : string)
| IndexValues (country : string) (index_data : dict index_entry).

Section WithRuntime.
Variable rt : Runtime.

(** [info.get('previousClose', fallback)]: the metadata entry when the key
    is there, whatever its value; the fallback otherwise. *)
Definition previous_close_of (info : dict pyval) (fallback : float) : pyval :=
  match dict_get info "previousClose" with
  | Some v => v
  | None => PyFloat fallback
  end.

(** Lines 299-301, given the latest close and the fallback
    [hist['Close'].iloc[-2] if len(hist) > 1 else current_price]. *)
Definition compute_quote (info : dict pyval) (current_price fallback : float)
    : outcome quote :=
  let previous_close := previous_close_of info fallback in
  match sub_from_float rt current_price previous_close with
  | Raise e => Raise e
  | Ok change =>
      if truthy previous_close
      then
        match div_float_by rt change previous_close with
        | Raise e => Raise e
        | Ok ratio =>
            Ok {| current_price := current_price;
                  previous_close := previous_close;
                  change := change;
                  change_percent := PyFloat (float_mul ratio (float_of_Z 100)) |}
        end
      else
        Ok {| current_price := current_price;
              previous_close := previous_close;
              change := change;
              change_percent := PyInt 0 |}
  end.

(** The fallback for the previous close: the close before the latest one,
    or the latest one when the series has a single row.  [earlier] holds
    the rows before the latest, most recent first. *)
Definition fallback_close (current_price : float) (earlier : history) : float :=
  match earlier with
  | (_, close) :: _ => close
  | [] => current_price
  end.

(** The dictionary stored under [index_data[index_name]] on success. *)
Definition entry_of_quote (ticker_symbol : string) (q : quote) (stamp : string)
    : outcome index_entry :=
  match round2 rt (PyFloat (current_price q)) with
  | Raise e => Raise e
  | Ok current_value =>
  match round2 rt (previous_close q) with
  | Raise e => Raise e
  | Ok prev =>
  match round2 rt (PyFloat (change q)) with
  | Raise e => Raise e
  | Ok chg =>
  match round2 rt (change_percent q) with
  | Raise e => Raise e
  | Ok pct => Ok (IndexValue ticker_symbol current_value prev chg pct stamp)
  end end end end.

(** The body of the [try] in the loop of [get_index_values]. *)
Definition index_body (ticker_symbol : string) : IO index_entry :=
  info <- yf_info ticker_symbol ;;
  hist <- yf_history ticker_symbol ;;
  match rev hist with
  | [] => ret (IndexError ticker_symbol "No data available")
  | (stamp, current_price) :: earlier =>
      q <- lift (compute_quote info current_price
                   (fallback_close current_price earlier)) ;;
      lift (entry_of_quote ticker_symbol q stamp)
  end.

(** One iteration: the [try] with its [except Exception]. *)
Definition fetch_index (ticker_symbol : string) : IO index_entry :=
  try_except (index_body ticker_symbol) any_exception
    (fun e =>
       ret (IndexError ticker_symbol ("Failed to fetch data: " ++ exn_str e))).

(** [for index_name, ticker_symbol in indices.items(): ...] *)
Fixpoint index_loop (indices : dict string) (index_data : dict index_entry)
    : IO (dict index_entry) :=
  match indices with
  | [] => ret index_data
  | (index_name, ticker_symbol) :: rest =>
      entry <- fetch_index ticker_symbol ;;
      index_loop rest (dict_set index_data index_name entry)
  end.

(** [get_index_values] *)
Definition get_index_values (self : StockMCPTool) (country_name : string)
    : IO index_values :=
  let country_lower := strip (lower country_name) in
  match dict_get (stock_exchanges self) country_lower with
  | None =>
      ret (IndexValuesError
             ("Stock exchange information not found for country: "
                ++ country_name))
  | Some exchange_data =>
      index_data <- index_loop (indices exchange_data) [] ;;
      ret (IndexValues (title country_name) index_data)
  end.

Inductive stock_info : Type :=
| StockInfoError (error : string)
| StockInfo (country : string) (exchange_names : list string)
    (primary hq : string) (index_data : dict index_entry).

(** [get_complete_stock_info] *)
Definition get_complete_stock_info (self : StockMCPTool) (country_name : string)
    : IO stock_info :=
  exchange_info <- get_exchange_info self country_name ;;
  match exchange_info with
  | ExchangeInfoError error => ret (StockInfoError error)
  | ExchangeInfo country exchange_names _ primary hq =>
      index_values <- get_index_values self country_name ;;
      ret (StockInfo country exchange_names primary hq
             match index_values with
             | IndexValues _ index_data => index_data
             | IndexValuesError _ => []
             end)
  end.

(** The lines printed for one index. *)
Definition index_lines (item : string * index_entry) : string :=
  let (index_name, index_info) := item in
  match index_info with
  | IndexError symbol error =>
      "**" ++ index_name ++ "** (" ++ symbol ++ "): " ++ error ++ nl ++ nl
  | IndexValue symbol current_value prev chg pct last_updated =>
      let change_symbol := if ge_zero chg then "▲" else "▼" in
      "**" ++ index_name ++ "** (" ++ symbol ++ ")" ++ nl
        ++ "- Current Value: " ++ format_spec rt ",.2f" current_value ++ nl
        ++ "- Change: " ++ change_symbol ++ " "
        ++ format_spec rt ",.2f" (py_abs chg)
        ++ " (" ++ format_spec rt "+.2f" pct ++ "%)" ++ nl
        ++ "- Previous Close: " ++ format_spec rt ",.2f" prev ++ nl
        ++ "- Last Updated: " ++ last_updated ++ nl ++ nl
  end.

(** The standalone function [get_stock_market_info]. *)
Definition get_stock_market_info (country_name : string) : IO string :=
  let tool := new in
  result <- get_complete_stock_info tool country_name ;;
  match result with
  | StockInfoError error => ret ("Error: " ++ error)
  | StockInfo country exchange_names primary hq index_data =>
      let output :=
        "**Stock Market Information for " ++ country ++ "**" ++ nl ++ nl in
      let output := output ++ "**Stock Exchanges:**" ++ nl in
      let output :=
        output ++ String.concat EmptyString
                    (map (fun exchange => "- " ++ exchange ++ nl) exchange_names) in
      let output :=
        output ++ nl ++ "**Primary Exchange:** " ++ primary ++ nl in
      let output :=
        output ++ "**Headquarters Location:** " ++ hq ++ nl ++ nl in
      let output := output ++ "**Major Stock Indices:**" ++ nl ++ nl in
      ret (output ++ String.concat EmptyString (map index_lines index_data))
  end.

End WithRuntime.

End Stock.

(* ===================================================================== *)
(** * src/mcp/maps_tools.py *)
(* ===================================================================== *)

Module Maps.
Import Py Sys.
Local Open Scope io_scope.

Record location_entry : Type := {
  address : string;
  lat : float;
  lng : float;
  query : string
}.

(** Stock exchange headquarters coordinates *)
Definition location_table : dict location_entry :=
  [
    ("Tokyo Stock Exchange",
     {| address := "Tokyo Stock Exchange, 2-1 Nihonbashi-Kabutocho, Chuo City, Tokyo, Japan";
        lat := (decimal (356809) 4); lng := (decimal (1397776) 4);
        query := "Tokyo Stock Exchange" |});
    ("National Stock Exchange of India",
     {| address := "Exchange Plaza, Bandra Kurla Complex, Bandra East, Mumbai, Maharashtra 400051, India";
        lat := (decimal (190633) 4); lng := (decimal (728706) 4);
        query := "National Stock Exchange of India, Mumbai" |});
    ("New York Stock Exchange",
     {| address := "11 Wall St, New York, NY 10005, United States";
        lat := (decimal (407074) 4); lng := (decimal (-740113) 4);
        query := "New York Stock Exchange" |});
    ("London Stock Exchange",
     {| address := "10 Paternoster Square, London EC4M 7LS, United Kingdom";
        lat := (decimal (515142) 4); lng := (decimal (-991) 4);
        query := "London Stock Exchange" |});
    ("Korea Exchange",
     {| address := "76 Yeouinaru-ro, Yeongdeungpo-gu, Seoul, South Korea";
        lat := (decimal (375262) 4); lng := (decimal (1269282) 4);
        query := "Korea Exchange, Seoul" |});
    ("Shanghai Stock Exchange",
     {| address := "528 Pudong South Road, Pudong, Shanghai, China";
        lat := (decimal (312385) 4); lng := (decimal (1215007) 4);
        query := "Shanghai Stock Exchange" |});
    ("Frankfurt Stock Exchange",
     {| address := "Börsenplatz 4, 60313 Frankfurt am Main, Germany";
        lat := (decimal (501135) 4); lng := (decimal (86762) 4);
        query := "Frankfurt Stock Exchange" |});
    ("Euronext Paris",
     {| address := "39 Rue Cambon, 75001 Paris, France";
        lat := (decimal (488675) 4); lng := (decimal (23265) 4);
        query := "Euronext Paris" |});
    ("Toronto Stock Exchange",
     {| address := "The Exchange Tower, 130 King St W, Toronto, ON M5X 1J2, Canada";
        lat := (decimal (436478) 4); lng := (decimal (-793813) 4);
        query := "Toronto Stock Exchange" |});
    ("Australian Securities Exchange",
     {| address := "20 Bridge St, Sydney NSW 2000, Australia";
        lat := (decimal (-338646) 4); lng := (decimal (1512101) 4);
        query := "Australian Securities Exchange, Sydney" |});
    ("Hong Kong Stock Exchange",
     {| address := "8 Finance St, Central, Hong Kong";
        lat := (decimal (222845) 4); lng := (decimal (1141580) 4);
        query := "Hong Kong Stock Exchange" |});
    ("Singapore Exchange",
     {| address := "2 Shenton Way, Singapore 068804";
        lat := (decimal (12789) 4); lng := (decimal (1038497) 4);
        query := "Singapore Exchange" |});
    ("B3 - Brasil Bolsa Balcão",
     {| address := "Praça Antonio Prado, 48 - Centro Histórico de São Paulo, São Paulo, Brazil";
        lat := (decimal (-235449) 4); lng := (decimal (-466342) 4);
        query := "B3 Stock Exchange, São Paulo" |});
    ("SIX Swiss Exchange",
     {| address := "Pfingstweidstrasse 110, 8005 Zürich, Switzerland";
        lat := (decimal (473897) 4); lng := (decimal (85162) 4);
        query := "SIX Swiss Exchange, Zurich" |});
    ("Bolsa de Madrid",
     {| address := "Plaza de la Lealtad, 1, 28014 Madrid, Spain";
        lat := (decimal (404169) 4); lng := (decimal (-36943) 4);
        query := "Bolsa de Madrid" |});
    ("Borsa Italiana",
     {| address := "Piazza Affari, 6, 20123 Milano MI, Italy";
        lat := (decimal (454654) 4); lng := (decimal (91859) 4);
        query := "Borsa Italiana, Milan" |});
    ("Euronext Amsterdam",
     {| address := "Beursplein 5, 1012 JW Amsterdam, Netherlands";
        lat := (decimal (523736) 4); lng := (decimal (48936) 4);
        query := "Euronext Amsterdam" |});
    ("Nasdaq Stockholm",
     {| address := "Tullvaktsvägen 15, 115 56 Stockholm, Sweden";
        lat := (decimal (593326) 4); lng := (decimal (180824) 4);
        query := "Nasdaq Stockholm" |});
    ("Moscow Exchange",
     {| address := "13 Bolshoy Kislovsky Lane, Moscow, Russia";
        lat := (decimal (557595) 4); lng := (decimal (376028) 4);
        query := "Moscow Exchange" |});
    ("Mexican Stock Exchange",
     {| address := "Paseo de la Reforma 255, Cuauhtémoc, Mexico City, Mexico";
        lat := (decimal (194284) 4); lng := (decimal (-991677) 4);
        query := "Mexican Stock Exchange, Mexico City" |});
    ("Stock Exchange of Thailand",
     {| address := "93 Ratchadaphisek Road, Din Daeng, Bangkok, Thailand";
        lat := (decimal (137649) 4); lng := (decimal (1005630) 4);
        query := "Stock Exchange of Thailand, Bangkok" |});
    ("Indonesia Stock Exchange",
     {| address := "Jl. Jend. Sudirman Kav 52-53, Jakarta 12190, Indonesia";
        lat := (decimal (-62258) 4); lng := (decimal (1068086) 4);
        query := "Indonesia Stock Exchange, Jakarta" |});
    ("Bursa Malaysia",
     {| address := "15 Jalan Semantan, Bukit Damansara, 50490 Kuala Lumpur, Malaysia";
        lat := (decimal (31520) 4); lng := (decimal (1016695) 4);
        query := "Bursa Malaysia, Kuala Lumpur" |})
  ].

Record GoogleMapsMCPTool : Type := {
  api_key : option string;
  exchange_locations : dict location_entry
}.

(** [GoogleMapsMCPTool.__init__] *)
Definition new : IO GoogleMapsMCPTool :=
  key <- os_getenv "GOOGLE_MAPS_API_KEY" ;;
  ret {| api_key := key; exchange_locations := location_table |}.

Definition key_text (k : option string) : string :=
  match k with Some s => s | None => "None" end.

(** [get_embed_url] *)
Definition get_embed_url (self : GoogleMapsMCPTool) (exchange_name : string)
    : IO string :=
  if key_missing (api_key self)
  then ret EmptyString
  else
    match dict_get (exchange_locations self) exchange_name with
    | None =>
        (* Fallback: try to search by name *)
        let query := replace " " "+" exchange_name in
        ret ("https://www.google.com/maps/embed/v1/place?key="
               ++ key_text (api_key self) ++ "&q=" ++ query)
    | Some location =>
        (* Use place mode with query *)
        let query := replace " " "+" (query location) in
        ret ("https://www.google.com/maps/embed/v1/place?key="
               ++ key_text (api_key self) ++ "&q=" ++ query ++ "&zoom=15")
    end.

(** [f"{n}"] for an [int] *)
Definition str_int (n : Z) : string := DecimalString.NilZero.string_of_int (Z.to_int n).

Definition indent8 : string := "        ".
Definition indent12 : string := "            ".

(** [get_map_html]; [width] and [height] default to 600 and 450. *)
Definition get_map_html (self : GoogleMapsMCPTool) (exchange_name : string)
    (width height : Z) : IO string :=
  embed_url <- get_embed_url self exchange_name ;;
  if str_falsy embed_url
  then ret "<p>Google Maps API key not configured</p>"
  else
    ret (nl ++ indent8 ++ "<iframe" ++ nl
           ++ indent12 ++ "width=" ++ dquote ++ str_int width ++ dquote ++ nl
           ++ indent12 ++ "height=" ++ dquote ++ str_int height ++ dquote ++ nl
           ++ indent12 ++ "style=" ++ dquote ++ "border:0" ++ dquote ++ nl
           ++ indent12 ++ "loading=" ++ dquote ++ "lazy" ++ dquote ++ nl
           ++ indent12 ++ "allowfullscreen" ++ nl
           ++ indent12 ++ "referrerpolicy=" ++ dquote
           ++ "no-referrer-when-downgrade" ++ dquote ++ nl
           ++ indent12 ++ "src=" ++ dquote ++ embed_url ++ dquote ++ ">" ++ nl
           ++ indent8 ++ "</iframe>" ++ nl
           ++ indent8).

Inductive location_result : Type :=
| LocationUnknown (exchange error map_url : string)
| LocationKnown (exchange address : string) (latitude longitude : float)
    (map_url map_html : string).

(** ["error" in location] *)
Definition location_has_error (r : location_result) : bool :=
  match r with
  | LocationUnknown _ _ _ => true
  | LocationKnown _ _ _ _ _ _ => false
  end.

(** [get_location_info] *)
Definition get_location_info (self : GoogleMapsMCPTool) (exchange_name : string)
    : IO location_result :=
  match dict_get (exchange_locations self) exchange_name with
  | None =>
      map_url <- get_embed_url self exchange_name ;;
      ret (LocationUnknown exchange_name "Location information not available"
             map_url)
  | Some location =>
      map_url <- get_embed_url self exchange_name ;;
      map_html <- get_map_html self exchange_name 600 450 ;;
      ret (LocationKnown exchange_name (address location)
             (lat location) (lng location) map_url map_html)
  end.

(** The standalone function [get_exchange_location]. *)
Definition get_exchange_location (exchange_name : string) : IO location_result :=
  tool <- new ;;
  get_location_info tool exchange_name.

End Maps.

(* ===================================================================== *)
(** * src/mcp/server.py *)
(* ===================================================================== *)

Module Server.
Import Py Sys.
Local Open Scope io_scope.

(** What [execute_tool] hands back: a tool's text, the location
    dictionary, or the dictionary [{"error": ...}] of the dispatcher. *)
Inductive tool_result : Type :=
| Text (output : string)
| Location (info : Maps.location_result)
| ToolError (error : string).

(** ["error" in result] for the dictionary of the dispatcher *)
Definition is_tool_error (r : tool_result) : bool :=
  match r with
  | ToolError _ => true
  | Text _ | Location _ => false
  end.

(** [parameters.get(key, "")] *)
Definition parameter (parameters : dict string) (key : string) : string :=
  match dict_get parameters key with
  | Some v => v
  | None => EmptyString
  end.



Section WithRuntime.
Variable rt : Runtime.

(** [MCPFinancialServer.execute_tool] *)
Definition execute_tool (tool_name : string) (parameters : dict string)
    : IO tool_result :=
  if String.eqb tool_name "get_currency_info" then
    output <- Currency.get_currency_info rt (parameter parameters "country_name") ;;
    ret (Text output)
  else if String.eqb tool_name "get_stock_market_info" then
    output <- Stock.get_stock_market_info rt (parameter parameters "country_name") ;;
    ret (Text output)
  else if String.eqb tool_name "get_exchange_location" then
    info <- Maps.get_exchange_location (parameter parameters "exchange_name") ;;
    ret (Location info)
  else
    ret (ToolError ("Unknown tool: " ++ tool_name)).

End WithRuntime.

End Server.

(* ===================================================================== *)
(** * src/agent/agent.py *)
(* ===================================================================== *)

Module Agent.
Import Py Sys.
Local Open Scope io_scope.

(** The progress lines the agent writes with [print] are not part of the
    model: a run is described up to its console output, for the runs in
    which writing to the console succeeds. *)

(** The value stored under [results["location_info"]]: what the location
    tool returned, or [{"error": str(e)}]. *)
Inductive location_info : Type :=
| LocationReturned (info : Maps.location_result)
| LocationFailed (error : string).

(** The dictionary [results]; a field is [None] while its key is unset. *)
Record results : Type := {
  currency_info : option string;
  stock_info : option string;
  primary_exchange : option string;
  location : option location_info
}.

Definition no_results : results :=
  {| currency_info := None; stock_info := None;
     primary_exchange := None; location := None |}.

(** An entry of [self.intermediate_steps]. *)
Inductive step : Type :=
| StepOutput (tool input output : string)
| StepError (tool input error : string).

Definition step_tool (s : step) : string :=
  match s with
  | StepOutput tool _ _ => tool
  | StepError tool _ _ => tool
  end.

Definition step_failed (s : step) : bool :=
  match s with
  | StepOutput _ _ _ => false
  | StepError _ _ _ => true
  end.

(** A tool has an entry in the trace: its step was run. *)
Definition ran (tool : string) (steps : list step) : bool :=
  existsb (fun s => String.eqb (step_tool s) tool) steps.

(** [result[:200] + "..." if len(result) > 200 else result] *)
Definition preview (s : string) : string :=
  if (200 <? len s)%nat then slice_to 200 s ++ "..." else s.

(** [_extract_country_name] *)
Definition _extract_country_name (user_input : string) : string :=
  let user_input_lower := lower user_input in
  let user_input_lower :=
    fold_left (fun s phrase => replace phrase EmptyString s)
      ["give me"; "show me"; "get"; "details for"; "information about";
       "currency and stock market details for"; "financial information for"]
      user_input_lower in
  let country := strip user_input_lower in
  title country.

(** The first line naming the primary exchange, with the label removed. *)
Fixpoint find_primary (lines : list string) : option string :=
  match lines with
  | [] => None
  | line :: rest =>
      if contains "Primary Exchange:" line
      then Some (strip (replace "**Primary Exchange:**" EmptyString line))
      else find_primary rest
  end.

Definition extract_primary (stock_result : string) : option string :=
  if contains "Primary Exchange:" stock_result
  then find_primary (split "010"%char stock_result)
  else None.

(** [_format_output] *)
Definition _format_output (country : string) (r : results) : string :=
  let output := "# Financial Information for " ++ country ++ nl ++ nl in
  let output :=
    match currency_info r with
    | Some text => output ++ text ++ nl ++ nl
    | None => output
    end in
  let output :=
    match stock_info r with
    | Some text => output ++ text ++ nl ++ nl
    | None => output
    end in
  match location r with
  | Some (LocationReturned (Maps.LocationKnown exchange address _ _ _ _)) =>
      output ++ "---" ++ nl ++ nl
        ++ "**Stock Exchange Location:**" ++ nl ++ nl
        ++ "Exchange: " ++ exchange ++ nl ++ nl
        ++ "Address: " ++ address ++ nl ++ nl
  | Some (LocationReturned (Maps.LocationUnknown _ _ _))
  | Some (LocationFailed _)
  | None => output
  end.

Inductive answer : Type :=
| Failure (error output : string)
| Success (output : string) (intermediate_steps : list step).

(** The three tool functions [agent.py] imports, and [str] of the location
    dictionary, are taken as they come: the aggregator is written against
    any callables of these types. *)
Section Tools.
Variable get_currency_info : string -> IO string.
Variable get_stock_market_info : string -> IO string.
Variable get_exchange_location : string -> IO Maps.location_result.
Variable str_location : Maps.location_result -> string.

(** The dictionary [results] and the list [self.intermediate_steps], as
    the steps change them. *)
Definition state : Type := (results * list step)%type.

(** Step 1: Get currency info *)
Definition currency_step (country : string) (st : state) : IO state :=
  let (r, steps) := st in
  try_except
    (currency_result <- get_currency_info country ;;
     ret ({| currency_info := Some currency_result;
             stock_info := stock_info r;
             primary_exchange := primary_exchange r;
             location := location r |},
          (steps ++ [StepOutput "get_currency_info" country
                       (preview currency_result)])%list))
    any_exception
    (fun e =>
       ret ({| currency_info :=
                 Some ("Error fetching currency info: " ++ exn_str e);
               stock_info := stock_info r;
               primary_exchange := primary_exchange r;
               location := location r |},
            (steps ++ [StepError "get_currency_info" country (exn_str e)])%list)).

(** Step 2: Get stock market info *)
Definition stock_step (country : string) (st : state) : IO state :=
  let (r, steps) := st in
  try_except
    (stock_result <- get_stock_market_info country ;;
     ret ({| currency_info := currency_info r;
             stock_info := Some stock_result;
             primary_exchange :=
               match extract_primary stock_result with
               | Some exchange_name => Some exchange_name
               | None => primary_exchange r
               end;
             location := location r |},
          (steps ++ [StepOutput "get_stock_market_info" country
                       (preview stock_result)])%list))
    any_exception
    (fun e =>
       ret ({| currency_info := currency_info r;
               stock_info := Some ("Error fetching stock info: " ++ exn_str e);
               primary_exchange := primary_exchange r;
               location := location r |},
            (steps ++ [StepError "get_stock_market_info" country (exn_str e)])%list)).

(** Step 3: Get exchange location if we have a primary exchange
    (only if the maps key exists) *)
Definition location_step (st : state) : IO state :=
  let (r, steps) := st in
  match primary_exchange r with
  | None => ret st
  | Some exchange_name =>
      maps_key <- os_getenv "GOOGLE_MAPS_API_KEY" ;;
      if key_missing maps_key
      then ret st
      else
        try_except
          (location_result <- get_exchange_location exchange_name ;;
           ret ({| currency_info := currency_info r;
                   stock_info := stock_info r;
                   primary_exchange := primary_exchange r;
                   location := Some (LocationReturned location_result) |},
                (steps ++ [StepOutput "get_exchange_location" exchange_name
                             (str_location location_result)])%list))
          any_exception
          (fun e =>
             ret ({| currency_info := currency_info r;
                     stock_info := stock_info r;
                     primary_exchange := primary_exchange r;
                     location := Some (LocationFailed (exn_str e)) |},
                  (steps ++ [StepError "get_exchange_location" exchange_name
                               (exn_str e)])%list))
  end.

(** [_call_tools]: the results, and [self.intermediate_steps] as the call
    leaves it. *)
Definition _call_tools (country : string) : IO state :=
  st <- currency_step country (no_results, []) ;;
  st <- stock_step country st ;;
  location_step st.

(** [query] *)
Definition query (user_input : string) : IO answer :=
  try_except
    (let country := _extract_country_name user_input in
     if str_falsy country
     then ret (Failure "Could not identify country from query"
                 "Please specify a country name in your query.")
     else
       st <- _call_tools country ;;
       ret (Success (_format_output country (fst st)) (snd st)))
    any_exception
    (fun e => ret (Failure (exn_str e) ("Error processing query: " ++ exn_str e))).

(** [get_financial_info] *)
Definition get_financial_info (country : string) : IO answer :=
  try_except
    (st <- _call_tools country ;;
     ret (Success (_format_output country (fst st)) (snd st)))
    any_exception
    (fun e =>
       ret (Failure (exn_str e) ("Error getting financial info: " ++ exn_str e))).

End Tools.

(** The language-model client [_initialize_llm] builds, with the
    arguments it passes to the provider's class. *)
Inductive llm : Type :=
| ChatGoogleGenerativeAI (model google_api_key : string) (temperature : float)
    (convert_system_message_to_human : bool)
| ChatGroq (model groq_api_key : string) (temperature : float).

(** The attributes [FinancialAgent.__init__] sets. *)
Record FinancialAgent : Type := {
  model_name : string;
  provider : string;
  agent_llm : llm;
  intermediate_steps : list step
}.

(** [raise ValueError(message)]; ValueError is not a request error. *)
Definition value_error (message : string) : exn := mk_exn OtherException message.

(** [argument or os.getenv(name, default)] *)
Definition or_getenv (argument : option string) (name default : string)
    : IO string :=
  if key_missing argument
  then
    value <- os_getenv name ;;
    ret match value with
        | Some v => v
        | None => default
        end
  else ret match argument with
           | Some v => v
           | None => default
           end.

(** [_initialize_llm] *)
Definition _initialize_llm (model_name provider : string) : IO llm :=
  if String.eqb (lower provider) "google" then
    api_key <- os_getenv "GOOGLE_API_KEY" ;;
    if key_missing api_key
    then raise (value_error "GOOGLE_API_KEY not found in environment variables")
    else ret (ChatGoogleGenerativeAI model_name
                match api_key with Some k => k | None => EmptyString end
                (decimal 1 1) true)
  else if String.eqb (lower provider) "groq" then
    api_key <- os_getenv "GROQ_API_KEY" ;;
    if key_missing api_key
    then raise (value_error "GROQ_API_KEY not found in environment variables")
    else ret (ChatGroq model_name
                match api_key with Some k => k | None => EmptyString end
                (decimal 1 1))
  else raise (value_error ("Unsupported LLM provider: " ++ provider)).

(** [FinancialAgent.__init__] *)
Definition new_agent (model_name provider : option string) : IO FinancialAgent :=
  model_name <- or_getenv model_name "LLM_MODEL" "gemini-pro" ;;
  provider <- or_getenv provider "LLM_PROVIDER" "google" ;;
  llm <- _initialize_llm model_name provider ;;
  ret {| model_name := model_name; provider := provider;
         agent_llm := llm; intermediate_steps := [] |}.

(** [create_financial_agent] *)
Definition create_financial_agent (model_name provider : option string)
    : IO FinancialAgent :=
  new_agent model_name provider.

(** The aggregator over the tools [agent.py] imports from [mcp.server]. *)
Definition financial_info (rt : Runtime)
    (str_location : Maps.location_result -> string) (country : string)
    : IO answer :=
  get_financial_info (Currency.get_currency_info rt)
    (Stock.get_stock_market_info rt) Maps.get_exchange_location
    str_location country.

End Agent.

(* ===================================================================== *)
(** * Vocabulary of the statements *)
(* ===================================================================== *)

(** Concrete runtimes, worlds and tools on which the model is run. *)
Module Sample.
Import Py Sys.

(** A runtime whose rounding leaves its argument unchanged, as
    [round(x, 2)] does on the integral prices of the examples. *)
Definition runtime : Runtime :=
  {| round_float := fun x => x;
     format_spec := fun _ v => match v with PyStr s => s | _ => "0.00" end;
     operand_error := fun _ => "unsupported operand type(s) for -" |}.

Definition connection_error : exn := mk_exn RequestException "connection refused".
Definition provider_error : exn := mk_exn OtherException "no response from provider".

(** No key is configured and nothing answers. *)
Definition offline : World :=
  {| getenv := fun _ => None;
     requests_get := fun _ => Raise connection_error;
     ticker_info := fun _ => Raise provider_error;
     ticker_history := fun _ => Raise provider_error |}.

(** The rate API answers every request with two of the four rates. *)
Definition rates_reply : api_response :=
  {| result := Some "success";
     error_type := None;
     conversion_rates := Some [("USD", PyFloat (decimal 67 4)); ("INR", PyInt 1)];
     time_last_update_utc := Some "Fri, 27 Mar 2020 00:00:00 +0000";
     time_next_update_utc := Some "Sat, 28 Mar 2020 00:00:00 +0000" |}.

Definition online : World :=
  {| getenv := fun name =>
       if String.eqb name "EXCHANGERATE_API_KEY" then Some "rate-key"
       else if String.eqb name "GOOGLE_MAPS_API_KEY" then Some "maps-key"
       else None;
     requests_get := fun _ => Ok rates_reply;
     ticker_info := fun _ => Ok [];
     ticker_history := fun _ => Ok [] |}.



(** Tokyo on a day when the provider fails for TOPIX and has no rows for
    the JPX-Nikkei 400. *)
Definition patchy : World :=
  {| getenv := fun _ => None;
     requests_get := fun _ => Raise connection_error;
     ticker_info := fun symbol =>
       if String.eqb symbol "^TOPX" then Raise provider_error
       else Ok [("previousClose", PyFloat (float_of_Z 100))];
     ticker_history := fun symbol =>
       if String.eqb symbol "^JPN400" then Ok []
       else Ok [("2024-01-01 00:00:00", float_of_Z 100);
                ("2024-01-02 00:00:00", float_of_Z 105)] |}.

Definition keyless_currency_tool : Currency.CurrencyMCPTool :=
  {| Currency.api_key := None;
     Currency.base_url := "https://v6.exchangerate-api.com/v6" |}.

Definition keyed_currency_tool : Currency.CurrencyMCPTool :=
  {| Currency.api_key := Some "rate-key";
     Currency.base_url := "https://v6.exchangerate-api.com/v6" |}.

End Sample.

Module CurrencySpec.
Import Py Sys Currency.

(** Three upper-case letters, the shape of an ISO 4217 code. *)
Definition iso_4217_shaped (c : string) : bool :=
  (String.length c =? 3)%nat && forallb is_upper (list_ascii_of_string c).

(** The value [rates[target]] receives. *)
Definition rate_or_unavailable (conversion_rates : dict pyval) (target : string)
    : pyval :=
  match dict_get conversion_rates target with
  | Some rate => rate
  | None => PyStr "Not available"
  end.

(** [data.get("conversion_rates", {})] *)
Definition rates_in (data : api_response) : dict pyval :=
  match conversion_rates data with
  | Some d => d
  | None => []
  end.

(** The reading under which an error of [get_exchange_rates] would come
    back as the error of [get_all_rates_for_country]. *)
Definition rate_error_returned (self : CurrencyMCPTool) (country_name : string)
    (w : World) : Prop :=
  forall entry e,
    dict_get country_currency_map (strip (lower country_name)) = Some entry ->
    result_of (get_exchange_rates self (code entry) (targets_for (code entry))) w
      = Ok (ExchangeError e) ->
    result_of (get_all_rates_for_country self country_name) w
      = Ok (CountryError e).

End CurrencySpec.

Module StockSpec.
Import Py Sys Stock.

(** What one ticker is reported as, from the provider's two answers for
    that ticker. *)
Definition report (rt : Runtime) (symbol : string)
    (info : outcome (dict pyval)) (hist : outcome history) : index_entry :=
  match info, hist with
  | Raise e, _ => IndexError symbol ("Failed to fetch data: " ++ exn_str e)
  | Ok _, Raise e => IndexError symbol ("Failed to fetch data: " ++ exn_str e)
  | Ok info, Ok hist =>
      match rev hist with
      | [] => IndexError symbol "No data available"
      | (stamp, current_price) :: earlier =>
          match compute_quote rt info current_price
                  (fallback_close current_price earlier) with
          | Raise e => IndexError symbol ("Failed to fetch data: " ++ exn_str e)
          | Ok q =>
              match entry_of_quote rt symbol q stamp with
              | Raise e =>
                  IndexError symbol ("Failed to fetch data: " ++ exn_str e)
              | Ok entry => entry
              end
          end
      end
  end.

(** The entry of one index of the table, from the world's answers for
    its ticker. *)
Definition reported (rt : Runtime) (w : World) (item : string * string)
    : string * index_entry :=
  (fst item,
   report rt (snd item) (ticker_info w (snd item)) (ticker_history w (snd item))).

(** The fetch raised, or came back without rows. *)
Definition fetch_failed (info : outcome (dict pyval)) (hist : outcome history)
    : bool :=
  match info, hist with
  | Raise _, _ => true
  | Ok _, Raise _ => true
  | Ok _, Ok [] => true
  | Ok _, Ok (_ :: _) => false
  end.

(** A previous close the arithmetic accepts: none in the metadata, a
    float, or an [int] that converts to one. *)
Definition numeric_previous_close (info : dict pyval) : bool :=
  match dict_get info "previousClose" with
  | None => true
  | Some (PyFloat _) => true
  | Some (PyInt n) =>
      match float_of_int n with Ok _ => true | Raise _ => false end
  | Some PyNone | Some (PyStr _) => false
  end.

(** Both answers arrived, with rows and a usable previous close. *)
Definition fetch_usable (info : outcome (dict pyval)) (hist : outcome history)
    : bool :=
  match info, hist with
  | Ok info, Ok (_ :: _) => numeric_previous_close info
  | _, _ => false
  end.

(** A number equal to zero: [0], [0.0] or [-0.0]. *)
Definition is_zero_number (v : pyval) : bool :=
  match v with
  | PyInt n => (n =? 0)%Z
  | PyFloat x => float_is_zero x
  | PyNone | PyStr _ => false
  end.

Definition raises_zero_division {A : Type} (o : outcome A) : bool :=
  match o with
  | Raise e => exn_class_eqb (exn_type e) ZeroDivisionError
  | Ok _ => false
  end.


(** The reading under which every falsy previous close, [None] included,
    ends in a zero percentage. *)
Definition falsy_gives_zero_percent (rt : Runtime) (info : dict pyval)
    (current_price fallback : float) : Prop :=
  truthy (previous_close_of info fallback) = false ->
  exists q,
    compute_quote rt info current_price fallback = Ok q /\
    change_percent q = PyInt 0.

Fixpoint distinct (xs : list string) : bool :=
  match xs with
  | [] => true
  | x :: xs' => negb (list_has xs' x) && distinct xs'
  end.

End StockSpec.

Module MapsSpec.
Import Py Sys Maps.

(** The tool as [GoogleMapsMCPTool()] builds it when the key is unset. *)
Definition keyless_tool : GoogleMapsMCPTool :=
  {| api_key := None; exchange_locations := location_table |}.

End MapsSpec.

Module ServerSpec.
Import Py Sys Server.

(** The three names [execute_tool] dispatches on. *)
Definition registered (tool_name : string) : bool :=
  list_has ["get_currency_info"; "get_stock_market_info"; "get_exchange_location"]
    tool_name.

End ServerSpec.

Module AgentSpec.
Import Py Sys Agent.

(** What each step leaves in [results] and in the trace, from the outcome
    of its own tool call. *)

Definition currency_text (o : outcome string) : string :=
  match o with
  | Ok text => text
  | Raise e => "Error fetching currency info: " ++ exn_str e
  end.

Definition currency_entry (country : string) (o : outcome string) : step :=
  match o with
  | Ok text => StepOutput "get_currency_info" country (preview text)
  | Raise e => StepError "get_currency_info" country (exn_str e)
  end.

Definition stock_text (o : outcome string) : string :=
  match o with
  | Ok text => text
  | Raise e => "Error fetching stock info: " ++ exn_str e
  end.

Definition stock_entry (country : string) (o : outcome string) : step :=
  match o with
  | Ok text => StepOutput "get_stock_market_info" country (preview text)
  | Raise e => StepError "get_stock_market_info" country (exn_str e)
  end.

(** The primary exchange step 2 leaves: read from a returned report,
    absent after an exception. *)
Definition primary_of (o : outcome string) : option string :=
  match o with
  | Ok text => extract_primary text
  | Raise _ => None
  end.

Definition location_value (o : outcome Maps.location_result) : location_info :=
  match o with
  | Ok info => LocationReturned info
  | Raise e => LocationFailed (exn_str e)
  end.

Definition location_entry (str_location : Maps.location_result -> string)
    (exchange_name : string) (o : outcome Maps.location_result) : step :=
  match o with
  | Ok info => StepOutput "get_exchange_location" exchange_name (str_location info)
  | Raise e => StepError "get_exchange_location" exchange_name (exn_str e)
  end.

(** [os.getenv("GOOGLE_MAPS_API_KEY")] is truthy. *)
Definition maps_enabled (w : World) : bool :=
  negb (key_missing (getenv w "GOOGLE_MAPS_API_KEY")).

(** The gate of step 3: the exchange it is run for, if it is run. *)
Definition location_gate (w : World) (market : outcome string) : option string :=
  match primary_of market with
  | Some exchange_name => if maps_enabled w then Some exchange_name else None
  | None => None
  end.

(** The trace has an error entry for the tool. *)
Definition failed (tool : string) (steps : list step) : bool :=
  existsb (fun s => step_failed s && String.eqb (step_tool s) tool) steps.

(** The steps that come after a tool's step. *)
Definition steps_after (tool : string) : list string :=
  if String.eqb tool "get_currency_info"
  then ["get_stock_market_info"; "get_exchange_location"]
  else if String.eqb tool "get_stock_market_info"
  then ["get_exchange_location"]
  else [].

(** The reading under which every step after a failed one is run. *)
Definition later_steps_still_run
    (get_currency_info get_stock_market_info : string -> IO string)
    (get_exchange_location : string -> IO Maps.location_result)
    (str_location : Maps.location_result -> string)
    (w : World) (country : string) : Prop :=
  forall st,
    result_of (_call_tools get_currency_info get_stock_market_info
                 get_exchange_location str_location country) w = Ok st ->
    forall tool later,
      failed tool (snd st) = true ->
      In later (steps_after tool) ->
      ran later (snd st) = true.

(** A market tool that raises. *)
Definition market_down (country : string) : IO string :=
  raise (mk_exn OtherException "market data unavailable").

(** A market tool that answers with the report's primary-exchange line. *)
Definition market_up (country : string) : IO string :=
  ret ("**Primary Exchange:** Tokyo Stock Exchange" ++ nl).

(** A currency tool that raises. *)
Definition currency_down (country : string) : IO string :=
  raise (mk_exn OtherException "rate data unavailable").

Definition show_location (info : Maps.location_result) : string :=
  match info with
  | Maps.LocationUnknown exchange _ _ => exchange
  | Maps.LocationKnown exchange _ _ _ _ _ => exchange
  end.

End AgentSpec.

(** Vocabulary of the further properties. *)
Module CurrencyMore.
Import Py Sys Currency.

(** The elements of a list of targets, each at its first occurrence, not
    counting those seen before. *)
Fixpoint first_occurrences (seen xs : list string) : list string :=
  match xs with
  | [] => []
  | x :: xs' =>
      if list_has seen x then first_occurrences seen xs'
      else x :: first_occurrences (seen ++ [x])%list xs'
  end.

(** The tool [CurrencyMCPTool()] builds in a world. *)
Definition tool_in (w : World) : CurrencyMCPTool :=
  {| api_key := getenv w "EXCHANGERATE_API_KEY";
     base_url := "https://v6.exchangerate-api.com/v6" |}.

(** The two lines every report of a known country starts with. *)
Definition report_head (country currency_name currency_code : string) : string :=
  ("**Currency Information for " ++ country ++ "**" ++ nl ++ nl)
    ++ "Currency: " ++ currency_name ++ " (" ++ currency_code ++ ")" ++ nl ++ nl.

(** The rate API is down: every request raises a connection error, and a
    rate key is configured. *)
Definition rates_down : World :=
  {| getenv := fun name =>
       if String.eqb name "EXCHANGERATE_API_KEY" then Some "rate-key" else None;
     requests_get := fun _ => Raise Sample.connection_error;
     ticker_info := fun _ => Raise Sample.provider_error;
     ticker_history := fun _ => Raise Sample.provider_error |}.

End CurrencyMore.

Module StockMore.
Import Py Sys Stock StockSpec.

(** The character occurs in the string. *)
Fixpoint has_char (c : ascii) (s : string) : bool :=
  match s with
  | EmptyString => false
  | String x s' => Ascii.eqb x c || has_char c s'
  end.

Definition colon : ascii := ":"%char.
Definition newline : ascii := "010"%char.


(** What [get_complete_stock_info] returns for a name, in a world. *)
Definition complete_info (rt : Runtime) (w : World) (country_name : string)
    : stock_info :=
  match dict_get exchange_table (strip (lower country_name)) with
  | None =>
      StockInfoError
        ("Stock exchange information not found for country: " ++ country_name)
  | Some entry =>
      StockInfo (title country_name) (exchanges entry)
        (primary_exchange entry) (hq_location entry)
        (map (reported rt w) (indices entry))
  end.

(** The line of the report the aggregator looks for. *)
Definition primary_line (primary : string) : string :=
  "**Primary Exchange:** " ++ primary.

(** An exchange name the aggregator can read back from its line: no line
    break in it, and stripping the label and the blanks returns it. *)
Definition reads_back (primary : string) : bool :=
  negb (has_char newline primary)
  && String.eqb
       (strip (replace "**Primary Exchange:**" EmptyString (primary_line primary)))
       primary.

(** No line of the text carries the label. *)
Definition label_free (text : string) : bool :=
  forallb (fun line => negb (contains "Primary Exchange:" line))
    (split newline text).

End StockMore.

Module ReportSpec.
Import Py Sys Stock StockSpec StockMore.

(** The text [get_stock_market_info] builds for a known country. *)
Definition market_text (rt : Runtime) (country : string)
    (exchange_names : list string) (primary hq : string)
    (index_data : dict index_entry) : string :=
  ("**Stock Market Information for " ++ country ++ "**") ++ nl ++ nl
    ++ "**Stock Exchanges:**" ++ nl
    ++ String.concat EmptyString
         (map (fun exchange => "- " ++ exchange ++ nl) exchange_names)
    ++ nl ++ primary_line primary ++ nl
    ++ "**Headquarters Location:** " ++ hq ++ nl ++ nl
    ++ "**Major Stock Indices:**" ++ nl ++ nl
    ++ String.concat EmptyString (map (index_lines rt) index_data).

(** The text for whatever [get_complete_stock_info] returned. *)
Definition render (rt : Runtime) (info : stock_info) : string :=
  match info with
  | StockInfoError error => "Error: " ++ error
  | StockInfo country exchange_names primary hq index_data =>
      market_text rt country exchange_names primary hq index_data
  end.

(** What the aggregator's parsing needs of a table entry. *)
Definition readable_entry (kv : string * exchange_entry) : bool :=
  negb (has_char colon (fst kv))
  && reads_back (primary_exchange (snd kv))
  && forallb (fun exchange => label_free ("- " ++ exchange)) (exchanges (snd kv)).

End ReportSpec.

Module MapsMore.
Import Py Sys Maps.

Definition space : ascii := " "%char.

(** The tool [GoogleMapsMCPTool()] builds in a world. *)
Definition tool_in (w : World) : GoogleMapsMCPTool :=
  {| api_key := getenv w "GOOGLE_MAPS_API_KEY";
     exchange_locations := location_table |}.

Definition keyed_tool : GoogleMapsMCPTool :=
  {| api_key := Some "maps-key"; exchange_locations := location_table |}.

(** The embed URL for a tool with a key, as [get_embed_url] builds it. *)
Definition embed_url_of (self : GoogleMapsMCPTool) (exchange_name : string)
    : string :=
  match dict_get (exchange_locations self) exchange_name with
  | None =>
      "https://www.google.com/maps/embed/v1/place?key="
        ++ key_text (api_key self) ++ "&q=" ++ replace " " "+" exchange_name
  | Some location =>
      "https://www.google.com/maps/embed/v1/place?key="
        ++ key_text (api_key self) ++ "&q=" ++ replace " " "+" (query location)
        ++ "&zoom=15"
  end.

(** Every primary exchange of the market table has its headquarters in
    the location table. *)
Definition located (kv : string * Stock.exchange_entry) : bool :=
  dict_has location_table (Stock.primary_exchange (snd kv)).

End MapsMore.

Module LocationSpec.
Import Py Sys Maps MapsMore.

(** What [get_embed_url] returns for a tool. *)
Definition map_url_of (self : GoogleMapsMCPTool) (exchange_name : string) : string :=
  if key_missing (api_key self) then EmptyString
  else embed_url_of self exchange_name.

End LocationSpec.

Module ResolverSpec.
Import Py Sys Agent.

(** The phrases [_extract_country_name] removes, in its order. *)
Definition phrases : list string :=
  ["give me"; "show me"; "get"; "details for"; "information about";
   "currency and stock market details for"; "financial information for"].

(** White space only. *)
Fixpoint blank (s : string) : bool :=
  match s with
  | EmptyString => true
  | String c s' => is_space c && blank s'
  end.

(** None of the phrases occurs in the lower-cased input. *)
Definition phrase_free (s : string) : bool :=
  forallb (fun phrase => negb (contains phrase (lower s))) phrases.

(** The key under which the static tables are searched. *)
Definition table_key (s : string) : string := strip (lower s).

End ResolverSpec.

Module InitSpec.
Import Py Sys Agent.

(** The value of [argument or os.getenv(name, default)] in a world. *)
Definition resolved (w : World) (argument : option string) (name default : string)
    : string :=
  if key_missing argument
  then match getenv w name with Some v => v | None => default end
  else match argument with Some v => v | None => default end.

(** Keys for both providers are configured; the environment asks for
    Groq. *)
Definition groq_world : World :=
  {| getenv := fun name =>
       if String.eqb name "GROQ_API_KEY" then Some "groq-key"
       else if String.eqb name "GOOGLE_API_KEY" then Some "google-key"
       else if String.eqb name "LLM_PROVIDER" then Some "Groq"
       else None;
     requests_get := fun _ => Raise Sample.connection_error;
     ticker_info := fun _ => Raise Sample.provider_error;
     ticker_history := fun _ => Raise Sample.provider_error |}.

End InitSpec.

Module ReportMore.
Import Py Sys Stock StockSpec.



End ReportMore.

Module IsoSpec.
Import Py Currency.

(** ISO 4217, for the countries of the currency table: each alphabetic
    code of the standard with the table keys of the countries and
    territories whose currency it is (the euro for the four members of the
    euro area, the won of the Republic of Korea for both of its keys). *)
Definition iso_4217 : list (string * list string) :=
  [ ("AED", ["uae"]);
    ("ARS", ["argentina"]);
    ("AUD", ["australia"]);
    ("BDT", ["bangladesh"]);
    ("BRL", ["brazil"]);
    ("CAD", ["canada"]);
    ("CHF", ["switzerland"]);
    ("CLP", ["chile"]);
    ("CNY", ["china"]);
    ("COP", ["colombia"]);
    ("DKK", ["denmark"]);
    ("EGP", ["egypt"]);
    ("EUR", ["france"; "germany"; "italy"; "spain"]);
    ("GBP", ["uk"; "united kingdom"]);
    ("HKD", ["hong kong"]);
    ("IDR", ["indonesia"]);
    ("ILS", ["israel"]);
    ("INR", ["india"]);
    ("JPY", ["japan"]);
    ("KES", ["kenya"]);
    ("KRW", ["korea"; "south korea"]);
    ("MXN", ["mexico"]);
    ("MYR", ["malaysia"]);
    ("NGN", ["nigeria"]);
    ("NOK", ["norway"]);
    ("NZD", ["new zealand"]);
    ("PHP", ["philippines"]);
    ("PKR", ["pakistan"]);
    ("PLN", ["poland"]);
    ("RUB", ["russia"]);
    ("SAR", ["saudi arabia"]);
    ("SEK", ["sweden"]);
    ("SGD", ["singapore"]);
    ("THB", ["thailand"]);
    ("TRY", ["turkey"]);
    ("USD", ["united states"; "usa"]);
    ("VND", ["vietnam"]);
    ("ZAR", ["south africa"]) ].

(** The code the standard gives the currency of a country. *)
Definition iso_4217_code (country : string) : option string :=
  match find (fun row => list_has (snd row) country) iso_4217 with
  | Some row => Some (fst row)
  | None => None
  end.

End IsoSpec.

Module QuoteSpec.
Import Py Sys Stock.



End QuoteSpec.

Module RegistrySpec.
Import Py Sys Server.
Local Open Scope io_scope.


End RegistrySpec.

Module PreviewSpec.
Import Py.

(** A text of [n] characters of two bytes each (the letter a with a
    tilde, U+00E3). *)
Fixpoint tildes (n : nat) : string :=
  match n with
  | O => EmptyString
  | S k => String "195"%char (String "163"%char (tildes k))
  end.

(** The text does not begin in the middle of a character. *)
Definition starts_character (s : string) : bool :=
  match s with
  | EmptyString => true
  | String c _ => negb (is_continuation c)
  end.

End PreviewSpec.

Module RateSpec.
Import Py Sys.

(** A rate key is configured and the request fails with an exception that
    is not a [RequestException]. *)
Definition rates_broken : World :=
  {| getenv := fun name =>
       if String.eqb name "EXCHANGERATE_API_KEY" then Some "rate-key" else None;
     requests_get := fun _ => Raise Sample.provider_error;
     ticker_info := fun _ => Raise Sample.provider_error;
     ticker_history := fun _ => Raise Sample.provider_error |}.

End RateSpec.

(* ===================================================================== *)
(** * Verified properties *)
(* ===================================================================== *)

(** ** Dictionaries *)

Section DictFacts.
Import Py.
Context {V : Type}.

Lemma dict_get_set (d : dict V) (k k' : string) (v : V) :
  dict_get (dict_set d k v) k' =
  if String.eqb k' k then Some v else dict_get d k'.
Proof.
  induction d as [|[k0 v0] d IH]; simpl.
  - reflexivity.
  - destruct (String.eqb k k0) eqn:Hk0; simpl.
    + apply String.eqb_eq in Hk0; subst k0.
      destruct (String.eqb k' k); reflexivity.
    + rewrite IH.
      destruct (String.eqb k' k0) eqn:Hk'0; [|reflexivity].
      apply String.eqb_eq in Hk'0; subst k0.
      rewrite String.eqb_sym, Hk0. reflexivity.
Qed.

Lemma dict_set_fresh (d : dict V) (k : string) (v : V) :
  dict_get d k = None -> dict_set d k v = (d ++ [(k, v)])%list.
Proof.
  induction d as [|[k0 v0] d IH]; simpl; intros H.
  - reflexivity.
  - destruct (String.eqb k k0); [discriminate|].
    now rewrite IH.
Qed.

Lemma dict_get_app (d1 d2 : dict V) (k : string) :
  dict_get (d1 ++ d2)%list k =
  match dict_get d1 k with
  | Some v => Some v
  | None => dict_get d2 k
  end.
Proof.
  induction d1 as [|[k0 v0] d1 IH]; simpl.
  - reflexivity.
  - destruct (String.eqb k k0); [reflexivity | exact IH].
Qed.

Lemma dict_get_In (d : dict V) (k : string) (v : V) :
  dict_get d k = Some v -> In (k, v) d.
Proof.
  induction d as [|[k0 v0] d IH]; simpl; intros H.
  - discriminate.
  - destruct (String.eqb k k0) eqn:Hk.
    + apply String.eqb_eq in Hk. left. congruence.
    + right. auto.
Qed.

Lemma dict_get_None_keys (d : dict V) (k : string) :
  dict_get d k = None <-> ~ In k (dict_keys d).
Proof.
  induction d as [|[k0 v0] d IH]; simpl.
  - tauto.
  - destruct (String.eqb k k0) eqn:Hk.
    + apply String.eqb_eq in Hk. split; [discriminate | intros H; exfalso; auto].
    + apply String.eqb_neq in Hk. rewrite IH. split.
      * intros H [E|I]; [congruence | auto].
      * intros H I. apply H. auto.
Qed.

End DictFacts.

(** ** The monad *)

Section MonadFacts.
Import Py Sys.

Lemma bind_ret_l {A B : Type} (a : A) (k : A -> IO B) (w : World) :
  bind (ret a) k w = k a w.
Proof. unfold bind, ret. simpl. now destruct (k a w). Qed.

Lemma result_of_bind {A B : Type} (m : IO A) (k : A -> IO B) (w : World) :
  result_of (bind m k) w =
  match result_of m w with
  | Ok a => result_of (k a) w
  | Raise e => Raise e
  end.
Proof.
  unfold result_of, bind. destruct (m w) as [tr [a|e]]; simpl.
  - now destruct (k a w).
  - reflexivity.
Qed.


(** A handler for every exception that itself returns: the whole [try]
    returns. *)
Lemma result_of_try_any {A : Type} (body : IO A) (h : exn -> A) (w : World) :
  result_of (try_except body any_exception (fun e => ret (h e))) w =
  Ok match result_of body w with
     | Ok a => a
     | Raise e => h e
     end.
Proof.
  unfold result_of, try_except, any_exception, ret.
  now destruct (body w) as [tr [a|e]].
Qed.

End MonadFacts.

(** ** Currency lookup *)

Section CurrencyFacts.
Import Py Sys Currency CurrencySpec.

Lemma currency_codes_shaped :
  forallb (fun kv => iso_4217_shaped (code (snd kv))) country_currency_map = true.
Proof. vm_compute. reflexivity. Qed.

Lemma currency_keys_distinct : NoDup (dict_keys country_currency_map).
Proof.
  unfold country_currency_map, dict_keys; simpl.
  repeat (constructor; [simpl; intuition discriminate|]).
  constructor.
Qed.

Lemma currency_codes_iso :
  forallb (fun kv =>
             match IsoSpec.iso_4217_code (fst kv) with
             | Some c => String.eqb c (code (snd kv))
             | None => false
             end) country_currency_map = true.
Proof. vm_compute. reflexivity. Qed.

(** C9.  [get_country_currency] is a static lookup, under the string
    methods of any interpreter, CPython's Unicode-aware ones included.  It
    issues no request in any world.  When the lower-cased, stripped name is
    a key of the table it returns that entry's code and name (with the
    title-cased country); the code is the one ISO 4217 gives the currency
    of that country, three capital letters.  For every other name it
    returns the error record that quotes the name. *)
Theorem get_country_currency_static_lookup
    (py : Text) (self : CurrencyMCPTool) (country_name : string) (w : World) :
  traffic (get_country_currency_in py self country_name) w = [] /\
  match dict_get country_currency_map
          (text_strip py (text_lower py country_name)) with
  | Some entry =>
      result_of (get_country_currency_in py self country_name) w
        = Ok (CurrencyInfo (text_title py country_name)
                (code entry) (name entry)) /\
      IsoSpec.iso_4217_code (text_strip py (text_lower py country_name))
        = Some (code entry) /\
      iso_4217_shaped (code entry) = true
  | None =>
      result_of (get_country_currency_in py self country_name) w
        = Ok (CurrencyError
                ("Currency information not found for country: " ++ country_name))
  end.
Proof.
  unfold get_country_currency_in.
  destruct (dict_get country_currency_map
              (text_strip py (text_lower py country_name)))
    as [entry|] eqn:Hget.
  - split; [reflexivity|]. split; [reflexivity|].
    apply dict_get_In in Hget. split.
    + pose proof currency_codes_iso as Hall.
      rewrite forallb_forall in Hall.
      specialize (Hall _ Hget). cbn [fst snd] in Hall.
      destruct (IsoSpec.iso_4217_code
                  (text_strip py (text_lower py country_name))) as [c|];
        [|discriminate Hall].
      apply String.eqb_eq in Hall. now subst c.
    + pose proof currency_codes_shaped as Hall.
      rewrite forallb_forall in Hall.
      exact (Hall _ Hget).
  - split; reflexivity.
Qed.

(** Under CPython's methods a no-break space around the name is stripped:
    with such a [strip] the name "japan" followed by U+00A0 is a name of
    the table, and the lookup returns the yen. *)
Example no_break_space_is_stripped :
  let py := {| text_lower := lower;
               text_strip := fun s =>
                 strip (replace (String "194"%char (String "160"%char EmptyString))
                          " " s);
               text_title := title |} in
  result_of (get_country_currency_in py Sample.keyless_currency_tool
               ("japan" ++ String "194"%char (String "160"%char EmptyString)))
    Sample.offline
  = Ok (CurrencyInfo
          ("Japan" ++ String "194"%char (String "160"%char EmptyString))
          "JPY" "Japanese Yen").
Proof. vm_compute. reflexivity. Qed.

(** The outcome of [get_exchange_rates], case by case. *)
Lemma get_exchange_rates_cases (self : CurrencyMCPTool) (base : string)
    (targets : list string) (w : World) :
  result_of (get_exchange_rates self base targets) w =
  if key_missing (api_key self)
  then Ok (ExchangeError "EXCHANGERATE_API_KEY not configured")
  else
    match requests_get w (latest_url self base) with
    | Ok data =>
        if is_success (result data)
        then Ok (ExchangeRates base (collect_rates (rates_in data) targets)
                   (time_last_update_utc data) (time_next_update_utc data))
        else Ok (ExchangeError
                   ("API error: "
                      ++ match error_type data with
                         | Some t => t
                         | None => "Unknown error"
                         end))
    | Raise e =>
        if request_exception e
        then Ok (ExchangeError ("Failed to fetch exchange rates: " ++ exn_str e))
        else Raise e
    end.
Proof.
  unfold get_exchange_rates, result_of.
  destruct (key_missing (api_key self)); [reflexivity|].
  unfold try_except, bind, http_get_json.
  destruct (requests_get w (latest_url self base)) as [data|e]; simpl.
  - unfold rates_in. destruct (is_success (result data)); reflexivity.
  - destruct (request_exception e); reflexivity.
Qed.

(** What the filling loop leaves under each key. *)
Lemma collect_rates_from_get (conv : dict pyval) (targets : list string)
    (acc : dict pyval) (t : string) :
  dict_get (collect_rates_from conv targets acc) t =
  if list_has targets t then Some (rate_or_unavailable conv t)
  else dict_get acc t.
Proof.
  unfold collect_rates_from.
  revert acc. induction targets as [|t0 targets IH]; intros acc.
  - reflexivity.
  - simpl fold_left. rewrite IH.
    unfold list_has. simpl existsb. fold (list_has targets t).
    destruct (list_has targets t) eqn:Hin.
    + now rewrite orb_true_r.
    + rewrite orb_false_r.
      assert (Hset : dict_get
                (match dict_get conv t0 with
                 | Some rate => dict_set acc t0 rate
                 | None => dict_set acc t0 (PyStr "Not available")
                 end) t
              = if String.eqb t t0 then Some (rate_or_unavailable conv t0)
                else dict_get acc t).
      { unfold rate_or_unavailable.
        destruct (dict_get conv t0); apply dict_get_set. }
      rewrite Hset.
      destruct (String.eqb t t0) eqn:Ht; [|reflexivity].
      apply String.eqb_eq in Ht. now subst.
Qed.

Lemma collect_rates_get (conv : dict pyval) (targets : list string) (t : string) :
  dict_get (collect_rates conv targets) t =
  if list_has targets t then Some (rate_or_unavailable conv t) else None.
Proof. unfold collect_rates. now rewrite collect_rates_from_get. Qed.

Lemma list_has_In (xs : list string) (x : string) :
  list_has xs x = true <-> In x xs.
Proof.
  unfold list_has. rewrite existsb_exists. split.
  - intros [y [Hy E]]. apply String.eqb_eq in E. now subst.
  - intros H. exists x. split; [assumption | apply String.eqb_refl].
Qed.

(** C7.  On a successful call (a key is configured, the request is
    answered and the answer says "success") the rates map has an entry for
    every requested target: the API's rate when the response has one, the
    literal string "Not available" when it has none. *)
Theorem missing_rates_marked_not_available
    (self : CurrencyMCPTool) (base : string) (targets : list string)
    (w : World) (data : api_response) :
  key_missing (api_key self) = false ->
  requests_get w (latest_url self base) = Ok data ->
  is_success (result data) = true ->
  exists rates,
    result_of (get_exchange_rates self base targets) w
      = Ok (ExchangeRates base rates
              (time_last_update_utc data) (time_next_update_utc data)) /\
    forall t, In t targets ->
      dict_get rates t = Some (rate_or_unavailable (rates_in data) t) /\
      (dict_get (rates_in data) t = None ->
       dict_get rates t = Some (PyStr "Not available")).
Proof.
  intros Hkey Hget Hok.
  exists (collect_rates (rates_in data) targets). split.
  - rewrite get_exchange_rates_cases, Hkey, Hget, Hok. reflexivity.
  - intros t Hin.
    apply list_has_In in Hin.
    rewrite collect_rates_get, Hin. split; [reflexivity|].
    intros Hnone. unfold rate_or_unavailable. now rewrite Hnone.
Qed.

Lemma missing_rates_marked_not_available_witness :
  exists rates,
    result_of (get_exchange_rates Sample.keyed_currency_tool "JPY"
                 ["USD"; "EUR"; "GBP"; "INR"]) Sample.online
      = Ok (ExchangeRates "JPY" rates
              (Some "Fri, 27 Mar 2020 00:00:00 +0000")
              (Some "Sat, 28 Mar 2020 00:00:00 +0000")) /\
    dict_get rates "USD" = Some (PyFloat (decimal 67 4)) /\
    dict_get rates "EUR" = Some (PyStr "Not available") /\
    dict_get rates "GBP" = Some (PyStr "Not available") /\
    dict_get rates "INR" = Some (PyInt 1).
Proof.
  destruct (missing_rates_marked_not_available Sample.keyed_currency_tool "JPY"
              ["USD"; "EUR"; "GBP"; "INR"] Sample.online Sample.rates_reply
              eq_refl eq_refl eq_refl) as [rates [Hres Hall]].
  exists rates. split; [exact Hres|].
  repeat split.
  - apply (Hall "USD"). simpl. tauto.
  - apply (Hall "EUR"); [simpl; tauto | reflexivity].
  - apply (Hall "GBP"); [simpl; tauto | reflexivity].
  - apply (Hall "INR"). simpl. tauto.
Defined.

(** The lookup step of [get_all_rates_for_country] and what follows it. *)
Lemma get_all_rates_unfold_in (py : Text) (self : CurrencyMCPTool)
    (country_name : string) (w : World) :
  get_all_rates_for_country_in py self country_name w =
  match dict_get country_currency_map
          (text_strip py (text_lower py country_name)) with
  | None =>
      ([], Ok (CountryError
                 ("Currency information not found for country: " ++ country_name)))
  | Some entry =>
      bind (get_exchange_rates self (code entry) (targets_for (code entry)))
        (fun exchange_data =>
           ret (CountryRates (text_title py country_name) (code entry)
                  (name entry) exchange_data)) w
  end.
Proof.
  unfold get_all_rates_for_country_in, get_country_currency_in.
  destruct (dict_get country_currency_map
              (text_strip py (text_lower py country_name)));
    now rewrite bind_ret_l.
Qed.

Lemma get_all_rates_unfold (self : CurrencyMCPTool) (country_name : string)
    (w : World) :
  get_all_rates_for_country self country_name w =
  match dict_get country_currency_map (strip (lower country_name)) with
  | None =>
      ([], Ok (CountryError
                 ("Currency information not found for country: " ++ country_name)))
  | Some entry =>
      bind (get_exchange_rates self (code entry) (targets_for (code entry)))
        (fun exchange_data =>
           ret (CountryRates (title country_name) (code entry) (name entry)
                  exchange_data)) w
  end.
Proof. exact (get_all_rates_unfold_in ascii_text self country_name w). Qed.

Lemma get_all_rates_result_in (py : Text) (self : CurrencyMCPTool)
    (country_name : string) (w : World) :
  result_of (get_all_rates_for_country_in py self country_name) w =
  match dict_get country_currency_map
          (text_strip py (text_lower py country_name)) with
  | None =>
      Ok (CountryError
            ("Currency information not found for country: " ++ country_name))
  | Some entry =>
      match result_of (get_exchange_rates self (code entry)
                         (targets_for (code entry))) w with
      | Ok exchange_data =>
          Ok (CountryRates (text_title py country_name) (code entry)
                (name entry) exchange_data)
      | Raise e => Raise e
      end
  end.
Proof.
  unfold result_of at 1. rewrite get_all_rates_unfold_in.
  destruct (dict_get country_currency_map
              (text_strip py (text_lower py country_name)))
    as [entry|]; [|reflexivity].
  exact (result_of_bind _ _ w).
Qed.

Lemma get_all_rates_result (self : CurrencyMCPTool) (country_name : string)
    (w : World) :
  result_of (get_all_rates_for_country self country_name) w =
  match dict_get country_currency_map (strip (lower country_name)) with
  | None =>
      Ok (CountryError
            ("Currency information not found for country: " ++ country_name))
  | Some entry =>
      match result_of (get_exchange_rates self (code entry)
                         (targets_for (code entry))) w with
      | Ok exchange_data =>
          Ok (CountryRates (title country_name) (code entry) (name entry)
                exchange_data)
      | Raise e => Raise e
      end
  end.
Proof. exact (get_all_rates_result_in ascii_text self country_name w). Qed.

(** C2, as the code has it, under the string methods of any interpreter.
    A failed country lookup is returned as the call's error.  Once the
    lookup succeeds, whenever [get_exchange_rates] returns, the call
    returns the merged record, and whatever [get_exchange_rates] returned,
    the rates or its error record, sits under [exchange_rates]: a returned
    result carries an "error" key exactly when the country is not in the
    table.  [get_exchange_rates] is called outside any [try]: an exception
    it raises leaves [get_all_rates_for_country] as it is. *)
Theorem get_all_rates_merged_or_lookup_error
    (py : Text) (self : CurrencyMCPTool) (country_name : string) (w : World) :
  match dict_get country_currency_map
          (text_strip py (text_lower py country_name)) with
  | None =>
      result_of (get_all_rates_for_country_in py self country_name) w
        = Ok (CountryError
                ("Currency information not found for country: " ++ country_name))
  | Some entry =>
      match result_of (get_exchange_rates self (code entry)
                         (targets_for (code entry))) w with
      | Ok exchange_data =>
          result_of (get_all_rates_for_country_in py self country_name) w
            = Ok (CountryRates (text_title py country_name) (code entry)
                    (name entry) exchange_data) /\
          has_error (CountryRates (text_title py country_name) (code entry)
                       (name entry) exchange_data) = false
      | Raise e =>
          result_of (get_all_rates_for_country_in py self country_name) w
            = Raise e
      end
  end.
Proof.
  rewrite get_all_rates_result_in.
  destruct (dict_get country_currency_map
              (text_strip py (text_lower py country_name)))
    as [entry|]; [|reflexivity].
  destruct (result_of (get_exchange_rates self (code entry)
                         (targets_for (code entry))) w);
    [split|]; reflexivity.
Qed.

(** C2 as stated fails: with no rate key configured, the error of
    [get_exchange_rates] for Japan is not the result of the call, which is
    the merged record holding that error. *)
Lemma rate_error_is_embedded_for_japan :
  ~ rate_error_returned Sample.keyless_currency_tool "Japan" Sample.offline.
Proof.
  intros H.
  specialize (H {| code := "JPY"; name := "Japanese Yen" |}
                "EXCHANGERATE_API_KEY not configured" eq_refl eq_refl).
  vm_compute in H. discriminate H.
Qed.

Example get_all_rates_japan_without_key :
  result_of (get_all_rates_for_country Sample.keyless_currency_tool "Japan")
    Sample.offline
  = Ok (CountryRates "Japan" "JPY" "Japanese Yen"
          (ExchangeError "EXCHANGERATE_API_KEY not configured")).
Proof. reflexivity. Qed.

Example get_all_rates_japan_when_the_request_breaks :
  result_of (get_all_rates_for_country Sample.keyed_currency_tool "Japan")
    RateSpec.rates_broken
  = Raise Sample.provider_error.
Proof. reflexivity. Qed.

(** The targets never contain the base currency, whatever it is. *)
Lemma targets_exclude_base (base : string) : ~ In base (targets_for base).
Proof.
  unfold targets_for, list_has. simpl.
  destruct (String.eqb base "USD") eqn:E1;
  destruct (String.eqb base "EUR") eqn:E2;
  destruct (String.eqb base "GBP") eqn:E3;
  destruct (String.eqb base "INR") eqn:E4; simpl;
  intros H;
  repeat match goal with
         | H : _ \/ _ |- _ => destruct H as [H|H]
         | H : False |- _ => contradiction
         | H : _ = base |- _ => subst base; simpl in *; discriminate
         end.
Qed.

Lemma targets_are_defaults (base t : string) :
  In t (targets_for base) -> In t ["USD"; "EUR"; "GBP"; "INR"].
Proof.
  unfold targets_for, list_has. simpl.
  destruct (String.eqb base "USD") eqn:E1;
  destruct (String.eqb base "EUR") eqn:E2;
  destruct (String.eqb base "GBP") eqn:E3;
  destruct (String.eqb base "INR") eqn:E4; simpl; tauto.
Qed.

Lemma targets_keep_others (base t : string) :
  In t ["USD"; "EUR"; "GBP"; "INR"] -> t <> base -> In t (targets_for base).
Proof.
  unfold targets_for, list_has. simpl.
  intros Hin Hne.
  destruct (String.eqb base "USD") eqn:E1;
  destruct (String.eqb base "EUR") eqn:E2;
  destruct (String.eqb base "GBP") eqn:E3;
  destruct (String.eqb base "INR") eqn:E4; simpl;
  repeat match goal with
         | H : String.eqb base _ = true |- _ => apply String.eqb_eq in H
         end;
  intuition congruence.
Qed.

(** C6.  For a country of the currency table, the targets handed to
    [get_exchange_rates] are the four defaults without the country's own
    currency: the call below is the only one the method makes, its target
    list does not contain the base, and a rates map that comes back has no
    entry for the base. *)
Theorem base_currency_removed_from_targets
    (self : CurrencyMCPTool) (country_name : string) (w : World)
    (entry : currency_entry) :
  dict_get country_currency_map (strip (lower country_name)) = Some entry ->
  let base := code entry in
  ~ In base (targets_for base) /\
  (forall t, In t (targets_for base) <->
             In t ["USD"; "EUR"; "GBP"; "INR"] /\ t <> base) /\
  get_all_rates_for_country self country_name w
    = bind (get_exchange_rates self base (targets_for base))
        (fun exchange_data =>
           ret (CountryRates (title country_name) base (name entry)
                  exchange_data)) w /\
  (forall c cc cn b rates lu nu,
     result_of (get_all_rates_for_country self country_name) w
       = Ok (CountryRates c cc cn (ExchangeRates b rates lu nu)) ->
     b = base /\ dict_get rates base = None).
Proof.
  intros Hget base.
  split; [apply targets_exclude_base|].
  split.
  { intros t. split.
    - intros Hin. split; [now apply targets_are_defaults with (base := base)|].
      intros ->. revert Hin. apply targets_exclude_base.
    - intros [Hin Hne]. now apply targets_keep_others. }
  split; [now rewrite get_all_rates_unfold, Hget|].
  intros c cc cn b rates lu nu H.
  rewrite get_all_rates_result, Hget, get_exchange_rates_cases in H.
  fold base in H.
  destruct (key_missing (api_key self)); [discriminate|].
  destruct (requests_get w (latest_url self base)) as [data|e].
  - destruct (is_success (result data)); [|discriminate].
    injection H as _ _ _ Hb Hrates _ _. subst b rates.
    split; [reflexivity|].
    rewrite collect_rates_get.
    destruct (list_has (targets_for base) base) eqn:Hhas; [|reflexivity].
    apply list_has_In in Hhas. exfalso. revert Hhas.
    apply targets_exclude_base.
  - destruct (request_exception e); discriminate.
Qed.

Lemma base_currency_removed_from_targets_witness :
  ~ In "GBP" (targets_for "GBP") /\
  targets_for "GBP" = ["USD"; "EUR"; "INR"] /\
  (forall c cc cn b rates lu nu,
     result_of (get_all_rates_for_country Sample.keyed_currency_tool
                  "United Kingdom") Sample.online
       = Ok (CountryRates c cc cn (ExchangeRates b rates lu nu)) ->
     b = "GBP" /\ dict_get rates "GBP" = None).
Proof.
  pose proof (base_currency_removed_from_targets Sample.keyed_currency_tool
                "United Kingdom" Sample.online
                {| code := "GBP"; name := "British Pound Sterling" |} eq_refl)
    as [Hnot [_ [_ Hrates]]].
  split; [exact Hnot|]. split; [reflexivity | exact Hrates].
Defined.

End CurrencyFacts.

(** ** Market lookup *)

Section StockFacts.
Import Py Sys Stock StockSpec.
Variable rt : Runtime.


(** A truthy divisor never makes the division fault on zero. *)
Lemma div_by_truthy_no_zero_division (x : float) (v : pyval) :
  truthy v = true -> raises_zero_division (div_float_by rt x v) = false.
Proof.
  destruct v as [|n|y|s]; simpl; intros Ht; try reflexivity.
  - destruct (n =? 0)%Z; [discriminate|].
    unfold float_of_int. now destruct (float_of_Z n).
  - now destruct (float_is_zero y).
Qed.

Lemma sub_no_zero_division (x : float) (v : pyval) :
  raises_zero_division (sub_from_float rt x v) = false.
Proof.
  destruct v as [|n|y|s]; simpl; try reflexivity.
  unfold float_of_int. now destruct (float_of_Z n).
Qed.

(** No data makes [compute_quote] divide by zero. *)
Lemma compute_quote_no_zero_division (info : dict pyval) (current fallback : float) :
  raises_zero_division (compute_quote rt info current fallback) = false.
Proof.
  unfold compute_quote.
  pose proof (sub_no_zero_division current (previous_close_of info fallback)) as Hs.
  destruct (sub_from_float rt current (previous_close_of info fallback))
    as [chg|e]; [|exact Hs].
  destruct (truthy (previous_close_of info fallback)) eqn:Ht; [|reflexivity].
  pose proof (div_by_truthy_no_zero_division chg _ Ht) as Hd.
  destruct (div_float_by rt chg (previous_close_of info fallback));
    [reflexivity | exact Hd].
Qed.

Lemma zero_number_falsy (v : pyval) : is_zero_number v = true -> truthy v = false.
Proof. destruct v; simpl; try discriminate; now intros ->. Qed.

Lemma zero_number_subtracts (x : float) (v : pyval) :
  is_zero_number v = true -> exists chg, sub_from_float rt x v = Ok chg.
Proof.
  destruct v as [|n|y|s]; simpl; try discriminate; intros Hz.
  - apply Z.eqb_eq in Hz. subst n. now eexists.
  - now eexists.
Qed.

Lemma zero_number_rounds (v : pyval) :
  is_zero_number v = true -> exists r, round2 rt v = Ok r.
Proof. destruct v; simpl; try discriminate; intros _; now eexists. Qed.

(** C3, as the code has it.  For any metadata and prices the computation
    never faults on a division by zero.  When the previous close is a
    number equal to zero (0, 0.0 or -0.0) the quote is computed, its
    change_percent is the integer 0, no division having been made, and the
    reported entry carries that 0. *)
Theorem zero_previous_close_gives_zero_percent
    (info : dict pyval) (current fallback : float) :
  raises_zero_division (compute_quote rt info current fallback) = false /\
  (is_zero_number (previous_close_of info fallback) = true ->
   exists chg,
     compute_quote rt info current fallback
       = Ok {| current_price := current;
               previous_close := previous_close_of info fallback;
               change := chg;
               change_percent := PyInt 0 |} /\
     forall symbol stamp,
     exists cv pc,
       entry_of_quote rt symbol
         {| current_price := current;
            previous_close := previous_close_of info fallback;
            change := chg;
            change_percent := PyInt 0 |} stamp
       = Ok (IndexValue symbol cv pc (PyFloat (round_float rt chg)) (PyInt 0) stamp)).
Proof.
  split; [apply compute_quote_no_zero_division|].
  intros Hz.
  destruct (zero_number_subtracts current _ Hz) as [chg Hsub].
  exists chg. split.
  - unfold compute_quote. rewrite Hsub, (zero_number_falsy _ Hz). reflexivity.
  - intros symbol stamp.
    destruct (zero_number_rounds _ Hz) as [pc Hpc].
    exists (PyFloat (round_float rt current)), pc.
    unfold entry_of_quote. simpl. now rewrite Hpc.
Qed.

End StockFacts.

Lemma zero_previous_close_gives_zero_percent_witness :
  StockSpec.raises_zero_division
    (Stock.compute_quote Sample.runtime
       [("previousClose", Py.PyFloat (S754_zero false))]
       (Py.float_of_Z 105) (Py.float_of_Z 105)) = false /\
  exists chg,
    Stock.compute_quote Sample.runtime
      [("previousClose", Py.PyFloat (S754_zero false))]
      (Py.float_of_Z 105) (Py.float_of_Z 105)
    = Py.Ok {| Stock.current_price := Py.float_of_Z 105;
               Stock.previous_close := Py.PyFloat (S754_zero false);
               Stock.change := chg;
               Stock.change_percent := Py.PyInt 0 |}.
Proof.
  destruct (zero_previous_close_gives_zero_percent Sample.runtime
              [("previousClose", Py.PyFloat (S754_zero false))]
              (Py.float_of_Z 105) (Py.float_of_Z 105)) as [Hno Hzero].
  split; [exact Hno|].
  destruct (Hzero eq_refl) as [chg [Hq _]].
  exists chg. exact Hq.
Defined.

(** C3 as stated fails for an absent previous close: with [None] in the
    metadata the subtraction raises, and no change_percent is computed. *)
Lemma none_previous_close_has_no_percent :
  ~ StockSpec.falsy_gives_zero_percent Sample.runtime
      [("previousClose", Py.PyNone)] (Py.float_of_Z 105) (Py.float_of_Z 105).
Proof.
  intros H. destruct (H eq_refl) as [q [Hq _]].
  vm_compute in Hq. discriminate Hq.
Qed.

Section StockFetchFacts.
Import Py Sys Stock StockSpec.
Variable rt : Runtime.

(** One iteration of the loop always returns, and what it returns is
    decided by the provider's answers for that one ticker. *)
Lemma fetch_index_report (symbol : string) (w : World) :
  result_of (fetch_index rt symbol) w
  = Ok (report rt symbol (ticker_info w symbol) (ticker_history w symbol)).
Proof.
  unfold fetch_index. rewrite result_of_try_any. f_equal.
  unfold index_body. rewrite result_of_bind.
  change (result_of (yf_info symbol) w) with (ticker_info w symbol).
  unfold report.
  destruct (ticker_info w symbol) as [info|e]; [|reflexivity].
  rewrite result_of_bind.
  change (result_of (yf_history symbol) w) with (ticker_history w symbol).
  destruct (ticker_history w symbol) as [hist|e]; [|reflexivity].
  destruct (rev hist) as [|[stamp current] earlier]; [reflexivity|].
  rewrite result_of_bind.
  change (result_of (lift (compute_quote rt info current
                             (fallback_close current earlier))) w)
    with (compute_quote rt info current (fallback_close current earlier)).
  destruct (compute_quote rt info current (fallback_close current earlier))
    as [q|e]; [|reflexivity].
  change (result_of (lift (entry_of_quote rt symbol q stamp)) w)
    with (entry_of_quote rt symbol q stamp).
  now destruct (entry_of_quote rt symbol q stamp).
Qed.

Lemma dict_keys_app {V : Type} (a b : dict V) :
  dict_keys (a ++ b)%list = (dict_keys a ++ dict_keys b)%list.
Proof. apply map_app. Qed.

(** With index names that are new and distinct, the loop appends one entry
    per index, in order. *)
Lemma index_loop_appends (indices : dict string) (acc : dict index_entry)
    (w : World) :
  NoDup (dict_keys acc ++ dict_keys indices)%list ->
  result_of (index_loop rt indices acc) w
  = Ok (acc ++ map (reported rt w) indices)%list.
Proof.
  revert acc. induction indices as [|[index_name symbol] rest IH]; intros acc Hnd.
  - simpl. now rewrite app_nil_r.
  - simpl index_loop. rewrite result_of_bind, fetch_index_report.
    assert (Hfresh : dict_get acc index_name = None).
    { apply dict_get_None_keys. intros Hin.
      simpl in Hnd. apply NoDup_remove_2 in Hnd. apply Hnd.
      apply in_or_app. now left. }
    rewrite (dict_set_fresh _ _ _ Hfresh).
    rewrite IH.
    + simpl map. unfold reported at 2. simpl fst. simpl snd.
      now rewrite <- app_assoc.
    + rewrite dict_keys_app. simpl. rewrite <- app_assoc. exact Hnd.
Qed.

Lemma nodup_lookup {V : Type} (d : dict V) (k : string) (v : V) :
  NoDup (dict_keys d) -> In (k, v) d -> dict_get d k = Some v.
Proof.
  induction d as [|[k0 v0] d IH]; simpl; intros Hnd Hin; [contradiction|].
  inversion Hnd as [|? ? Hnot Hnd']; subst.
  destruct Hin as [E|Hin].
  - injection E as -> ->. now rewrite String.eqb_refl.
  - destruct (String.eqb k k0) eqn:Hk.
    + apply String.eqb_eq in Hk. subst k0. exfalso. apply Hnot.
      change k with (fst (k, v)). now apply in_map.
    + now apply IH.
Qed.

Lemma distinct_NoDup (xs : list string) : distinct xs = true -> NoDup xs.
Proof.
  induction xs as [|x xs IH]; simpl; intros H; constructor.
  - apply andb_prop in H. destruct H as [H _].
    intros Hin. apply list_has_In in Hin. now rewrite Hin in H.
  - apply andb_prop in H. tauto.
Qed.

Lemma table_index_names_distinct :
  forallb (fun kv => distinct (dict_keys (indices (snd kv)))) exchange_table = true.
Proof. vm_compute. reflexivity. Qed.

Lemma failed_fetch_is_error (symbol : string) (info : outcome (dict pyval))
    (hist : outcome history) :
  fetch_failed info hist = true ->
  entry_has_error (report rt symbol info hist) = true.
Proof.
  unfold fetch_failed, report.
  destruct info as [info|e]; [|reflexivity].
  destruct hist as [[|row hist]|e]; try reflexivity. discriminate.
Qed.

Lemma numeric_quote_returns (info : dict pyval) (current fallback : float) :
  numeric_previous_close info = true ->
  exists q, compute_quote rt info current fallback = Ok q /\
            exists r, round2 rt (previous_close q) = Ok r /\
            is_number (change_percent q) = true.
Proof.
  unfold numeric_previous_close, compute_quote, previous_close_of.
  destruct (dict_get info "previousClose") as [[|n|y|s]|]; try discriminate.
  - simpl sub_from_float. unfold div_float_by.
    destruct (float_of_int n) as [y|e] eqn:Hy; [intros _|discriminate].
    simpl truthy. destruct (n =? 0)%Z; simpl.
    + eexists. split; [reflexivity|]. simpl. eauto.
    + eexists. split; [reflexivity|]. simpl. eauto.
  - intros _. simpl. destruct (float_is_zero y); simpl.
    + eexists. split; [reflexivity|]. simpl. eauto.
    + eexists. split; [reflexivity|]. simpl. eauto.
  - intros _. simpl. destruct (float_is_zero fallback); simpl.
    + eexists. split; [reflexivity|]. simpl. eauto.
    + eexists. split; [reflexivity|]. simpl. eauto.
Qed.

Lemma usable_fetch_is_value (symbol : string) (info : outcome (dict pyval))
    (hist : outcome history) :
  fetch_usable info hist = true ->
  entry_has_error (report rt symbol info hist) = false.
Proof.
  unfold fetch_usable, report.
  destruct info as [info|e]; [|discriminate].
  destruct hist as [[|row hist]|e]; try discriminate.
  intros Hnum.
  destruct (rev (row :: hist)) as [|[stamp current] earlier] eqn:Hrev.
  - apply (f_equal (@List.length _)) in Hrev.
    rewrite length_rev in Hrev. discriminate.
  - destruct (numeric_quote_returns info current
                (fallback_close current earlier) Hnum)
      as [q [Hq [r [Hr Hpct]]]].
    rewrite Hq. unfold entry_of_quote. simpl round2 at 1. rewrite Hr.
    simpl. destruct (change_percent q); try discriminate; reflexivity.
Qed.

(** C4.  For a country of the exchange table [get_index_values] returns
    one entry per index, in the table's order, and the entry of an index
    is decided by the provider's answers for that index's ticker alone.
    An index whose fetch raised or came back empty gets an error entry; an
    index whose answers are usable gets its values, whatever happened to
    the others. *)
Theorem index_fetches_are_independent
    (w : World) (country_name : string) (entry : exchange_entry) :
  dict_get exchange_table (strip (lower country_name)) = Some entry ->
  exists index_data,
    result_of (get_index_values rt new country_name) w
      = Ok (IndexValues (title country_name) index_data) /\
    dict_keys index_data = dict_keys (indices entry) /\
    forall index_name symbol,
      In (index_name, symbol) (indices entry) ->
      let info := ticker_info w symbol in
      let hist := ticker_history w symbol in
      dict_get index_data index_name = Some (report rt symbol info hist) /\
      (fetch_failed info hist = true ->
       entry_has_error (report rt symbol info hist) = true) /\
      (fetch_usable info hist = true ->
       entry_has_error (report rt symbol info hist) = false).
Proof.
  intros Hget.
  assert (Hnd : NoDup (dict_keys (indices entry))).
  { apply distinct_NoDup.
    pose proof table_index_names_distinct as Hall.
    rewrite forallb_forall in Hall.
    exact (Hall _ (dict_get_In _ _ _ Hget)). }
  exists (map (reported rt w) (indices entry)).
  split; [|split].
  - unfold get_index_values. simpl stock_exchanges. rewrite Hget.
    rewrite result_of_bind, index_loop_appends by exact Hnd.
    reflexivity.
  - unfold dict_keys. rewrite map_map. reflexivity.
  - intros index_name symbol Hin info hist. split; [|split].
    + apply nodup_lookup.
      * unfold dict_keys. rewrite map_map. exact Hnd.
      * change (index_name, report rt symbol info hist)
          with (reported rt w (index_name, symbol)).
        now apply in_map.
    + apply failed_fetch_is_error.
    + apply usable_fetch_is_value.
Qed.




End StockFetchFacts.



Example falsy_previous_close_is_used :
  Stock.compute_quote Sample.runtime
    [("previousClose", Py.PyFloat (S754_zero false))]
    (Py.float_of_Z 105) (Py.float_of_Z 105)
  = Py.Ok {| Stock.current_price := Py.float_of_Z 105;
             Stock.previous_close := Py.PyFloat (S754_zero false);
             Stock.change := Py.float_of_Z 105;
             Stock.change_percent := Py.PyInt 0 |}.
Proof. vm_compute. reflexivity. Qed.

Example one_day_quote :
  Stock.compute_quote Sample.runtime
    [("previousClose", Py.PyFloat (Py.float_of_Z 100))]
    (Py.float_of_Z 105) (Py.float_of_Z 105)
  = Py.Ok {| Stock.current_price := Py.float_of_Z 105;
             Stock.previous_close := Py.PyFloat (Py.float_of_Z 100);
             Stock.change := Py.float_of_Z 5;
             Stock.change_percent := Py.PyFloat (Py.float_of_Z 5) |}.
Proof. vm_compute. reflexivity. Qed.

Lemma index_fetches_are_independent_witness :
  exists index_data,
    Sys.result_of (Stock.get_index_values Sample.runtime Stock.new "Japan")
      Sample.patchy
      = Py.Ok (Stock.IndexValues "Japan" index_data) /\
    Py.dict_keys index_data = ["Nikkei 225"; "TOPIX"; "JPX-Nikkei 400"] /\
    Py.dict_get index_data "Nikkei 225"
      = Some (Stock.IndexValue "^N225"
                (Py.PyFloat (Py.float_of_Z 105)) (Py.PyFloat (Py.float_of_Z 100))
                (Py.PyFloat (Py.float_of_Z 5)) (Py.PyFloat (Py.float_of_Z 5))
                "2024-01-02 00:00:00") /\
    Py.dict_get index_data "TOPIX"
      = Some (Stock.IndexError "^TOPX"
                "Failed to fetch data: no response from provider") /\
    Py.dict_get index_data "JPX-Nikkei 400"
      = Some (Stock.IndexError "^JPN400" "No data available").
Proof.
  destruct (index_fetches_are_independent Sample.runtime Sample.patchy "Japan"
              _ eq_refl) as [index_data [Hres [Hkeys Hall]]].
  exists index_data. split; [exact Hres|]. split; [exact Hkeys|].
  split; [|split].
  - apply (Hall "Nikkei 225" "^N225"). simpl. tauto.
  - apply (Hall "TOPIX" "^TOPX"). simpl. tauto.
  - apply (Hall "JPX-Nikkei 400" "^JPN400"). simpl. tauto.
Defined.

(** ** Location lookup *)

Section MapsFacts.
Import Py Sys Maps.

(** C8.  With no maps key configured (unset or empty), for every exchange
    name [get_embed_url] returns the empty string and [get_map_html] the
    placeholder notice; both return, without any request. *)
Theorem no_maps_key_disables_maps
    (self : GoogleMapsMCPTool) (exchange_name : string) (width height : Z)
    (w : World) :
  key_missing (api_key self) = true ->
  get_embed_url self exchange_name w = ([], Ok EmptyString) /\
  get_map_html self exchange_name width height w
    = ([], Ok "<p>Google Maps API key not configured</p>").
Proof.
  intros Hkey.
  assert (Hurl : get_embed_url self exchange_name w = ([], Ok EmptyString)).
  { unfold get_embed_url. now rewrite Hkey. }
  split; [exact Hurl|].
  unfold get_map_html, bind. now rewrite Hurl.
Qed.

Lemma no_maps_key_disables_maps_witness :
  get_embed_url MapsSpec.keyless_tool "Tokyo Stock Exchange" Sample.offline
    = ([], Ok EmptyString) /\
  get_map_html MapsSpec.keyless_tool "Tokyo Stock Exchange" 600 450 Sample.offline
    = ([], Ok "<p>Google Maps API key not configured</p>").
Proof.
  exact (no_maps_key_disables_maps MapsSpec.keyless_tool "Tokyo Stock Exchange"
           600 450 Sample.offline eq_refl).
Defined.

Example location_without_key :
  result_of (get_exchange_location "Tokyo Stock Exchange") Sample.offline
  = Ok (LocationKnown "Tokyo Stock Exchange"
          "Tokyo Stock Exchange, 2-1 Nihonbashi-Kabutocho, Chuo City, Tokyo, Japan"
          (decimal 356809 4) (decimal 1397776 4)
          EmptyString "<p>Google Maps API key not configured</p>").
Proof. vm_compute. reflexivity. Qed.

End MapsFacts.

(** ** The dispatcher *)

Section ServerFacts.
Import Py Sys Server ServerSpec.
Variable rt : Runtime.

Lemma parameter_missing (parameters : dict string) (key : string) :
  dict_get parameters key = None -> parameter parameters key = EmptyString.
Proof. unfold parameter. now intros ->. Qed.

(** C10.  A tool name other than the three registered ones makes
    [execute_tool] return the dictionary with the "error" key, without a
    request and without raising.  For a registered name whose parameter is
    missing, the tool is called with the empty string: the dispatcher does
    not raise, and the call comes back with the tool's own not-found
    answer. *)
Theorem execute_tool_dispatch
    (tool_name : string) (parameters : dict string) (w : World) :
  (registered tool_name = false ->
   execute_tool rt tool_name parameters w
     = ([], Ok (ToolError ("Unknown tool: " ++ tool_name))) /\
   is_tool_error (ToolError ("Unknown tool: " ++ tool_name)) = true) /\
  (dict_get parameters "country_name" = None ->
   execute_tool rt "get_currency_info" parameters w
     = bind (Currency.get_currency_info rt EmptyString)
         (fun output => ret (Text output)) w /\
   execute_tool rt "get_currency_info" parameters w
     = ([], Ok (Text "Error: Currency information not found for country: ")) /\
   execute_tool rt "get_stock_market_info" parameters w
     = bind (Stock.get_stock_market_info rt EmptyString)
         (fun output => ret (Text output)) w /\
   execute_tool rt "get_stock_market_info" parameters w
     = ([], Ok (Text "Error: Stock exchange information not found for country: "))) /\
  (dict_get parameters "exchange_name" = None ->
   execute_tool rt "get_exchange_location" parameters w
     = bind (Maps.get_exchange_location EmptyString)
         (fun info => ret (Location info)) w /\
   exists map_url,
     execute_tool rt "get_exchange_location" parameters w
       = ([], Ok (Location
                    (Maps.LocationUnknown EmptyString
                       "Location information not available" map_url)))).
Proof.
  split; [|split].
  - intros Hreg. split; [|reflexivity].
    unfold registered, list_has in Hreg. simpl in Hreg.
    unfold execute_tool.
    destruct (String.eqb tool_name "get_currency_info"); [discriminate|].
    destruct (String.eqb tool_name "get_stock_market_info"); [discriminate|].
    destruct (String.eqb tool_name "get_exchange_location"); [discriminate|].
    reflexivity.
  - intros Hmissing. apply parameter_missing in Hmissing.
    unfold execute_tool. cbn [String.eqb Ascii.eqb Bool.eqb].
    rewrite Hmissing. repeat split; reflexivity.
  - intros Hmissing. apply parameter_missing in Hmissing.
    unfold execute_tool. cbn [String.eqb Ascii.eqb Bool.eqb].
    rewrite Hmissing. split; [reflexivity|].
    unfold Maps.get_exchange_location, Maps.new, os_getenv, bind, ret.
    unfold Maps.get_location_info, Maps.get_embed_url.
    cbn [Maps.api_key Maps.exchange_locations].
    destruct (key_missing (getenv w "GOOGLE_MAPS_API_KEY")); eexists; reflexivity.
Qed.

End ServerFacts.

Lemma execute_tool_dispatch_witness :
  Server.execute_tool Sample.runtime "get_exchange_rates" [] Sample.offline
    = ([], Py.Ok (Server.ToolError "Unknown tool: get_exchange_rates")) /\
  Server.execute_tool Sample.runtime "get_currency_info"
    [("country", "Japan")] Sample.offline
    = ([], Py.Ok (Server.Text "Error: Currency information not found for country: ")) /\
  exists map_url,
    Server.execute_tool Sample.runtime "get_exchange_location" [] Sample.offline
      = ([], Py.Ok (Server.Location
                      (Maps.LocationUnknown EmptyString
                         "Location information not available" map_url))).
Proof.
  split; [|split].
  - apply (execute_tool_dispatch Sample.runtime "get_exchange_rates" []
             Sample.offline). reflexivity.
  - apply (execute_tool_dispatch Sample.runtime "get_exchange_rates"
             [("country", "Japan")] Sample.offline). reflexivity.
  - apply (execute_tool_dispatch Sample.runtime "get_exchange_rates" []
             Sample.offline). reflexivity.
Defined.

(** ** The aggregator *)

Section AgentFacts.
Import Py Sys Agent AgentSpec.
Variable get_currency_info : string -> IO string.
Variable get_stock_market_info : string -> IO string.
Variable get_exchange_location : string -> IO Maps.location_result.
Variable str_location : Maps.location_result -> string.

Local Abbreviation call_tools :=
  (_call_tools get_currency_info get_stock_market_info get_exchange_location
     str_location).

(** Step 1 returns whatever its tool does, and touches its own key only. *)
Lemma currency_step_result (country : string) (r : results) (steps : list step)
    (w : World) :
  result_of (currency_step get_currency_info country (r, steps)) w
  = Ok ({| currency_info :=
             Some (currency_text (result_of (get_currency_info country) w));
           stock_info := stock_info r;
           primary_exchange := primary_exchange r;
           location := location r |},
        (steps ++ [currency_entry country
                     (result_of (get_currency_info country) w)])%list).
Proof.
  unfold currency_step. rewrite result_of_try_any, result_of_bind.
  now destruct (result_of (get_currency_info country) w).
Qed.

(** Step 2 likewise; the primary exchange is set from a returned report. *)
Lemma stock_step_result (country : string) (r : results) (steps : list step)
    (w : World) :
  primary_exchange r = None ->
  result_of (stock_step get_stock_market_info country (r, steps)) w
  = Ok ({| currency_info := currency_info r;
           stock_info :=
             Some (stock_text (result_of (get_stock_market_info country) w));
           primary_exchange :=
             primary_of (result_of (get_stock_market_info country) w);
           location := location r |},
        (steps ++ [stock_entry country
                     (result_of (get_stock_market_info country) w)])%list).
Proof.
  intros Hnone.
  unfold stock_step. rewrite result_of_try_any, result_of_bind.
  destruct (result_of (get_stock_market_info country) w) as [text|e]; simpl.
  - rewrite Hnone. now destruct (extract_primary text).
  - now rewrite Hnone.
Qed.

(** Step 3 runs its tool exactly when a primary exchange is known and the
    maps key is configured. *)
Lemma location_step_result (r : results) (steps : list step) (w : World) :
  result_of (location_step get_exchange_location str_location (r, steps)) w
  = Ok match primary_exchange r with
       | Some exchange_name =>
           if maps_enabled w
           then ({| currency_info := currency_info r;
                    stock_info := stock_info r;
                    primary_exchange := primary_exchange r;
                    location :=
                      Some (location_value
                              (result_of (get_exchange_location exchange_name) w)) |},
                 (steps ++ [location_entry str_location exchange_name
                              (result_of (get_exchange_location exchange_name) w)])%list)
           else (r, steps)
       | None => (r, steps)
       end.
Proof.
  unfold location_step.
  destruct (primary_exchange r) as [exchange_name|]; [|reflexivity].
  rewrite result_of_bind.
  change (result_of (os_getenv "GOOGLE_MAPS_API_KEY") w)
    with (@Ok (option string) (getenv w "GOOGLE_MAPS_API_KEY")).
  unfold maps_enabled.
  destruct (key_missing (getenv w "GOOGLE_MAPS_API_KEY")); [reflexivity|].
  simpl negb. cbv iota.
  rewrite result_of_try_any, result_of_bind.
  now destruct (result_of (get_exchange_location exchange_name) w).
Qed.

(** The whole of [_call_tools], from the outcomes of the three tools. *)
Lemma call_tools_result (country : string) (w : World) :
  result_of (call_tools country) w
  = Ok ({| currency_info :=
             Some (currency_text (result_of (get_currency_info country) w));
           stock_info :=
             Some (stock_text (result_of (get_stock_market_info country) w));
           primary_exchange :=
             primary_of (result_of (get_stock_market_info country) w);
           location :=
             match location_gate w (result_of (get_stock_market_info country) w) with
             | Some exchange_name =>
                 Some (location_value
                         (result_of (get_exchange_location exchange_name) w))
             | None => None
             end |},
        ([currency_entry country (result_of (get_currency_info country) w);
          stock_entry country (result_of (get_stock_market_info country) w)]
           ++ match location_gate w (result_of (get_stock_market_info country) w) with
              | Some exchange_name =>
                  [location_entry str_location exchange_name
                     (result_of (get_exchange_location exchange_name) w)]
              | None => []
              end)%list).
Proof.
  unfold _call_tools.
  rewrite result_of_bind, currency_step_result.
  rewrite result_of_bind, stock_step_result by reflexivity.
  rewrite location_step_result. unfold location_gate. cbn [primary_exchange].
  destruct (primary_of (result_of (get_stock_market_info country) w));
    [|reflexivity].
  now destruct (maps_enabled w).
Qed.

(** C5, as the code has it.  [_call_tools] always returns.  An exception
    in the currency step or in the market step is caught and recorded, in
    the results and in the trace, for that step alone, and the market step
    runs whatever the currency step did.  The location step is run exactly
    when a returned market report names a primary exchange and a maps key
    is configured, so it is not run after an exception in the market step;
    when it is run, its exception is caught and recorded too.  [query] and
    [get_financial_info] always return: no exception of a tool reaches
    their caller. *)
Theorem call_tools_records_each_step (country : string) (w : World) :
  let currency := result_of (get_currency_info country) w in
  let market := result_of (get_stock_market_info country) w in
  let gate := location_gate w market in
  (exists r steps,
     result_of (call_tools country) w = Ok (r, steps) /\
     currency_info r = Some (currency_text currency) /\
     stock_info r = Some (stock_text market) /\
     primary_exchange r = primary_of market /\
     location r =
       match gate with
       | Some exchange_name =>
           Some (location_value (result_of (get_exchange_location exchange_name) w))
       | None => None
       end /\
     steps =
       ([currency_entry country currency; stock_entry country market]
          ++ match gate with
             | Some exchange_name =>
                 [location_entry str_location exchange_name
                    (result_of (get_exchange_location exchange_name) w)]
             | None => []
             end)%list /\
     ran "get_currency_info" steps = true /\
     ran "get_stock_market_info" steps = true /\
     ran "get_exchange_location" steps
       = match gate with Some _ => true | None => false end) /\
  (match market with Raise _ => gate = None | Ok _ => True end) /\
  (forall user_input,
     exists a,
       result_of (query get_currency_info get_stock_market_info
                    get_exchange_location str_location user_input) w = Ok a) /\
  (exists a,
     result_of (get_financial_info get_currency_info get_stock_market_info
                  get_exchange_location str_location country) w = Ok a).
Proof.
  intros currency market gate.
  split; [|split; [|split]].
  - eexists. eexists. split; [apply call_tools_result|].
    fold currency market gate.
    repeat (split; [reflexivity|]).
    split; [|split].
    + now destruct currency.
    + destruct currency, market; reflexivity.
    + destruct currency, market, gate as [x|]; try reflexivity;
        match goal with
        | |- context [location_entry _ _ ?o] => destruct o
        end; reflexivity.
  - subst gate. now destruct market.
  - intros user_input. unfold query.
    rewrite result_of_try_any. eexists. reflexivity.
  - unfold get_financial_info.
    rewrite result_of_try_any. eexists. reflexivity.
Qed.

End AgentFacts.

(** C5 as stated fails at the market step: with a maps key configured and
    a market tool that raises, the exception is recorded and the location
    step is not run. *)
Lemma market_failure_skips_location :
  ~ AgentSpec.later_steps_still_run
      (Currency.get_currency_info Sample.runtime) AgentSpec.market_down
      Maps.get_exchange_location AgentSpec.show_location
      Sample.online "Japan".
Proof.
  intros H.
  specialize (H _ eq_refl "get_stock_market_info" "get_exchange_location"
                eq_refl (or_introl eq_refl)).
  vm_compute in H. discriminate H.
Qed.

Example failed_currency_step_then_location :
  match Sys.result_of
          (Agent._call_tools AgentSpec.currency_down AgentSpec.market_up
             Maps.get_exchange_location AgentSpec.show_location "Japan")
          Sample.online with
  | Py.Ok (r, steps) =>
      Agent.currency_info r
        = Some "Error fetching currency info: rate data unavailable" /\
      Agent.primary_exchange r = Some "Tokyo Stock Exchange" /\
      steps =
        [Agent.StepError "get_currency_info" "Japan" "rate data unavailable";
         Agent.StepOutput "get_stock_market_info" "Japan"
           ("**Primary Exchange:** Tokyo Stock Exchange" ++ Py.nl);
         Agent.StepOutput "get_exchange_location" "Tokyo Stock Exchange"
           "Tokyo Stock Exchange"]
  | Py.Raise _ => False
  end.
Proof. vm_compute. repeat split. Qed.

(** An unrecognized country: both lookups report their error in the text,
    nothing is requested and nothing is raised. *)
Example atlantis_report :
  Agent.financial_info Sample.runtime AgentSpec.show_location "Atlantis"
    Sample.online
  = ([],
     Py.Ok
       (Agent.Success
          ("# Financial Information for Atlantis" ++ Py.nl ++ Py.nl
             ++ "Error: Currency information not found for country: Atlantis"
             ++ Py.nl ++ Py.nl
             ++ "Error: Stock exchange information not found for country: Atlantis"
             ++ Py.nl ++ Py.nl)
          [Agent.StepOutput "get_currency_info" "Atlantis"
             "Error: Currency information not found for country: Atlantis";
           Agent.StepOutput "get_stock_market_info" "Atlantis"
             "Error: Stock exchange information not found for country: Atlantis"])).
Proof. vm_compute. reflexivity. Qed.

(* ===================================================================== *)
(** * Further properties of the tools *)
(* ===================================================================== *)

(** ** The rate fetch *)

Section RateFetchFacts.
Import Py Sys Currency CurrencySpec CurrencyMore.

Lemma get_exchange_rates_traffic (self : CurrencyMCPTool) (base : string)
    (targets : list string) (w : World) :
  traffic (get_exchange_rates self base targets) w =
  if key_missing (api_key self) then [] else [HttpGet (latest_url self base)].
Proof.
  unfold get_exchange_rates, traffic.
  destruct (key_missing (api_key self)); [reflexivity|].
  unfold try_except, bind, http_get_json.
  destruct (requests_get w (latest_url self base)) as [data|e]; simpl.
  - now destruct (is_success (result data)).
  - now destruct (request_exception e).
Qed.

(** X1.  [get_exchange_rates] makes at most one request: none when the
    rate key is unset or empty (the call then returns the error record
    "EXCHANGERATE_API_KEY not configured"), otherwise exactly one GET, to
    base_url/key/latest/base, whatever the answer is and whatever targets
    are asked for. *)
Theorem rate_fetch_makes_at_most_one_request
    (self : CurrencyMCPTool) (base : string) (targets : list string) (w : World) :
  (key_missing (api_key self) = true ->
   get_exchange_rates self base targets w
     = ([], Ok (ExchangeError "EXCHANGERATE_API_KEY not configured"))) /\
  (key_missing (api_key self) = false ->
   traffic (get_exchange_rates self base targets) w
     = [HttpGet (latest_url self base)]) /\
  (List.length (traffic (get_exchange_rates self base targets) w) <= 1)%nat.
Proof.
  split; [|split].
  - intros Hkey. unfold get_exchange_rates. now rewrite Hkey.
  - intros Hkey. now rewrite get_exchange_rates_traffic, Hkey.
  - rewrite get_exchange_rates_traffic.
    destruct (key_missing (api_key self)); simpl; lia.
Qed.

Lemma rate_fetch_makes_at_most_one_request_witness :
  get_exchange_rates Sample.keyless_currency_tool "JPY" ["USD"] Sample.online
    = ([], Ok (ExchangeError "EXCHANGERATE_API_KEY not configured")) /\
  traffic (get_exchange_rates Sample.keyed_currency_tool "JPY" ["USD"; "EUR"])
    Sample.offline
    = [HttpGet "https://v6.exchangerate-api.com/v6/rate-key/latest/JPY"].
Proof.
  split.
  - apply (rate_fetch_makes_at_most_one_request Sample.keyless_currency_tool
             "JPY" ["USD"] Sample.online). reflexivity.
  - apply (rate_fetch_makes_at_most_one_request Sample.keyed_currency_tool
             "JPY" ["USD"; "EUR"] Sample.offline). reflexivity.
Defined.

(** X2.  [get_exchange_rates] catches the [RequestException]s and only
    them.  No exception of that class leaves the call, and none at all
    leaves it without a key.  An exception the request raises comes back as
    the error record "Failed to fetch exchange rates: ..." carrying its
    text when it is a [RequestException], and leaves the call as it is when
    it is of another class. *)
Theorem rate_fetch_converts_request_exceptions
    (self : CurrencyMCPTool) (base : string) (targets : list string) (w : World) :
  (forall e,
     result_of (get_exchange_rates self base targets) w = Raise e ->
     request_exception e = false /\
     key_missing (api_key self) = false) /\
  (forall e,
     key_missing (api_key self) = false ->
     requests_get w (latest_url self base) = Raise e ->
     result_of (get_exchange_rates self base targets) w
       = if request_exception e
         then Ok (ExchangeError
                    ("Failed to fetch exchange rates: " ++ exn_str e))
         else Raise e).
Proof.
  split.
  - intros e H. rewrite get_exchange_rates_cases in H.
    destruct (key_missing (api_key self)); [discriminate|].
    destruct (requests_get w (latest_url self base)) as [data|e'].
    + destruct (is_success (result data)); discriminate.
    + destruct (request_exception e') eqn:Hreq; [discriminate|].
      injection H as ->. auto.
  - intros e Hkey Hget.
    now rewrite get_exchange_rates_cases, Hkey, Hget.
Qed.

Lemma rate_fetch_converts_request_exceptions_witness :
  result_of (get_exchange_rates Sample.keyed_currency_tool "JPY" ["USD"])
    Sample.offline
  = Ok (ExchangeError "Failed to fetch exchange rates: connection refused") /\
  result_of (get_exchange_rates Sample.keyed_currency_tool "JPY" ["USD"])
    RateSpec.rates_broken
  = Raise Sample.provider_error.
Proof.
  split.
  - exact (proj2 (rate_fetch_converts_request_exceptions
                    Sample.keyed_currency_tool "JPY" ["USD"] Sample.offline)
             Sample.connection_error eq_refl eq_refl).
  - exact (proj2 (rate_fetch_converts_request_exceptions
                    Sample.keyed_currency_tool "JPY" ["USD"]
                    RateSpec.rates_broken)
             Sample.provider_error eq_refl eq_refl).
Defined.

Lemma dict_keys_set {V : Type} (d : dict V) (k : string) (v : V) :
  dict_keys (dict_set d k v) =
  if list_has (dict_keys d) k then dict_keys d else (dict_keys d ++ [k])%list.
Proof.
  unfold list_has.
  induction d as [|[k0 v0] d IH]; simpl.
  - reflexivity.
  - destruct (String.eqb k k0); simpl; [reflexivity|].
    rewrite IH. now destruct (existsb (String.eqb k) (dict_keys d)).
Qed.

Lemma collect_rates_from_keys (conv : dict pyval) (targets : list string)
    (acc : dict pyval) :
  dict_keys (collect_rates_from conv targets acc)
  = (dict_keys acc ++ first_occurrences (dict_keys acc) targets)%list.
Proof.
  unfold collect_rates_from.
  revert acc. induction targets as [|t targets IH]; intros acc; simpl.
  - now rewrite app_nil_r.
  - rewrite IH.
    assert (Hk : dict_keys
                   (match dict_get conv t with
                    | Some rate => dict_set acc t rate
                    | None => dict_set acc t (PyStr "Not available")
                    end)
                 = if list_has (dict_keys acc) t then dict_keys acc
                   else (dict_keys acc ++ [t])%list).
    { destruct (dict_get conv t); apply dict_keys_set. }
    rewrite Hk.
    destruct (list_has (dict_keys acc) t); [reflexivity|].
    now rewrite <- app_assoc.
Qed.

Lemma first_occurrences_nodup (seen xs : list string) :
  NoDup (seen ++ xs)%list -> first_occurrences seen xs = xs.
Proof.
  revert seen. induction xs as [|x xs IH]; intros seen Hnd; simpl.
  - reflexivity.
  - destruct (list_has seen x) eqn:Hhas.
    + apply list_has_In in Hhas. apply NoDup_remove_2 in Hnd.
      exfalso. apply Hnd. apply in_or_app. now left.
    + f_equal. apply IH. now rewrite <- app_assoc.
Qed.

Lemma targets_for_nodup (base : string) : NoDup (targets_for base).
Proof.
  unfold targets_for, list_has. simpl.
  destruct (String.eqb base "USD");
  destruct (String.eqb base "EUR");
  destruct (String.eqb base "GBP");
  destruct (String.eqb base "INR"); simpl;
  repeat (constructor; [simpl; intuition discriminate|]); constructor.
Qed.

(** X3.  The rates map of a successful [get_exchange_rates] has exactly
    the requested targets as keys, each once, in the order of their first
    request; no other currency of the API's answer gets in.  For
    [get_all_rates_for_country] the keys are therefore USD, EUR, GBP, INR
    in this order, without the country's own currency. *)
Theorem rates_keys_are_the_targets
    (self : CurrencyMCPTool) (w : World) :
  (forall base targets b rates lu nu,
     result_of (get_exchange_rates self base targets) w
       = Ok (ExchangeRates b rates lu nu) ->
     dict_keys rates = first_occurrences [] targets) /\
  (forall country_name c cc cn b rates lu nu,
     result_of (get_all_rates_for_country self country_name) w
       = Ok (CountryRates c cc cn (ExchangeRates b rates lu nu)) ->
     dict_keys rates = targets_for cc).
Proof.
  assert (Hkeys : forall base targets b rates lu nu,
             result_of (get_exchange_rates self base targets) w
               = Ok (ExchangeRates b rates lu nu) ->
             dict_keys rates = first_occurrences [] targets).
  { intros base targets b rates lu nu H.
    rewrite get_exchange_rates_cases in H.
    destruct (key_missing (api_key self)); [discriminate|].
    destruct (requests_get w (latest_url self base)) as [data|e].
    - destruct (is_success (result data)); [|discriminate].
      injection H as _ <- _ _.
      unfold collect_rates. now rewrite collect_rates_from_keys.
    - destruct (request_exception e); discriminate. }
  split; [exact Hkeys|].
  intros country_name c cc cn b rates lu nu H.
  rewrite get_all_rates_result in H.
  destruct (dict_get country_currency_map (strip (lower country_name)))
    as [entry|]; [|discriminate].
  destruct (result_of (get_exchange_rates self (code entry)
                         (targets_for (code entry))) w)
    as [[err|b' rates' lu' nu']|e] eqn:Hex; try discriminate.
  injection H as _ <- _ <- <- <- <-.
  rewrite (Hkeys _ _ _ _ _ _ Hex).
  apply first_occurrences_nodup, targets_for_nodup.
Qed.

Lemma rates_keys_are_the_targets_witness :
  match result_of (get_exchange_rates Sample.keyed_currency_tool "JPY"
                     ["EUR"; "USD"; "EUR"]) Sample.online with
  | Ok (ExchangeRates _ rates _ _) => dict_keys rates = ["EUR"; "USD"]
  | Ok (ExchangeError _) | Raise _ => False
  end.
Proof.
  destruct (result_of (get_exchange_rates Sample.keyed_currency_tool "JPY"
                         ["EUR"; "USD"; "EUR"]) Sample.online)
    as [[err|b rates lu nu]|e] eqn:H.
  - vm_compute in H. discriminate H.
  - exact (proj1 (rates_keys_are_the_targets Sample.keyed_currency_tool
                    Sample.online) "JPY" ["EUR"; "USD"; "EUR"] b rates lu nu H).
  - vm_compute in H. discriminate H.
Defined.

End RateFetchFacts.

(** ** Strings *)

Section StringFacts.
Import Py.

Lemma append_assoc (a b c : string) : (a ++ b) ++ c = a ++ (b ++ c).
Proof. induction a as [|x a IH]; simpl; [reflexivity | now rewrite IH]. Qed.

Lemma append_empty_r (a : string) : a ++ EmptyString = a.
Proof. induction a as [|x a IH]; simpl; [reflexivity | now rewrite IH]. Qed.

Lemma prefix_append (p a b : string) :
  prefix p a = true -> prefix p (a ++ b) = true.
Proof.
  revert a. induction p as [|x p IH]; intros a H.
  - now destruct (a ++ b).
  - destruct a as [|y a]; simpl in *; [discriminate|].
    destruct (ascii_dec x y); [now apply IH | discriminate].
Qed.

Lemma prefix_self_append (p b : string) : prefix p (p ++ b) = true.
Proof.
  induction p as [|x p IH]; simpl.
  - now destruct b.
  - destruct (ascii_dec x x); [exact IH | congruence].
Qed.

Lemma contains_append_l (sub a b : string) :
  contains sub a = true -> contains sub (a ++ b) = true.
Proof.
  induction a as [|x a IH]; simpl; intros H.
  - rewrite orb_false_r in H.
    destruct sub; [|discriminate].
    destruct b; reflexivity.
  - apply orb_true_iff in H. apply orb_true_iff. destruct H as [H|H].
    + left. exact (prefix_append sub (String x a) b H).
    + right. now apply IH.
Qed.

Lemma contains_append_r (sub a b : string) :
  contains sub b = true -> contains sub (a ++ b) = true.
Proof.
  intros H. induction a as [|x a IH]; simpl; [exact H|].
  apply orb_true_iff. now right.
Qed.

End StringFacts.

(** ** The currency report *)

Section CurrencyReportFacts.
Import Py Sys Currency CurrencySpec CurrencyMore.
Variable rt : Runtime.

Lemma new_tool (w : World) : new w = ([], Ok (tool_in w)).
Proof. reflexivity. Qed.

Lemma get_currency_info_result (country_name : string) (w : World) :
  result_of (get_currency_info rt country_name) w =
  match result_of (get_all_rates_for_country (tool_in w) country_name) w with
  | Raise e => Raise e
  | Ok (CountryError error) => Ok ("Error: " ++ error)
  | Ok (CountryRates country currency_code currency_name (ExchangeError _)) =>
      Ok (report_head country currency_name currency_code)
  | Ok (CountryRates country currency_code currency_name
          (ExchangeRates _ rates last_updated _)) =>
      Ok (report_head country currency_name currency_code
            ++ ("**Exchange Rates (1 " ++ currency_code ++ " = ):**" ++ nl)
            ++ String.concat EmptyString (map (rate_line rt) rates)
            ++ nl ++ "Last Updated: " ++ key_text last_updated ++ nl)
  end.
Proof.
  unfold get_currency_info. rewrite result_of_bind.
  change (result_of new w) with (@Ok CurrencyMCPTool (tool_in w)).
  cbv beta iota. rewrite result_of_bind.
  destruct (result_of (get_all_rates_for_country (tool_in w) country_name) w)
    as [[error|country cc cn [err|b rates lu nu]]|e]; try reflexivity.
  unfold result_of, ret, report_head. cbn [snd]. f_equal.
  now rewrite !append_assoc.
Qed.

(** X4.  The currency report for a name written in ASCII.  An unknown
    country gives the text "Error: Currency information not found for
    country: ..." without any request.  For a country of the table, when
    the rate fetch comes back with an error record (no key, a failed
    request, an API error) the report is the country line and the currency
    name and code and nothing else: the error text of the rates is not
    shown; an exception the rate fetch raises leaves [get_currency_info]
    too. *)
Theorem currency_report_survives_rate_errors
    (country_name : string) (w : World) :
  isascii country_name = true ->
  (dict_get country_currency_map (strip (lower country_name)) = None ->
   get_currency_info rt country_name w
     = ([], Ok ("Error: Currency information not found for country: "
                  ++ country_name))) /\
  (forall entry,
     dict_get country_currency_map (strip (lower country_name)) = Some entry ->
     (forall error,
        result_of (get_exchange_rates (tool_in w) (code entry)
                     (targets_for (code entry))) w
          = Ok (ExchangeError error) ->
        result_of (get_currency_info rt country_name) w
          = Ok (report_head (title country_name) (name entry) (code entry))) /\
     (forall e,
        result_of (get_exchange_rates (tool_in w) (code entry)
                     (targets_for (code entry))) w
          = Raise e ->
        result_of (get_currency_info rt country_name) w = Raise e)).
Proof.
  intros _. split.
  - intros Hget. unfold get_currency_info.
    unfold bind at 1. rewrite new_tool. cbv iota beta.
    unfold bind. rewrite get_all_rates_unfold, Hget. reflexivity.
  - intros entry Hget. split.
    + intros error Hrates.
      now rewrite get_currency_info_result, get_all_rates_result, Hget, Hrates.
    + intros e Hrates.
      now rewrite get_currency_info_result, get_all_rates_result, Hget, Hrates.
Qed.

End CurrencyReportFacts.

Lemma currency_report_survives_rate_errors_witness :
  Sys.result_of (Currency.get_currency_info Sample.runtime "japan")
    CurrencyMore.rates_down
  = Py.Ok ("**Currency Information for Japan**" ++ Py.nl ++ Py.nl
             ++ "Currency: Japanese Yen (JPY)" ++ Py.nl ++ Py.nl) /\
  Sys.result_of (Currency.get_currency_info Sample.runtime "japan")
    RateSpec.rates_broken
  = Py.Raise Sample.provider_error /\
  Currency.get_currency_info Sample.runtime "Atlantis" CurrencyMore.rates_down
  = ([], Py.Ok "Error: Currency information not found for country: Atlantis").
Proof.
  split; [|split].
  - exact (proj1 (proj2 (currency_report_survives_rate_errors Sample.runtime
                           "japan" CurrencyMore.rates_down eq_refl)
                    {| Currency.code := "JPY"; Currency.name := "Japanese Yen" |}
                    eq_refl)
             "Failed to fetch exchange rates: connection refused" eq_refl).
  - exact (proj2 (proj2 (currency_report_survives_rate_errors Sample.runtime
                           "japan" RateSpec.rates_broken eq_refl)
                    {| Currency.code := "JPY"; Currency.name := "Japanese Yen" |}
                    eq_refl)
             Sample.provider_error eq_refl).
  - exact (proj1 (currency_report_survives_rate_errors Sample.runtime
                    "Atlantis" CurrencyMore.rates_down eq_refl) eq_refl).
Defined.

(** ** The market report *)

Section StockReportFacts.
Import Py Sys Stock StockSpec StockMore.
Variable rt : Runtime.

Lemma get_index_values_result (country_name : string) (w : World) :
  result_of (get_index_values rt new country_name) w =
  Ok match dict_get exchange_table (strip (lower country_name)) with
     | None =>
         IndexValuesError
           ("Stock exchange information not found for country: " ++ country_name)
     | Some entry =>
         IndexValues (title country_name) (map (reported rt w) (indices entry))
     end.
Proof.
  unfold get_index_values. simpl stock_exchanges.
  destruct (dict_get exchange_table (strip (lower country_name)))
    as [entry|] eqn:Hget; [|reflexivity].
  rewrite result_of_bind, index_loop_appends; [reflexivity|].
  apply distinct_NoDup.
  pose proof table_index_names_distinct as Hall.
  rewrite forallb_forall in Hall.
  exact (Hall _ (dict_get_In _ _ _ Hget)).
Qed.

Lemma get_complete_stock_info_result (country_name : string) (w : World) :
  result_of (get_complete_stock_info rt new country_name) w
  = Ok (complete_info rt w country_name).
Proof.
  unfold get_complete_stock_info, complete_info.
  rewrite result_of_bind.
  unfold get_exchange_info at 1. simpl stock_exchanges.
  destruct (dict_get exchange_table (strip (lower country_name)))
    as [entry|] eqn:Hget; [|reflexivity].
  change (result_of (ret (ExchangeInfo (title country_name) (exchanges entry)
                            (dict_keys (indices entry)) (primary_exchange entry)
                            (hq_location entry))) w)
    with (Ok (ExchangeInfo (title country_name) (exchanges entry)
                (dict_keys (indices entry)) (primary_exchange entry)
                (hq_location entry))).
  cbv beta iota.
  rewrite result_of_bind, get_index_values_result, Hget. reflexivity.
Qed.


End StockReportFacts.

Section StockTrafficFacts.
Import Py Sys Stock StockSpec StockMore.
Variable rt : Runtime.









End StockTrafficFacts.

Example patchy_tokyo_traffic :
  Sys.traffic (Stock.get_index_values Sample.runtime Stock.new "Japan")
    Sample.patchy
  = [Sys.YfInfo "^N225"; Sys.YfHistory "^N225"; Sys.YfInfo "^TOPX";
     Sys.YfInfo "^JPN400"; Sys.YfHistory "^JPN400"].
Proof. vm_compute. reflexivity. Qed.

(** ** Lines and labels *)

Section LineFacts.
Import Py StockMore.

Lemma has_char_append (c : ascii) (a b : string) :
  has_char c (a ++ b) = has_char c a || has_char c b.
Proof.
  induction a as [|x a IH]; simpl; [reflexivity|].
  now rewrite IH, orb_assoc.
Qed.

Lemma prefix_has_char (c : ascii) (p s : string) :
  prefix p s = true -> has_char c p = true -> has_char c s = true.
Proof.
  revert s. induction p as [|x p IH]; intros s Hp Hc; [discriminate|].
  destruct s as [|y s]; simpl in Hp; [discriminate|].
  destruct (ascii_dec x y) as [->|]; [|discriminate].
  simpl in *. apply orb_true_iff in Hc. apply orb_true_iff.
  destruct Hc as [Hc|Hc]; [now left | right; now apply IH].
Qed.

Lemma contains_has_char (c : ascii) (sub s : string) :
  contains sub s = true -> has_char c sub = true -> has_char c s = true.
Proof.
  induction s as [|y s IH]; simpl; intros H Hc.
  - rewrite orb_false_r in H. destruct sub; discriminate.
  - apply orb_true_iff in H. destruct H as [H|H].
    + exact (prefix_has_char c sub (String y s) H Hc).
    + apply orb_true_iff. right. now apply IH.
Qed.

Lemma split_nonempty (sep : ascii) (s : string) : split sep s <> [].
Proof.
  destruct s as [|x s]; simpl; [discriminate|].
  destruct (Ascii.eqb x sep); [discriminate|].
  destruct (split sep s); discriminate.
Qed.

(** Splitting a text at a separator splits its two sides. *)
Lemma split_append_sep (sep : ascii) (a b : string) :
  split sep (a ++ String sep b) = (split sep a ++ split sep b)%list.
Proof.
  induction a as [|x a IH]; simpl.
  - now rewrite Ascii.eqb_refl.
  - destruct (Ascii.eqb x sep); [now rewrite IH|].
    rewrite IH.
    destruct (split sep a) as [|h t] eqn:Hs; [|reflexivity].
    now apply split_nonempty in Hs.
Qed.

Lemma split_without_sep (sep : ascii) (s : string) :
  has_char sep s = false -> split sep s = [s].
Proof.
  induction s as [|x s IH]; simpl; intros H; [reflexivity|].
  apply orb_false_iff in H. destruct H as [Hx Hs].
  rewrite Hx, (IH Hs). reflexivity.
Qed.

(** A line of a text has only characters of the text. *)
Lemma split_line_chars (sep c : ascii) (s line : string) :
  In line (split sep s) -> has_char c line = true -> has_char c s = true.
Proof.
  revert line. induction s as [|x s IH]; simpl; intros line Hin Hc.
  - destruct Hin as [<-|[]]. discriminate.
  - destruct (Ascii.eqb x sep).
    + destruct Hin as [<-|Hin]; [discriminate|].
      apply orb_true_iff. right. now apply (IH line).
    + destruct (split sep s) as [|h t] eqn:Hs.
      * now apply split_nonempty in Hs.
      * destruct Hin as [<-|Hin].
        -- simpl in Hc. apply orb_true_iff in Hc. apply orb_true_iff.
           destruct Hc as [Hc|Hc]; [now left|].
           right. apply (IH h); [now left | exact Hc].
        -- apply orb_true_iff. right. apply (IH line); [now right | exact Hc].
Qed.

(** A text without a colon has no line carrying the label. *)
Lemma colon_free_label_free (text : string) :
  has_char colon text = false -> label_free text = true.
Proof.
  intros Hfree. unfold label_free. apply forallb_forall. intros line Hin.
  destruct (contains "Primary Exchange:" line) eqn:Hc; [|reflexivity].
  exfalso.
  assert (Hl : has_char colon line = true)
    by exact (contains_has_char colon _ _ Hc eq_refl).
  rewrite (split_line_chars newline colon text line Hin Hl) in Hfree.
  discriminate.
Qed.

Lemma find_primary_app (l1 l2 : list string) :
  forallb (fun line => negb (contains "Primary Exchange:" line)) l1 = true ->
  Agent.find_primary (l1 ++ l2) = Agent.find_primary l2.
Proof.
  induction l1 as [|line l1 IH]; simpl; intros H; [reflexivity|].
  apply andb_prop in H. destruct H as [Hline Hrest].
  destruct (contains "Primary Exchange:" line); [discriminate|].
  now apply IH.
Qed.

(** Lines without the label before a line break are passed over. *)
Lemma find_primary_skip (a b : string) :
  label_free a = true ->
  Agent.find_primary (split newline (a ++ String newline b))
  = Agent.find_primary (split newline b).
Proof.
  intros H. rewrite split_append_sep. now apply find_primary_app.
Qed.

(** The label's line is read back as the exchange's name. *)
Lemma find_primary_hit (primary rest : string) :
  reads_back primary = true ->
  Agent.find_primary (split newline (primary_line primary ++ String newline rest))
  = Some primary.
Proof.
  unfold reads_back. intros H. apply andb_prop in H. destruct H as [Hnl Hback].
  apply String.eqb_eq in Hback.
  rewrite split_append_sep, split_without_sep.
  - assert (Hc : contains "Primary Exchange:" (primary_line primary) = true).
    { unfold primary_line. apply contains_append_l. reflexivity. }
    cbn [app Agent.find_primary]. now rewrite Hc, Hback.
  - unfold primary_line. rewrite has_char_append.
    apply negb_true_iff in Hnl. now rewrite Hnl.
Qed.

Lemma concat_cons (x : string) (xs : list string) :
  String.concat EmptyString (x :: xs) = x ++ String.concat EmptyString xs.
Proof.
  destruct xs as [|y xs]; simpl; [now rewrite append_empty_r | reflexivity].
Qed.

Lemma exchange_line_shape (e tail : string) :
  ("- " ++ e ++ nl) ++ tail = ("- " ++ e) ++ String newline tail.
Proof. rewrite !append_assoc. reflexivity. Qed.

(** The exchange lines of the report are passed over. *)
Lemma find_primary_skip_exchanges (exchange_names : list string) (rest : string) :
  forallb (fun exchange => label_free ("- " ++ exchange)) exchange_names = true ->
  Agent.find_primary
    (split newline
       (String.concat EmptyString
          (map (fun exchange => "- " ++ exchange ++ nl) exchange_names) ++ rest))
  = Agent.find_primary (split newline rest).
Proof.
  induction exchange_names as [|e es IH]; intros H.
  - reflexivity.
  - cbn [forallb] in H. apply andb_prop in H. destruct H as [He Hes].
    cbn [map]. rewrite concat_cons, append_assoc, exchange_line_shape.
    rewrite (find_primary_skip _ _ He). now apply IH.
Qed.

Lemma to_lower_colon (x : ascii) :
  Ascii.eqb (to_lower x) colon = Ascii.eqb x colon.
Proof. destruct x as [[] [] [] [] [] [] [] []]; reflexivity. Qed.

Lemma to_upper_colon (x : ascii) :
  Ascii.eqb (to_upper x) colon = Ascii.eqb x colon.
Proof. destruct x as [[] [] [] [] [] [] [] []]; reflexivity. Qed.

Lemma space_not_colon (x : ascii) :
  is_space x = true -> Ascii.eqb x colon = false.
Proof. destruct x as [[] [] [] [] [] [] [] []]; intros H; try reflexivity; discriminate H. Qed.

Lemma lower_colon (s : string) : has_char colon (lower s) = has_char colon s.
Proof.
  induction s as [|x s IH]; simpl; [reflexivity|].
  now rewrite to_lower_colon, IH.
Qed.

Lemma title_colon (b : bool) (s : string) :
  has_char colon (title_from b s) = has_char colon s.
Proof.
  revert b. induction s as [|x s IH]; intros b; simpl; [reflexivity|].
  rewrite IH. f_equal.
  destruct (is_cased x); [|reflexivity].
  destruct b; [apply to_lower_colon | apply to_upper_colon].
Qed.

Lemma lstrip_colon (s : string) : has_char colon (lstrip s) = has_char colon s.
Proof.
  induction s as [|x s IH]; simpl; [reflexivity|].
  destruct (is_space x) eqn:Hx; [|reflexivity].
  now rewrite IH, (space_not_colon x Hx).
Qed.

Lemma rstrip_colon (s : string) : has_char colon (rstrip s) = has_char colon s.
Proof.
  induction s as [|x s IH]; simpl; [reflexivity|].
  destruct (rstrip s) as [|y t] eqn:Hr.
  - rewrite <- IH. simpl.
    destruct (is_space x) eqn:Hx; simpl.
    + now rewrite (space_not_colon x Hx).
    + reflexivity.
  - simpl. simpl in IH. now rewrite IH.
Qed.

Lemma strip_colon (s : string) : has_char colon (strip s) = has_char colon s.
Proof. unfold strip. now rewrite rstrip_colon, lstrip_colon. Qed.

End LineFacts.

(** ** The report and its reading by the aggregator *)

Section ReportReadingFacts.
Import Py Sys Stock StockSpec StockMore ReportSpec.
Variable rt : Runtime.

Lemma get_stock_market_info_result (country_name : string) (w : World) :
  result_of (get_stock_market_info rt country_name) w
  = Ok (render rt (complete_info rt w country_name)).
Proof.
  unfold get_stock_market_info.
  rewrite result_of_bind, get_complete_stock_info_result.
  cbv beta iota.
  destruct (complete_info rt w country_name)
    as [error|country exchange_names primary hq index_data]; [reflexivity|].
  unfold result_of, ret, render, market_text, primary_line. cbn [snd]. f_equal.
  now rewrite !append_assoc.
Qed.


Lemma skip_line (a b : string) :
  label_free a = true ->
  Agent.find_primary (split newline (a ++ nl ++ b))
  = Agent.find_primary (split newline b).
Proof. exact (find_primary_skip a b). Qed.

Lemma skip_empty_line (b : string) :
  Agent.find_primary (split newline (nl ++ b))
  = Agent.find_primary (split newline b).
Proof. exact (find_primary_skip EmptyString b eq_refl). Qed.

Lemma hit_line (primary rest : string) :
  reads_back primary = true ->
  Agent.find_primary (split newline (primary_line primary ++ nl ++ rest))
  = Some primary.
Proof. exact (find_primary_hit primary rest). Qed.

Lemma exchange_table_readable : forallb readable_entry exchange_table = true.
Proof. vm_compute. reflexivity. Qed.

(** The aggregator's parsing of a report of the shape
    [get_stock_market_info] produces. *)
Lemma extract_primary_market_text (country : string)
    (exchange_names : list string) (primary hq : string)
    (index_data : dict index_entry) :
  has_char colon country = false ->
  reads_back primary = true ->
  forallb (fun exchange => label_free ("- " ++ exchange)) exchange_names = true ->
  Agent.extract_primary
    (market_text rt country exchange_names primary hq index_data)
  = Some primary.
Proof.
  intros Hcountry Hprimary Hexchanges.
  unfold Agent.extract_primary, market_text.
  assert (Hc : forall rest,
             contains "Primary Exchange:" (primary_line primary ++ rest) = true).
  { intros rest. apply contains_append_l. unfold primary_line.
    apply contains_append_l. reflexivity. }
  rewrite (contains_append_r _ _ _
             (contains_append_r _ _ _
                (contains_append_r _ _ _
                   (contains_append_r _ _ _
                      (contains_append_r _ _ _
                         (contains_append_r _ _ _
                            (contains_append_r _ _ _ (Hc _)))))))).
  change "010"%char with newline.
  rewrite skip_line.
  - rewrite skip_empty_line.
    rewrite (skip_line "**Stock Exchanges:**") by reflexivity.
    rewrite find_primary_skip_exchanges by exact Hexchanges.
    rewrite skip_empty_line.
    now apply hit_line.
  - apply colon_free_label_free.
    rewrite !has_char_append, Hcountry. reflexivity.
Qed.

(** X7.  The aggregator reads the primary exchange back from the market
    report: for every name [get_stock_market_info] recognizes, and
    whatever the provider answers, the report names a primary exchange and
    [extract_primary] returns exactly the table's [primary_exchange] of
    that country. *)
Theorem primary_exchange_read_back
    (country_name : string) (w : World) (entry : exchange_entry) :
  dict_get exchange_table (strip (lower country_name)) = Some entry ->
  exists text,
    result_of (get_stock_market_info rt country_name) w = Ok text /\
    Agent.extract_primary text = Some (primary_exchange entry).
Proof.
  intros Hget.
  exists (render rt (complete_info rt w country_name)).
  split; [apply get_stock_market_info_result|].
  unfold complete_info. rewrite Hget. unfold render.
  pose proof exchange_table_readable as Hall.
  rewrite forallb_forall in Hall.
  specialize (Hall _ (dict_get_In _ _ _ Hget)).
  unfold readable_entry in Hall. cbn [fst snd] in Hall.
  apply andb_prop in Hall. destruct Hall as [Hall Hexchanges].
  apply andb_prop in Hall. destruct Hall as [Hkey Hprimary].
  apply extract_primary_market_text; try assumption.
  unfold title. rewrite title_colon.
  apply negb_true_iff in Hkey.
  now rewrite strip_colon, lower_colon in Hkey.
Qed.

End ReportReadingFacts.

Lemma primary_exchange_read_back_witness :
  exists text,
    Sys.result_of (Stock.get_stock_market_info Sample.runtime " brazil ")
      Sample.patchy = Py.Ok text /\
    Agent.extract_primary text = Some "B3 - Brasil Bolsa Balcão".
Proof.
  exact (primary_exchange_read_back Sample.runtime " brazil " Sample.patchy
           _ eq_refl).
Defined.

(** ** The embed URL and the map *)

Section MapsMoreFacts.
Import Py Sys Maps MapsMore StockMore.

Lemma replace_from_no_space (skip : nat) (s : string) :
  has_char space (replace_from " " "+" skip s) = false.
Proof.
  revert skip. induction s as [|c s IH]; intros skip; [reflexivity|].
  destruct skip as [|k]; cbn [replace_from]; [|apply IH].
  cbn [prefix]. destruct (ascii_dec " " c) as [<-|Hne].
  - destruct s; cbn [prefix String.length Nat.sub append has_char];
      rewrite IH; reflexivity.
  - cbn [has_char]. rewrite IH, orb_false_r.
    apply Ascii.eqb_neq. unfold space. congruence.
Qed.

Lemma replace_no_space (s : string) : has_char space (replace " " "+" s) = false.
Proof. apply replace_from_no_space. Qed.

Lemma get_embed_url_keyed (self : GoogleMapsMCPTool) (exchange_name : string)
    (w : World) :
  key_missing (api_key self) = false ->
  get_embed_url self exchange_name w = ([], Ok (embed_url_of self exchange_name)).
Proof.
  intros Hkey. unfold get_embed_url, embed_url_of. rewrite Hkey.
  now destruct (dict_get (exchange_locations self) exchange_name).
Qed.

(** X9.  With a maps key configured [get_embed_url] returns a place URL of
    the embed API carrying the key, and the query part of the URL has no
    blank left in it: whether the exchange is in the table or not, every
    blank of the query has become a plus sign, so the URL has a blank only
    if the key has one.  An exchange of the table gets the zoom suffix. *)
Theorem embed_url_has_no_blank
    (self : GoogleMapsMCPTool) (exchange_name : string) (w : World) :
  key_missing (api_key self) = false ->
  exists url,
    get_embed_url self exchange_name w = ([], Ok url) /\
    str_falsy url = false /\
    prefix ("https://www.google.com/maps/embed/v1/place?key="
              ++ key_text (api_key self) ++ "&q=") url = true /\
    has_char space url = has_char space (key_text (api_key self)) /\
    (dict_has (exchange_locations self) exchange_name = true ->
     exists head, url = head ++ "&zoom=15").
Proof.
  intros Hkey. exists (embed_url_of self exchange_name).
  split; [now apply get_embed_url_keyed|].
  assert (Hshape : forall a k x : string,
             a ++ k ++ "&q=" ++ x = (a ++ k ++ "&q=") ++ x)
    by (intros; now rewrite !append_assoc).
  unfold embed_url_of, dict_has.
  destruct (dict_get (exchange_locations self) exchange_name) as [location|].
  - split; [reflexivity|]. split.
    + rewrite Hshape. apply prefix_self_append.
    + split.
      * rewrite !has_char_append, replace_no_space. simpl.
        now rewrite !orb_false_r.
      * intros _. eexists. rewrite Hshape, <- append_assoc. reflexivity.
  - split; [reflexivity|]. split.
    + rewrite Hshape. apply prefix_self_append.
    + split; [|discriminate].
      rewrite !has_char_append, replace_no_space. simpl.
      now rewrite !orb_false_r.
Qed.

Lemma embed_url_has_no_blank_witness :
  exists url,
    get_embed_url keyed_tool "New York Stock Exchange" Sample.offline
      = ([], Ok url) /\
    has_char space url = false /\
    exists head, url = head ++ "&zoom=15".
Proof.
  destruct (embed_url_has_no_blank keyed_tool "New York Stock Exchange"
              Sample.offline eq_refl) as [url [Hurl [_ [_ [Hblank Hzoom]]]]].
  exists url. split; [exact Hurl|]. split; [exact Hblank|].
  apply Hzoom. reflexivity.
Defined.

End MapsMoreFacts.

Section MapHtmlFacts.
Import Py Sys Maps MapsMore StockMore.

Lemma contains_self (s : string) : contains s s = true.
Proof.
  destruct s as [|x s]; [reflexivity|].
  cbn [contains]. apply orb_true_iff. left.
  rewrite <- (append_empty_r (String x s)) at 2. apply prefix_self_append.
Qed.

Lemma contains_middle (sub pre post : string) :
  contains sub (pre ++ sub ++ post) = true.
Proof. apply contains_append_r, contains_append_l, contains_self. Qed.

(** X10.  With a maps key configured [get_map_html] returns an iframe, not
    the placeholder: its [src] attribute is the URL [get_embed_url]
    returns for the same exchange, and its [width] and [height] attributes
    are the numbers passed in.  No request is made. *)
Theorem map_html_embeds_the_url
    (self : GoogleMapsMCPTool) (exchange_name : string) (width height : Z)
    (w : World) :
  key_missing (api_key self) = false ->
  exists url html,
    get_embed_url self exchange_name w = ([], Ok url) /\
    get_map_html self exchange_name width height w = ([], Ok html) /\
    contains ("src=" ++ dquote ++ url ++ dquote ++ ">") html = true /\
    contains ("width=" ++ dquote ++ str_int width ++ dquote) html = true /\
    contains ("height=" ++ dquote ++ str_int height ++ dquote) html = true /\
    html <> "<p>Google Maps API key not configured</p>".
Proof.
  intros Hkey.
  pose proof (get_embed_url_keyed self exchange_name w Hkey) as Hurl.
  assert (Hfalsy : str_falsy (embed_url_of self exchange_name) = false).
  { unfold embed_url_of.
    now destruct (dict_get (exchange_locations self) exchange_name). }
  eexists. eexists. split; [exact Hurl|]. split.
  - unfold get_map_html, bind. rewrite Hurl, Hfalsy. unfold ret. reflexivity.
  - set (url := embed_url_of self exchange_name).
    repeat split.
    + match goal with
      | |- contains ?sub ?html = true =>
          replace html with
            ((nl ++ indent8 ++ "<iframe" ++ nl
                ++ indent12 ++ "width=" ++ dquote ++ str_int width ++ dquote ++ nl
                ++ indent12 ++ "height=" ++ dquote ++ str_int height ++ dquote ++ nl
                ++ indent12 ++ "style=" ++ dquote ++ "border:0" ++ dquote ++ nl
                ++ indent12 ++ "loading=" ++ dquote ++ "lazy" ++ dquote ++ nl
                ++ indent12 ++ "allowfullscreen" ++ nl
                ++ indent12 ++ "referrerpolicy=" ++ dquote
                ++ "no-referrer-when-downgrade" ++ dquote ++ nl ++ indent12)
               ++ sub ++ (nl ++ indent8 ++ "</iframe>" ++ nl ++ indent8))
            by (rewrite !append_assoc; reflexivity)
      end.
      apply contains_middle.
    + match goal with
      | |- contains ?sub ?html = true =>
          replace html with
            ((nl ++ indent8 ++ "<iframe" ++ nl ++ indent12)
               ++ sub
               ++ (nl
                ++ indent12 ++ "height=" ++ dquote ++ str_int height ++ dquote ++ nl
                ++ indent12 ++ "style=" ++ dquote ++ "border:0" ++ dquote ++ nl
                ++ indent12 ++ "loading=" ++ dquote ++ "lazy" ++ dquote ++ nl
                ++ indent12 ++ "allowfullscreen" ++ nl
                ++ indent12 ++ "referrerpolicy=" ++ dquote
                ++ "no-referrer-when-downgrade" ++ dquote ++ nl
                ++ indent12 ++ "src=" ++ dquote ++ url ++ dquote ++ ">" ++ nl
                ++ indent8 ++ "</iframe>" ++ nl ++ indent8))
            by (rewrite !append_assoc; reflexivity)
      end.
      apply contains_middle.
    + match goal with
      | |- contains ?sub ?html = true =>
          replace html with
            ((nl ++ indent8 ++ "<iframe" ++ nl
                ++ indent12 ++ "width=" ++ dquote ++ str_int width ++ dquote ++ nl
                ++ indent12)
               ++ sub
               ++ (nl
                ++ indent12 ++ "style=" ++ dquote ++ "border:0" ++ dquote ++ nl
                ++ indent12 ++ "loading=" ++ dquote ++ "lazy" ++ dquote ++ nl
                ++ indent12 ++ "allowfullscreen" ++ nl
                ++ indent12 ++ "referrerpolicy=" ++ dquote
                ++ "no-referrer-when-downgrade" ++ dquote ++ nl
                ++ indent12 ++ "src=" ++ dquote ++ url ++ dquote ++ ">" ++ nl
                ++ indent8 ++ "</iframe>" ++ nl ++ indent8))
            by (rewrite !append_assoc; reflexivity)
      end.
      apply contains_middle.
    + intros H. unfold nl in H. cbn [append] in H. discriminate H.
Qed.

Lemma map_html_embeds_the_url_witness :
  exists html,
    get_map_html keyed_tool "Bolsa de Madrid" 600 450 Sample.offline
      = ([], Ok html) /\
    contains
      ("src=" ++ dquote
         ++ "https://www.google.com/maps/embed/v1/place?key=maps-key&q=Bolsa+de+Madrid&zoom=15"
         ++ dquote ++ ">") html = true.
Proof.
  destruct (map_html_embeds_the_url keyed_tool "Bolsa de Madrid" 600 450
              Sample.offline eq_refl)
    as [url [html [Hurl [Hhtml [Hsrc _]]]]].
  exists html. split; [exact Hhtml|].
  injection Hurl as <-. exact Hsrc.
Defined.

End MapHtmlFacts.

(** ** The location lookup *)

Section LocationFacts.
Import Py Sys Maps MapsMore LocationSpec.

Lemma get_embed_url_returns (self : GoogleMapsMCPTool) (exchange_name : string)
    (w : World) :
  get_embed_url self exchange_name w = ([], Ok (map_url_of self exchange_name)).
Proof.
  unfold map_url_of. destruct (key_missing (api_key self)) eqn:Hkey.
  - unfold get_embed_url. now rewrite Hkey.
  - now apply get_embed_url_keyed.
Qed.

Lemma get_map_html_returns (self : GoogleMapsMCPTool) (exchange_name : string)
    (width height : Z) (w : World) :
  exists html,
    get_map_html self exchange_name width height w = ([], Ok html) /\
    (key_missing (api_key self) = true ->
     html = "<p>Google Maps API key not configured</p>").
Proof.
  unfold get_map_html, bind. rewrite get_embed_url_returns.
  unfold map_url_of. destruct (key_missing (api_key self)) eqn:Hkey.
  - eexists. split; [reflexivity | reflexivity].
  - destruct (str_falsy (embed_url_of self exchange_name));
      eexists; (split; [reflexivity | discriminate]).
Qed.

Lemma get_exchange_location_unfold (exchange_name : string) (w : World) :
  get_exchange_location exchange_name w
  = get_location_info (tool_in w) exchange_name w.
Proof.
  unfold get_exchange_location, bind at 1.
  change (new w) with (@nil event, @Ok GoogleMapsMCPTool (tool_in w)).
  cbv beta iota.
  now destruct (get_location_info (tool_in w) exchange_name w).
Qed.

(** X11.  [get_exchange_location] always returns, without a request.  The
    result has the "error" key exactly when the exchange is not in the
    location table; in both cases it names the exchange asked for and
    carries the URL [get_embed_url] gives for it, which is empty when no
    maps key is configured.  For an exchange of the table the address and
    the coordinates are the table's. *)
Theorem exchange_location_always_returns (exchange_name : string) (w : World) :
  exists info,
    get_exchange_location exchange_name w = ([], Ok info) /\
    location_has_error info = negb (dict_has location_table exchange_name) /\
    match info with
    | LocationUnknown exchange error map_url =>
        exchange = exchange_name /\
        error = "Location information not available" /\
        map_url = map_url_of (tool_in w) exchange_name
    | LocationKnown exchange address_ latitude longitude map_url map_html =>
        exchange = exchange_name /\
        map_url = map_url_of (tool_in w) exchange_name /\
        get_map_html (tool_in w) exchange_name 600 450 w = ([], Ok map_html) /\
        exists location,
          dict_get location_table exchange_name = Some location /\
          address_ = address location /\
          latitude = lat location /\ longitude = lng location
    end.
Proof.
  rewrite get_exchange_location_unfold.
  unfold get_location_info, dict_has. cbn [exchange_locations tool_in].
  destruct (dict_get location_table exchange_name) as [location|].
  - destruct (get_map_html_returns (tool_in w) exchange_name 600 450 w)
      as [html [Hhtml _]].
    eexists. split.
    + unfold bind. rewrite get_embed_url_returns, Hhtml. reflexivity.
    + split; [reflexivity|]. repeat split; try assumption.
      exists location. repeat split.
  - eexists. split.
    + unfold bind. rewrite get_embed_url_returns. reflexivity.
    + repeat split.
Qed.

Lemma market_table_located :
  forallb located Stock.exchange_table = true.
Proof. vm_compute. reflexivity. Qed.

Lemma primary_exchange_lookup (key : string) (entry : Stock.exchange_entry) :
  dict_get Stock.exchange_table key = Some entry ->
  exists location,
    dict_get location_table (Stock.primary_exchange entry) = Some location.
Proof.
  intros Hget.
  pose proof market_table_located as Hall.
  rewrite forallb_forall in Hall.
  specialize (Hall _ (dict_get_In _ _ _ Hget)).
  unfold located, dict_has in Hall. cbn [snd] in Hall.
  destruct (dict_get location_table (Stock.primary_exchange entry))
    as [location|]; [now exists location | discriminate].
Qed.

Lemma known_location_result (exchange_name : string) (location : location_entry)
    (w : World) :
  dict_get location_table exchange_name = Some location ->
  exists html,
    result_of (get_exchange_location exchange_name) w
      = Ok (LocationKnown exchange_name (address location)
              (lat location) (lng location)
              (map_url_of (tool_in w) exchange_name) html) /\
    traffic (get_exchange_location exchange_name) w = [].
Proof.
  intros Hget.
  destruct (get_map_html_returns (tool_in w) exchange_name 600 450 w)
    as [html [Hhtml _]].
  exists html. unfold result_of, traffic.
  rewrite get_exchange_location_unfold.
  unfold get_location_info. cbn [exchange_locations tool_in]. rewrite Hget.
  unfold bind. rewrite get_embed_url_returns, Hhtml. split; reflexivity.
Qed.

(** X12.  The two static tables fit together: the primary exchange of
    every country of the market table is an exchange of the location
    table, so the location lookup for it never answers "Location
    information not available" but returns the headquarters' address and
    coordinates. *)
Theorem primary_exchanges_are_located
    (key : string) (entry : Stock.exchange_entry) (w : World) :
  dict_get Stock.exchange_table key = Some entry ->
  exists location html,
    dict_get location_table (Stock.primary_exchange entry) = Some location /\
    get_exchange_location (Stock.primary_exchange entry) w
      = ([], Ok (LocationKnown (Stock.primary_exchange entry) (address location)
                   (lat location) (lng location)
                   (map_url_of (tool_in w) (Stock.primary_exchange entry)) html)) /\
    str_falsy (address location) = false.
Proof.
  intros Hget.
  destruct (primary_exchange_lookup key entry Hget) as [location Hloc].
  destruct (known_location_result _ location w Hloc) as [html [Hres Htr]].
  exists location, html. split; [exact Hloc|]. split.
  - unfold result_of in Hres. unfold traffic in Htr.
    destruct (get_exchange_location (Stock.primary_exchange entry) w) as [tr r].
    cbn [fst snd] in *. now subst.
  - assert (Hall : forallb (fun kv => negb (str_falsy (address (snd kv))))
                     location_table = true) by (vm_compute; reflexivity).
    rewrite forallb_forall in Hall.
    specialize (Hall _ (dict_get_In _ _ _ Hloc)). cbn [snd] in Hall.
    now apply negb_true_iff in Hall.
Qed.

Lemma primary_exchanges_are_located_witness :
  exists html,
    get_exchange_location "Moscow Exchange" Sample.offline
    = ([], Ok (LocationKnown "Moscow Exchange"
                 "13 Bolshoy Kislovsky Lane, Moscow, Russia"
                 (decimal 557595 4) (decimal 376028 4) EmptyString html)).
Proof.
  destruct (primary_exchanges_are_located "russia" _ Sample.offline eq_refl)
    as [location [html [Hloc [Hres _]]]].
  exists html. injection Hloc as <-. exact Hres.
Defined.

End LocationFacts.

(** ** The aggregator over the repository's tools *)

Section AggregatorFacts.
Import Py Sys Agent AgentSpec StockMore ReportSpec MapsMore LocationSpec.
Variable rt : Runtime.
Variable get_currency_info : string -> IO string.
Variable str_location : Maps.location_result -> string.

Local Abbreviation call_market_tools :=
  (_call_tools get_currency_info (Stock.get_stock_market_info rt)
     Maps.get_exchange_location str_location).



End AggregatorFacts.


(** ** The country resolver *)

Section ResolverFacts.
Import Py Sys Agent ResolverSpec.

Lemma len_append (a b : string) : len (a ++ b) = (len a + len b)%nat.
Proof.
  induction a as [|c a IH]; [reflexivity|].
  cbn [append len]. rewrite IH. now destruct (is_continuation c).
Qed.

Lemma len_slice_to (n : nat) (s : string) :
  len (slice_to n s) = Nat.min n (len s).
Proof.
  revert n. induction s as [|c s IH]; intros n.
  - cbn [slice_to len]. now rewrite Nat.min_0_r.
  - cbn [slice_to len]. destruct (is_continuation c) eqn:Hc.
    + cbn [len]. rewrite Hc. apply IH.
    + destruct n as [|n]; [reflexivity|].
      cbn [len]. rewrite Hc, IH. reflexivity.
Qed.

Lemma slice_to_whole (n : nat) (s : string) :
  (len s <= n)%nat -> slice_to n s = s.
Proof.
  revert n. induction s as [|c s IH]; intros n H; [reflexivity|].
  cbn [slice_to len] in *. destruct (is_continuation c).
  - now rewrite IH.
  - destruct n as [|n]; [lia|]. rewrite IH; [reflexivity | lia].
Qed.

(** A slice ends where a character ends: what follows it in the text
    starts a character. *)
Lemma slice_to_boundary (n : nat) (s : string) :
  exists rest,
    s = slice_to n s ++ rest /\ PreviewSpec.starts_character rest = true.
Proof.
  revert n. induction s as [|c s IH]; intros n.
  - exists EmptyString. split; reflexivity.
  - cbn [slice_to]. destruct (is_continuation c) eqn:Hc.
    + destruct (IH n) as [rest [Hs Hrest]].
      exists rest. split; [|exact Hrest].
      cbn [append]. now rewrite <- Hs.
    + destruct n as [|n].
      * exists (String c s). split; [reflexivity|].
        cbn [PreviewSpec.starts_character]. now rewrite Hc.
      * destruct (IH n) as [rest [Hs Hrest]].
        exists rest. split; [|exact Hrest].
        cbn [append]. now rewrite <- Hs.
Qed.

(** X14.  The text kept in the trace for a step is bounded, in characters:
    a tool output of at most 200 characters is kept as it is, however many
    bytes it has; a longer one is cut to its first 200 characters, at the
    end of a character, followed by three dots, 203 characters in all. *)
Theorem preview_is_bounded (s : string) :
  (len (preview s) <= 203)%nat /\
  ((len s <= 200)%nat -> preview s = s) /\
  ((200 < len s)%nat ->
   len (preview s) = 203%nat /\
   exists kept rest,
     preview s = kept ++ "..." /\
     s = kept ++ rest /\
     len kept = 200%nat /\
     (0 < len rest)%nat /\
     PreviewSpec.starts_character rest = true).
Proof.
  unfold preview.
  destruct (200 <? len s)%nat eqn:Hlen.
  - apply Nat.ltb_lt in Hlen.
    assert (Hcut : len (slice_to 200 s) = 200%nat)
      by (rewrite len_slice_to; lia).
    rewrite len_append, Hcut.
    change (len "...") with 3%nat.
    split; [lia|]. split; [lia|].
    intros _. split; [reflexivity|].
    destruct (slice_to_boundary 200 s) as [rest [Hs Hrest]].
    exists (slice_to 200 s), rest.
    split; [reflexivity|]. split; [exact Hs|]. split; [exact Hcut|].
    split; [|exact Hrest].
    apply (f_equal len) in Hs. rewrite len_append, Hcut in Hs. lia.
  - apply Nat.ltb_ge in Hlen.
    split; [lia|]. split; [reflexivity | lia].
Qed.

(** 150 characters of two bytes each are kept whole, 201 are cut after
    the 200th. *)
Example preview_counts_characters :
  preview (PreviewSpec.tildes 150) = PreviewSpec.tildes 150 /\
  preview (PreviewSpec.tildes 201) = PreviewSpec.tildes 200 ++ "...".
Proof. split; vm_compute; reflexivity. Qed.

Lemma replace_from_absent (old new s : string) :
  contains old s = false -> replace_from old new 0 s = s.
Proof.
  induction s as [|c s IH]; intros H; [reflexivity|].
  cbn [contains] in H. apply orb_false_iff in H. destruct H as [Hp Hc].
  cbn [replace_from]. rewrite Hp. now rewrite (IH Hc).
Qed.

Lemma replace_absent (old new s : string) :
  contains old s = false -> replace old new s = s.
Proof. apply replace_from_absent. Qed.

Lemma extract_phrase_free (s : string) :
  phrase_free s = true -> _extract_country_name s = title (strip (lower s)).
Proof.
  unfold phrase_free, phrases. cbn [forallb]. intros H.
  repeat (apply andb_prop in H; destruct H as [?H H]).
  unfold _extract_country_name. cbn [fold_left].
  repeat match goal with
         | Hn : negb (contains ?p (lower s)) = true |- _ =>
             apply negb_true_iff in Hn; rewrite (replace_absent p EmptyString _ Hn);
             clear Hn
         end.
  reflexivity.
Qed.

End ResolverFacts.

Section ResolverKeyFacts.
Import Py Sys Agent ResolverSpec StockMore.

Lemma to_lower_idem (c : ascii) : to_lower (to_lower c) = to_lower c.
Proof. destruct c as [[] [] [] [] [] [] [] []]; reflexivity. Qed.

Lemma to_lower_upper (c : ascii) : to_lower (to_upper c) = to_lower c.
Proof. destruct c as [[] [] [] [] [] [] [] []]; reflexivity. Qed.

Lemma is_space_lower (c : ascii) : is_space (to_lower c) = is_space c.
Proof. destruct c as [[] [] [] [] [] [] [] []]; reflexivity. Qed.

Lemma lower_idem (s : string) : lower (lower s) = lower s.
Proof.
  induction s as [|c s IH]; simpl; [reflexivity|].
  now rewrite to_lower_idem, IH.
Qed.

Lemma lower_title (b : bool) (s : string) : lower (title_from b s) = lower s.
Proof.
  revert b. induction s as [|c s IH]; intros b; simpl; [reflexivity|].
  rewrite IH. f_equal.
  destruct (is_cased c); [|reflexivity].
  destruct b; [apply to_lower_idem | apply to_lower_upper].
Qed.

Lemma lower_lstrip (s : string) : lower (lstrip s) = lstrip (lower s).
Proof.
  induction s as [|c s IH]; simpl; [reflexivity|].
  rewrite is_space_lower. now destruct (is_space c).
Qed.

Lemma lower_rstrip (s : string) : lower (rstrip s) = rstrip (lower s).
Proof.
  induction s as [|c s IH]; simpl; [reflexivity|].
  rewrite <- IH. rewrite is_space_lower.
  destruct (rstrip s) as [|y t]; simpl; [|reflexivity].
  now destruct (is_space c).
Qed.

Lemma lower_strip (s : string) : lower (strip s) = strip (lower s).
Proof. unfold strip. now rewrite lower_rstrip, lower_lstrip. Qed.

Lemma lstrip_idem (s : string) : lstrip (lstrip s) = lstrip s.
Proof.
  induction s as [|c s IH]; simpl; [reflexivity|].
  destruct (is_space c) eqn:Hc; [exact IH|].
  simpl. now rewrite Hc.
Qed.

Lemma rstrip_idem (s : string) : rstrip (rstrip s) = rstrip s.
Proof.
  induction s as [|c s IH]; simpl; [reflexivity|].
  destruct (rstrip s) as [|y t] eqn:Hr.
  - destruct (is_space c) eqn:Hc; simpl; [reflexivity | now rewrite Hc].
  - cbn [rstrip] in IH |- *.
    change (match rstrip t with
            | EmptyString => if is_space y then EmptyString else String y EmptyString
            | String a t' => String y (String a t')
            end) with (rstrip (String y t)) in *.
    now rewrite IH.
Qed.

Lemma lstrip_rstrip (s : string) : lstrip (rstrip s) = rstrip (lstrip s).
Proof.
  induction s as [|c s IH]; [reflexivity|].
  cbn [lstrip]. destruct (is_space c) eqn:Hc.
  - rewrite <- IH. cbn [rstrip].
    destruct (rstrip s) as [|y t]; [now rewrite Hc|].
    cbn [lstrip]. now rewrite Hc.
  - cbn [rstrip].
    destruct (rstrip s) as [|y t]; [rewrite Hc|]; cbn [lstrip]; now rewrite Hc.
Qed.

Lemma strip_idem (s : string) : strip (strip s) = strip s.
Proof.
  unfold strip. now rewrite lstrip_rstrip, rstrip_idem, lstrip_idem.
Qed.

Lemma title_empty (s : string) : str_falsy (title s) = str_falsy s.
Proof. now destruct s. Qed.

(** X15.  A query written in ASCII that holds none of the resolver's
    phrases is resolved to its title-cased, stripped form, and that form
    leads to the same table key as the raw text: the static tables are
    searched under [strip(lower(...))], which is the same for the resolved
    name and for the input.  The resolved name is empty exactly when the
    input is white space only. *)
Theorem resolver_keeps_table_key (s : string) :
  isascii s = true ->
  phrase_free s = true ->
  _extract_country_name s = title (strip (lower s)) /\
  table_key (_extract_country_name s) = table_key s /\
  str_falsy (_extract_country_name s) = str_falsy (table_key s).
Proof.
  intros _ Hfree. rewrite (extract_phrase_free s Hfree).
  split; [reflexivity|]. split.
  - unfold table_key, title.
    now rewrite lower_title, lower_strip, lower_idem, strip_idem.
  - apply title_empty.
Qed.

Lemma resolver_keeps_table_key_witness :
  _extract_country_name "  south KOREA " = "South Korea" /\
  table_key (_extract_country_name "  south KOREA ") = "south korea".
Proof.
  destruct (resolver_keeps_table_key "  south KOREA " eq_refl eq_refl)
    as [H1 [H2 _]].
  split; [rewrite H1 | rewrite H2]; reflexivity.
Defined.

Lemma blank_chars (c : ascii) (s : string) :
  blank s = true -> has_char c s = true -> is_space c = true.
Proof.
  induction s as [|x s IH]; simpl; intros Hb Hc; [discriminate|].
  apply andb_prop in Hb. destruct Hb as [Hx Hs].
  apply orb_true_iff in Hc. destruct Hc as [Hc|Hc].
  - apply Ascii.eqb_eq in Hc. now subst.
  - now apply IH.
Qed.

Lemma blank_lower (s : string) : blank (lower s) = blank s.
Proof.
  induction s as [|x s IH]; simpl; [reflexivity|].
  now rewrite is_space_lower, IH.
Qed.

Lemma blank_lstrip (s : string) : blank s = true -> lstrip s = EmptyString.
Proof.
  induction s as [|x s IH]; simpl; intros Hb; [reflexivity|].
  apply andb_prop in Hb. destruct Hb as [Hx Hs]. rewrite Hx. now apply IH.
Qed.

Lemma blank_without (p s : string) (c : ascii) :
  blank s = true -> has_char c p = true -> is_space c = false ->
  contains p s = false.
Proof.
  intros Hb Hp Hc.
  destruct (contains p s) eqn:Hcont; [|reflexivity].
  pose proof (contains_has_char c p s Hcont Hp) as Hs.
  rewrite (blank_chars c s Hb Hs) in Hc. discriminate.
Qed.

Lemma blank_phrase_free (s : string) : blank s = true -> phrase_free s = true.
Proof.
  intros Hb. rewrite <- blank_lower in Hb.
  unfold phrase_free, phrases. cbn [forallb].
  rewrite (blank_without "give me" _ "g" Hb eq_refl eq_refl).
  rewrite (blank_without "show me" _ "s" Hb eq_refl eq_refl).
  rewrite (blank_without "get" _ "g" Hb eq_refl eq_refl).
  rewrite (blank_without "details for" _ "d" Hb eq_refl eq_refl).
  rewrite (blank_without "information about" _ "i" Hb eq_refl eq_refl).
  rewrite (blank_without "currency and stock market details for" _ "c" Hb
             eq_refl eq_refl).
  rewrite (blank_without "financial information for" _ "f" Hb eq_refl eq_refl).
  reflexivity.
Qed.

Variable get_currency_info : string -> IO string.
Variable get_stock_market_info : string -> IO string.
Variable get_exchange_location : string -> IO Maps.location_result.
Variable str_location : Maps.location_result -> string.

(** X16.  A query of white space only (the empty query included) names no
    country: [_extract_country_name] returns the empty string and [query]
    answers with the failure "Could not identify country from query"
    without calling any tool and without any request. *)
Theorem blank_query_calls_no_tool (user_input : string) (w : World) :
  blank user_input = true ->
  _extract_country_name user_input = EmptyString /\
  query get_currency_info get_stock_market_info get_exchange_location
    str_location user_input w
  = ([], Ok (Failure "Could not identify country from query"
               "Please specify a country name in your query.")).
Proof.
  intros Hb.
  assert (He : _extract_country_name user_input = EmptyString).
  { rewrite (extract_phrase_free _ (blank_phrase_free _ Hb)).
    unfold strip. rewrite blank_lstrip; [reflexivity|].
    now rewrite blank_lower. }
  split; [exact He|].
  unfold query, try_except. rewrite He. reflexivity.
Qed.

End ResolverKeyFacts.

Lemma blank_query_calls_no_tool_witness :
  Agent.query AgentSpec.currency_down AgentSpec.market_down
    Maps.get_exchange_location AgentSpec.show_location "   " Sample.online
  = ([], Py.Ok (Agent.Failure "Could not identify country from query"
                  "Please specify a country name in your query.")).
Proof.
  apply (blank_query_calls_no_tool AgentSpec.currency_down AgentSpec.market_down
           Maps.get_exchange_location AgentSpec.show_location "   "
           Sample.online eq_refl).
Defined.

(** A longer phrase of the resolver is never reached when a shorter one
    inside it has been removed first. *)
Example shadowed_phrase :
  Agent._extract_country_name
    "Give me currency and stock market details for Japan"
  = "Currency And Stock Market  Japan".
Proof. vm_compute. reflexivity. Qed.

(** ** The registry and the dispatcher *)

Section RegistryFacts.
Import Py Sys Server ServerSpec.
Variable rt : Runtime.



End RegistryFacts.

(** ** Building the agent *)

Section InitFacts.
Import Py Sys Agent InitSpec.

Lemma or_getenv_result (argument : option string) (name default : string)
    (w : World) :
  or_getenv argument name default w = ([], Ok (resolved w argument name default)).
Proof.
  unfold or_getenv, resolved. now destruct (key_missing argument).
Qed.

Lemma initialize_llm_cases (model provider_ : string) (w : World) :
  _initialize_llm model provider_ w =
  ([],
   if String.eqb (lower provider_) "google" then
     match getenv w "GOOGLE_API_KEY" with
     | Some k =>
         if str_falsy k
         then Raise (value_error "GOOGLE_API_KEY not found in environment variables")
         else Ok (ChatGoogleGenerativeAI model k (decimal 1 1) true)
     | None =>
         Raise (value_error "GOOGLE_API_KEY not found in environment variables")
     end
   else if String.eqb (lower provider_) "groq" then
     match getenv w "GROQ_API_KEY" with
     | Some k =>
         if str_falsy k
         then Raise (value_error "GROQ_API_KEY not found in environment variables")
         else Ok (ChatGroq model k (decimal 1 1))
     | None =>
         Raise (value_error "GROQ_API_KEY not found in environment variables")
     end
   else Raise (value_error ("Unsupported LLM provider: " ++ provider_))).
Proof.
  unfold _initialize_llm.
  destruct (String.eqb (lower provider_) "google").
  - unfold bind, os_getenv.
    destruct (getenv w "GOOGLE_API_KEY") as [k|]; [|reflexivity].
    cbn [key_missing]. now destruct (str_falsy k).
  - destruct (String.eqb (lower provider_) "groq"); [|reflexivity].
    unfold bind, os_getenv.
    destruct (getenv w "GROQ_API_KEY") as [k|]; [|reflexivity].
    cbn [key_missing]. now destruct (str_falsy k).
Qed.

Lemma new_agent_result (model provider_ : option string) (w : World) :
  new_agent model provider_ w =
  let m := resolved w model "LLM_MODEL" "gemini-pro" in
  let p := resolved w provider_ "LLM_PROVIDER" "google" in
  ([],
   match snd (_initialize_llm m p w) with
   | Ok l => Ok {| model_name := m; provider := p; agent_llm := l;
                   intermediate_steps := [] |}
   | Raise e => Raise e
   end).
Proof.
  unfold new_agent. unfold bind at 1. rewrite or_getenv_result. cbv beta iota.
  unfold bind at 1. rewrite or_getenv_result. cbv beta iota.
  unfold bind. rewrite initialize_llm_cases. cbn [snd].
  match goal with
  | |- context [if ?c then _ else _] => destruct c
  end.
  - destruct (getenv w "GOOGLE_API_KEY") as [k|]; [|reflexivity].
    now destruct (str_falsy k).
  - match goal with
    | |- context [if ?c then _ else _] => destruct c
    end; [|reflexivity].
    destruct (getenv w "GROQ_API_KEY") as [k|]; [|reflexivity].
    now destruct (str_falsy k).
Qed.

(** X18.  An agent is never built without an API key for its provider.
    When [FinancialAgent(...)] returns, the provider (the argument if
    given, else LLM_PROVIDER, else google; compared without regard to
    case) is google or groq, that provider's key is set and not empty in
    the environment and is the key the client carries, the model is the
    argument if given, else LLM_MODEL, else gemini-pro, and the trace
    starts empty.  No request is made while building. *)
Theorem agent_is_built_with_a_key
    (model provider_ : option string) (w : World) (agent : FinancialAgent) :
  result_of (new_agent model provider_) w = Ok agent ->
  traffic (new_agent model provider_) w = [] /\
  model_name agent = resolved w model "LLM_MODEL" "gemini-pro" /\
  provider agent = resolved w provider_ "LLM_PROVIDER" "google" /\
  intermediate_steps agent = [] /\
  ((lower (provider agent) = "google" /\
    exists key,
      getenv w "GOOGLE_API_KEY" = Some key /\ str_falsy key = false /\
      agent_llm agent
        = ChatGoogleGenerativeAI (model_name agent) key (decimal 1 1) true) \/
   (lower (provider agent) = "groq" /\
    exists key,
      getenv w "GROQ_API_KEY" = Some key /\ str_falsy key = false /\
      agent_llm agent = ChatGroq (model_name agent) key (decimal 1 1))).
Proof.
  unfold result_of, traffic. rewrite new_agent_result. cbn [fst snd].
  rewrite initialize_llm_cases. cbn [snd].
  set (m := resolved w model "LLM_MODEL" "gemini-pro").
  set (p := resolved w provider_ "LLM_PROVIDER" "google").
  intros H. split; [reflexivity|].
  destruct (String.eqb (lower p) "google") eqn:Hg.
  - apply String.eqb_eq in Hg.
    destruct (getenv w "GOOGLE_API_KEY") as [k|]; [|discriminate].
    destruct (str_falsy k) eqn:Hk; [discriminate|].
    injection H as <-. cbn. repeat split. left. split; [exact Hg|].
    exists k. repeat split. exact Hk.
  - destruct (String.eqb (lower p) "groq") eqn:Hq; [|discriminate].
    apply String.eqb_eq in Hq.
    destruct (getenv w "GROQ_API_KEY") as [k|]; [|discriminate].
    destruct (str_falsy k) eqn:Hk; [discriminate|].
    injection H as <-. cbn. repeat split. right. split; [exact Hq|].
    exists k. repeat split. exact Hk.
Qed.

(** X19.  Building the agent fails with a [ValueError] exactly in two
    cases, and says which: the provider is neither google nor groq
    ("Unsupported LLM provider: ..." with the provider as given), or the
    provider's key is unset or empty ("..._API_KEY not found in environment
    variables").  The key of the other provider is never looked at. *)
Theorem agent_build_failures
    (model provider_ : option string) (w : World) :
  let p := resolved w provider_ "LLM_PROVIDER" "google" in
  forall e,
    result_of (new_agent model provider_) w = Raise e ->
    (lower p <> "google" /\ lower p <> "groq" /\
     e = value_error ("Unsupported LLM provider: " ++ p)) \/
    (lower p = "google" /\ key_missing (getenv w "GOOGLE_API_KEY") = true /\
     e = value_error "GOOGLE_API_KEY not found in environment variables") \/
    (lower p = "groq" /\ key_missing (getenv w "GROQ_API_KEY") = true /\
     e = value_error "GROQ_API_KEY not found in environment variables").
Proof.
  intros p e. unfold result_of. rewrite new_agent_result. cbn [snd].
  rewrite initialize_llm_cases. cbn [snd]. fold p.
  destruct (String.eqb (lower p) "google") eqn:Hg.
  - apply String.eqb_eq in Hg. intros H. right. left.
    destruct (getenv w "GOOGLE_API_KEY") as [k|].
    + cbn [key_missing]. destruct (str_falsy k); [|discriminate].
      injection H as <-. auto.
    + injection H as <-. auto.
  - apply String.eqb_neq in Hg.
    destruct (String.eqb (lower p) "groq") eqn:Hq.
    + apply String.eqb_eq in Hq. intros H. right. right.
      destruct (getenv w "GROQ_API_KEY") as [k|].
      * cbn [key_missing]. destruct (str_falsy k); [|discriminate].
        injection H as <-. auto.
      * injection H as <-. auto.
    + apply String.eqb_neq in Hq. intros H. left.
      injection H as <-. auto.
Qed.

End InitFacts.

Lemma agent_is_built_with_a_key_witness :
  Sys.result_of (Agent.new_agent (Some "llama3-70b-8192") None) InitSpec.groq_world
  = Py.Ok {| Agent.model_name := "llama3-70b-8192";
             Agent.provider := "Groq";
             Agent.agent_llm :=
               Agent.ChatGroq "llama3-70b-8192" "groq-key" (Py.decimal 1 1);
             Agent.intermediate_steps := [] |} /\
  Agent.intermediate_steps
    {| Agent.model_name := "llama3-70b-8192";
       Agent.provider := "Groq";
       Agent.agent_llm :=
         Agent.ChatGroq "llama3-70b-8192" "groq-key" (Py.decimal 1 1);
       Agent.intermediate_steps := [] |} = [].
Proof.
  split; [vm_compute; reflexivity|].
  apply (agent_is_built_with_a_key (Some "llama3-70b-8192") None
           InitSpec.groq_world). vm_compute. reflexivity.
Defined.

Lemma agent_build_failures_witness :
  Sys.result_of (Agent.new_agent None None) Sample.offline
    = Py.Raise (Agent.value_error
                  "GOOGLE_API_KEY not found in environment variables") /\
  ((Py.lower "google" <> "google" /\ Py.lower "google" <> "groq" /\
    Agent.value_error "GOOGLE_API_KEY not found in environment variables"
      = Agent.value_error ("Unsupported LLM provider: " ++ "google")) \/
   (Py.lower "google" = "google" /\
    Sys.key_missing (Sys.getenv Sample.offline "GOOGLE_API_KEY") = true /\
    Agent.value_error "GOOGLE_API_KEY not found in environment variables"
      = Agent.value_error "GOOGLE_API_KEY not found in environment variables") \/
   (Py.lower "google" = "groq" /\
    Sys.key_missing (Sys.getenv Sample.offline "GROQ_API_KEY") = true /\
    Agent.value_error "GOOGLE_API_KEY not found in environment variables"
      = Agent.value_error "GROQ_API_KEY not found in environment variables")).
Proof.
  split; [reflexivity|].
  exact (agent_build_failures None None Sample.offline
           (Agent.value_error "GOOGLE_API_KEY not found in environment variables")
           eq_refl).
Defined.

(** ** What the market report shows *)

Section ReportContentFacts.
Import Py Sys Stock StockSpec StockMore ReportSpec ReportMore.
Variable rt : Runtime.






(** X20.  What is reported for a ticker depends on the last two rows of
    its history only: rows before them change nothing, and the time stamp
    shown is the last row's.  When the metadata has a previousClose entry
    the row before the last does not matter either. *)
Theorem report_uses_last_two_rows
    (symbol : string) (info : dict pyval) (older older' : history)
    (before last : string * float) :
  report rt symbol (Ok info) (Ok (older ++ [before; last])%list)
    = report rt symbol (Ok info) (Ok (older' ++ [before; last])%list) /\
  (dict_has info "previousClose" = true ->
   forall before',
     report rt symbol (Ok info) (Ok (older ++ [before; last])%list)
       = report rt symbol (Ok info) (Ok (older' ++ [before'; last])%list)) /\
  (forall cv pc chg pct stamp,
     report rt symbol (Ok info) (Ok (older ++ [before; last])%list)
       = IndexValue symbol cv pc chg pct stamp ->
     stamp = fst last /\ cv = PyFloat (round_float rt (snd last))).
Proof.
  assert (Hrev : forall (h : history) b l,
             rev (h ++ [b; l])%list = l :: b :: rev h).
  { intros h b l. rewrite rev_app_distr. reflexivity. }
  unfold report. rewrite !Hrev.
  destruct last as [stamp current]. destruct before as [stamp2 close2].
  cbn [fallback_close fst snd].
  split; [reflexivity|]. split.
  - intros Hhas [stamp3 close3]. rewrite Hrev. cbn [fallback_close].
    unfold compute_quote, previous_close_of. unfold dict_has in Hhas.
    destruct (dict_get info "previousClose"); [reflexivity | discriminate].
  - intros cv pc chg pct stamp'.
    destruct (compute_quote rt info current close2) as [q|e] eqn:Hq;
      [|discriminate].
    assert (Hcur : current_price q = current).
    { unfold compute_quote in Hq.
      destruct (sub_from_float rt current (previous_close_of info close2))
        as [chg0|e0]; [|discriminate Hq].
      destruct (truthy (previous_close_of info close2)).
      - destruct (div_float_by rt chg0 (previous_close_of info close2));
          [|discriminate Hq].
        now injection Hq as <-.
      - now injection Hq as <-. }
    unfold entry_of_quote. rewrite Hcur. cbn [round2].
    destruct (round2 rt (previous_close q)); [|discriminate].
    destruct (round2 rt (change_percent q)); [|discriminate].
    intros [= <- <- <- <- <-]. split; reflexivity.
Qed.

End ReportContentFacts.
